(** * SKNWPL meetings pipeline: a shallow embedding and its properties

    The development follows the Python sources

      - [cluster/full_pipeline.py]              (orchestrator, ledger)
      - [src/transcript_tools/transcription.py] (advisor, transcription adapter)
      - [src/transcript_tools/audio_to_video.py](video encoder adapter)
      - [src/transcript_tools/upload_youtube.py](publish adapter)

    Modelling conventions.

      - A Python [str] is a [string]; every [ascii] stands for the code
        point of the same number (the Latin-1 range, 0..255).  Code points
        above 255 are outside the model.
      - A Python [int] is a [Z].  The interpreter's configurable limit on
        the length of decimal conversions ([sys.set_int_max_str_digits])
        is not modelled: conversions are unbounded.
      - A Python [float] that measures seconds or gigabytes is an exact
        rational [Q]; binary rounding inside the float operations is
        idealised.
      - A [pathlib.Path] is the list of its [parts]; the file store is a
        finite map from such lexical paths to the text of regular files.
        Directories are implicit, so [mkdir(parents=True, exist_ok=True)]
        has no effect on the store, and operating-system failures
        (permissions, full disk) are not modelled.
      - Console output ([print], [logger.info]) is not modelled; of a
        message that spans several lines the first line is kept.
        Literals of the sources that hold characters above 127 (they
        occur in messages, tags and descriptions only) are given in their
        UTF-8 encoding.
      - Third-party engines (faster-whisper, the OpenAI client, ffmpeg,
        ffprobe, the YouTube client, torch, psutil) are oracles collected
        in a record; every call that runs an engine, starts a process or
        opens a session with a remote service is appended to a log. *)

From Stdlib Require Import ZArith QArith Qround Ascii String List Lia.
From Stdlib Require Import DecimalString DecimalZ DecimalPos DecimalFacts.
From stdpp Require Import base option list gmap strings.

Local Open Scope string_scope.
Local Open Scope Z_scope.
Local Open Scope list_scope.

(** ** Python strings *)

Module PyStr.

(** [str.isspace] on one character, restricted to code points below 256. *)
Definition isspace (c : ascii) : bool :=
  match N_of_ascii c with
  | 9 | 10 | 11 | 12 | 13 | 28 | 29 | 30 | 31 | 32 | 133 | 160 => true
  | _ => false
  end%N.

Fixpoint lstrip (s : string) : string :=
  match s with
  | String c s' => if isspace c then lstrip s' else s
  | EmptyString => EmptyString
  end.

Fixpoint rstrip (s : string) : string :=
  match s with
  | EmptyString => EmptyString
  | String c s' =>
      match rstrip s' with
      | EmptyString => if isspace c then EmptyString else String c EmptyString
      | r => String c r
      end
  end.

(** [s.strip()] *)
Definition strip (s : string) : string := rstrip (lstrip s).

(** [sub in s] *)
Fixpoint contains (sub s : string) : bool :=
  String.prefix sub s ||
  match s with
  | EmptyString => false
  | String _ s' => contains sub s'
  end.

(** [s.split(sep)] for a non-empty [sep]: the text is cut at the
    non-overlapping occurrences of [sep], found from left to right.
    [skip] counts the characters of a matched separator that are still
    to be passed over; [cur] is the piece being collected. *)
Fixpoint split_from (sep : string) (skip : nat) (cur s : string) : list string :=
  match s with
  | EmptyString => [cur]
  | String c s' =>
      match skip with
      | S k => split_from sep k cur s'
      | O =>
          if String.prefix sep s
          then cur :: split_from sep (Nat.pred (String.length sep)) EmptyString s'
          else split_from sep 0 (cur +:+ String c EmptyString) s'
      end
  end.

Definition split (sep s : string) : list string := split_from sep 0 EmptyString s.

(** All characters of a text but the last. *)
Fixpoint str_init (s : string) : string :=
  match s with
  | EmptyString => EmptyString
  | String c EmptyString => EmptyString
  | String c s' => String c (str_init s')
  end.

(** [sep.join(parts)] *)
Fixpoint join (sep : string) (parts : list string) : string :=
  match parts with
  | [] => EmptyString
  | [p] => p
  | p :: ps => p +:+ sep +:+ join sep ps
  end.

(** Text-mode reading with universal newlines: [\r\n] and a lone [\r]
    are both delivered as [\n]. *)
Fixpoint universal_newlines (s : string) : string :=
  match s with
  | EmptyString => EmptyString
  | String "013" (String "010" s') => String "010" (universal_newlines s')
  | String "013" s' => String "010" (universal_newlines s')
  | String c s' => String c (universal_newlines s')
  end.

(** No character of [s] satisfies [p]. *)
Fixpoint free_of (p : ascii → bool) (s : string) : bool :=
  match s with
  | EmptyString => true
  | String c s' => negb (p c) && free_of p s'
  end.

Definition is_line_break (c : ascii) : bool :=
  Ascii.eqb c "010" || Ascii.eqb c "013".

(** The text holds neither [\n] nor [\r]. *)
Definition single_line (s : string) : Prop := free_of is_line_break s = true.

End PyStr.

(** ** Python integers: [int(str)], [str(int)] and the [0wd] format *)

Module PyInt.

(** Whitespace that [int()] tolerates around a numeral.  Below 128 this
    is C's [isspace]; the separators 28..31, which [str.strip] removes,
    are not accepted here. *)
Definition int_isspace (c : ascii) : bool :=
  match N_of_ascii c with
  | 9 | 10 | 11 | 12 | 13 | 32 | 133 | 160 => true
  | _ => false
  end%N.

Fixpoint int_lstrip (s : string) : string :=
  match s with
  | String c s' => if int_isspace c then int_lstrip s' else s
  | EmptyString => EmptyString
  end.

Fixpoint int_rstrip (s : string) : string :=
  match s with
  | EmptyString => EmptyString
  | String c s' =>
      match int_rstrip s' with
      | EmptyString => if int_isspace c then EmptyString else String c EmptyString
      | r => String c r
      end
  end.

Definition digit_value (c : ascii) : option Z :=
  let n := N_of_ascii c in
  if ((48 <=? n) && (n <=? 57))%N then Some (Z.of_N n - 48) else None.

(** Decimal digits with single underscores allowed between digits.
    [after_digit] tells whether the previous character was a digit. *)
Fixpoint digits_from (acc : Z) (after_digit : bool) (s : string) : option Z :=
  match s with
  | EmptyString => if after_digit then Some acc else None
  | String c s' =>
      match digit_value c with
      | Some d => digits_from (10 * acc + d) true s'
      | None =>
          if Ascii.eqb c "_" && after_digit
          then digits_from acc false s'
          else None
      end
  end.

(** The value that [int(s)] gives to a numeral in base ten, whatever its
    length; [None] stands for the [ValueError] raised on a text that is
    not a numeral. *)
Definition py_int (s : string) : option Z :=
  match int_rstrip (int_lstrip s) with
  | String "+" r => digits_from 0 false r
  | String "-" r => Z.opp <$> digits_from 0 false r
  | t => digits_from 0 false t
  end.

(** [int(s)] as the interpreter runs it by default: a text with more
    than 4300 digits raises [ValueError] as well
    ([sys.get_int_max_str_digits()] is 4300 unless it is reconfigured). *)
Fixpoint digit_count (s : string) : nat :=
  match s with
  | EmptyString => 0
  | String c s' => (if digit_value c is Some _ then 1 else 0) + digit_count s'
  end.

Definition int_max_str_digits : nat := 4300.

Definition py_int_limited (s : string) : option Z :=
  if (int_max_str_digits <? digit_count s)%nat then None else py_int s.

(** [str(n)], which is also what [f"{n}"] renders. *)
Definition py_str (n : Z) : string := NilZero.string_of_int (Z.to_int n).

Fixpoint zeros (k : nat) : string :=
  match k with
  | O => EmptyString
  | S k' => String "0" (zeros k')
  end.

(** [f"{n:0wd}"]: sign-aware zero padding to at least [w] characters. *)
Definition format_0wd (w : nat) (n : Z) : string :=
  if n <? 0
  then
    let d := py_str (- n) in
    String "-" (zeros (Nat.pred w - String.length d) +:+ d)
  else
    let d := py_str n in
    zeros (w - String.length d) +:+ d.

(** A property of characters that holds of no decimal digit. *)
Definition avoids_digits (p : ascii → bool) : Prop :=
  (p "0" = false ∧ p "1" = false ∧ p "2" = false ∧ p "3" = false ∧ p "4" = false ∧
   p "5" = false ∧ p "6" = false ∧ p "7" = false ∧ p "8" = false ∧ p "9" = false)%char.

End PyInt.

Import PyStr PyInt.


(** ** pathlib paths *)

Module PyPath.

(** A path is the list of its [parts]; an absolute path starts with the
    anchor ["/"].  [Path(str(p))] and [str(Path(s))] are identities on this
    representation. *)
Definition path : Type := list string.

(** The parts that a string contributes to a path: empty pieces and ["."]
    are dropped. *)
Definition pure_parts (s : string) : list string :=
  filter (λ p, p ≠ "" ∧ p ≠ ".") (split "/" s).

(** [base / s] *)
Definition joinpath (base : path) (s : string) : path :=
  if String.prefix "/" s then "/" :: pure_parts s else base ++ pure_parts s.

(** The text holds no path separator. *)
Definition slash_free (s : string) : Prop := free_of (Ascii.eqb "/") s = true.

(** [Path(s)] *)
Definition Path (s : string) : path := joinpath [] s.

(** [p.parent] *)
Definition parent (p : path) : path :=
  if decide (p = ["/"]) then ["/"] else removelast p.

(** [p.name] *)
Definition name (p : path) : string :=
  if decide (p = ["/"]) then "" else List.last p "".

(** [s.rfind(".")], counted from position [i]. *)
Fixpoint rfind_dot (s : string) (i : nat) : option nat :=
  match s with
  | EmptyString => None
  | String c s' =>
      match rfind_dot s' (S i) with
      | Some j => Some j
      | None => if Ascii.eqb c "." then Some i else None
      end
  end.

(** The stem of a file name: the name without its last suffix. *)
Definition stem_of_name (n : string) : string :=
  match rfind_dot n 0 with
  | Some i =>
      if (0 <? i)%nat && (i <? String.length n - 1)%nat
      then String.substring 0 i n
      else n
  | None => n
  end.

(** [p.stem] *)
Definition stem (p : path) : string := stem_of_name (name p).

(** [p.with_suffix(".mp4")]; [None] stands for the [ValueError] raised on
    an empty name. *)
Definition with_suffix_mp4 (p : path) : option path :=
  if decide (name p = "") then None
  else Some (removelast p ++ [stem p +:+ ".mp4"]).

(** [str(p)] *)
Definition path_str (p : path) : string :=
  match p with
  | [] => "."
  | "/" :: rest => "/" +:+ join "/" rest
  | _ => join "/" p
  end.

End PyPath.

Import PyPath.

(** ** Exceptions and results *)

Inductive exn : Type :=
| ImportError (msg : string)
| FileNotFoundError (msg : string)
| RuntimeError (msg : string)
| ValueError (msg : string)
| TypeError (msg : string)
| OverflowError (msg : string)
| UnicodeDecodeError (msg : string)
| IsADirectoryError (msg : string)
| FileExistsError (msg : string)
| NotADirectoryError (msg : string)
| EngineError (msg : string).   (* raised inside a third-party engine *)

Inductive outcome (A : Type) : Type :=
| Returned (a : A)
| Raised (e : exn).
Arguments Returned {A} a.
Arguments Raised {A} e.

#[global] Instance outcome_ret : MRet outcome := λ A a, Returned a.
#[global] Instance outcome_bind : MBind outcome := λ A B f o,
  match o with
  | Returned a => f a
  | Raised e => Raised e
  end.

(** A loop that builds a list and stops at the first exception. *)
Fixpoint for_each {A B : Type} (f : A → outcome B) (l : list A) : outcome (list B) :=
  match l with
  | [] => Returned []
  | x :: l' =>
      match f x with
      | Raised e => Raised e
      | Returned y =>
          match for_each f l' with
          | Raised e => Raised e
          | Returned ys => Returned (y :: ys)
          end
      end
  end.

(** ** Time stamps ([transcription.py], [format_timestamp]) *)

Module PyTime.

(** Rounding of a rational to the nearest integer, ties to even. *)
Definition round_half_even (q : Q) : Z :=
  let n := Qnum q in
  let d := Z.pos (Qden q) in
  let f := n / d in
  let r := n mod d in
  if 2 * r <? d then f
  else if d <? 2 * r then f + 1
  else if Z.even f then f else f + 1.

(** A [timedelta] is its length in microseconds. *)
Definition timedelta : Type := Z.

(** [timedelta(seconds=s)]: the argument is rounded to the nearest
    microsecond; a value whose day count exceeds 999999999 in magnitude
    raises [OverflowError]. *)
Definition timedelta_of_seconds (s : Q) : outcome timedelta :=
  let us := round_half_even (s * (1000000 # 1)) in
  let days := us / 86400000000 in
  if (Z.abs days <=? 999999999)
  then Returned us
  else Raised (OverflowError "days out of range").

(** [td.total_seconds()] *)
Definition total_seconds (td : timedelta) : Q := td # 1000000.

(** [int(x)] on a float: truncation towards zero. *)
Definition int_of_float (x : Q) : Z := Z.quot (Qnum x) (Z.pos (Qden x)).

Definition format_timestamp (seconds : Q) : outcome string :=
  td ← timedelta_of_seconds seconds;
  let total := int_of_float (total_seconds td) in
  let hours := total / 3600 in
  let remainder := total mod 3600 in
  let minutes := remainder / 60 in
  let secs := remainder mod 60 in
  mret (format_0wd 2 hours +:+ ":" +:+ format_0wd 2 minutes +:+ ":" +:+ format_0wd 2 secs).

(** [HH:MM:SS] for a whole number of seconds, with the hours taken as
    they are. *)
Definition render_hms (t : Z) : string :=
  format_0wd 2 (t / 3600) +:+ ":" +:+ format_0wd 2 (t mod 3600 / 60)
  +:+ ":" +:+ format_0wd 2 (t mod 60).

End PyTime.

Import PyTime.

(** ** The advisor ([transcription.py], [detect_device], [get_optimal_settings]) *)

(** What the host offers: [torch_cuda] is [None] when [import torch]
    fails and otherwise the answer of [torch.cuda.is_available()];
    [psutil_available_gb] is [None] when [import psutil] fails and
    otherwise [psutil.virtual_memory().available / (1024**3)]. *)
Record host : Type := {
  torch_cuda : option bool;
  psutil_available_gb : option Q;
}.

(** The dictionary returned by [get_optimal_settings]. *)
Record settings : Type := {
  s_model_size : string;
  s_compute_type : string;
  s_batch_size : Z;
  s_beam_size : Z;
  s_cpu_threads : Z;
}.

Definition detect_device (h : host) : string * string :=
  match torch_cuda h with
  | Some true => ("cuda", "float16")
  | _ => ("cpu", "int8")
  end.

(** [x or d] on an optional float: [None] and [0.0] are falsy. *)
Definition float_or (x : option Q) (d : Q) : Q :=
  match x with
  | Some v => if Qeq_bool v 0 then d else v
  | None => d
  end.

(** [x or d] on an optional string: [None] and [""] are falsy. *)
Definition str_or (x : option string) (d : string) : string :=
  match x with
  | Some v => if decide (v = "") then d else v
  | None => d
  end.

(** [x or d] on an optional integer: [None] and [0] are falsy. *)
Definition int_or (x : option Z) (d : Z) : Z :=
  match x with
  | Some v => if decide (v = 0) then d else v
  | None => d
  end.

(** The value of the local variable [available_ram_gb] when the memory
    branch is taken: the measurement when psutil can be imported, and
    otherwise the caller's figure, with 4 GB assumed when there is none. *)
Definition resolve_available_ram (h : host) (available_ram_gb : option Q) : Q :=
  match psutil_available_gb h with
  | Some measured => measured
  | None => float_or available_ram_gb 4
  end.

Definition get_optimal_settings (h : host) (device : string)
    (available_ram_gb : option Q) : settings :=
  if decide (device = "cuda") then
    {| s_model_size := "medium"; s_compute_type := "float16";
       s_batch_size := 8; s_beam_size := 5; s_cpu_threads := 4 |}
  else
    let available_ram_gb := resolve_available_ram h available_ram_gb in
    if Qle_bool 4 available_ram_gb then
      {| s_model_size := "small"; s_compute_type := "int8";
         s_batch_size := 8; s_beam_size := 5; s_cpu_threads := 0 |}
    else
      {| s_model_size := "small"; s_compute_type := "int8";
         s_batch_size := 1; s_beam_size := 5; s_cpu_threads := 0 |}.

(** ** Transcription data *)

(** A segment as an engine yields it. *)
Record raw_segment : Type := {
  rs_start : Q;
  rs_end : Q;
  rs_text : string;
}.

(** The dictionary [seg_data] built for every segment. *)
Record seg_data : Type := {
  seg_start : Q;
  seg_end : Q;
  seg_text : string;
  seg_start_formatted : string;
  seg_end_formatted : string;
}.

(** Values stored in a result dictionary. *)
Inductive value : Type :=
| VStr (s : string)
| VFloat (x : Q)
| VSegments (l : list seg_data).

(** The shape of a value: which kind of JSON value it becomes. *)
Inductive value_kind : Type := KString | KNumber | KSegmentList.

Definition kind (v : value) : value_kind :=
  match v with
  | VStr _ => KString
  | VFloat _ => KNumber
  | VSegments _ => KSegmentList
  end.

(** The body of the loop over the engine's segments; it is the same in
    both adapters. *)
Definition make_seg_data (seg : raw_segment) : outcome seg_data :=
  start_formatted ← format_timestamp (rs_start seg);
  end_formatted ← format_timestamp (rs_end seg);
  mret {| seg_start := rs_start seg;
          seg_end := rs_end seg;
          seg_text := strip (rs_text seg);
          seg_start_formatted := start_formatted;
          seg_end_formatted := end_formatted |}.

(** The text written to [<base>_transcript.txt]: for every segment the
    line [[[start_formatted]]], the text, and an empty line. *)
Fixpoint timestamped_text (segs : list seg_data) : string :=
  match segs with
  | [] => ""
  | seg :: rest =>
      ("[[" +:+ seg_start_formatted seg +:+ "]]" +:+ String "010" "")
      +:+ (seg_text seg +:+ String "010" (String "010" ""))
      +:+ timestamped_text rest
  end.

(** The engine configuration with which the local model is loaded and
    run: the arguments of [WhisperModel(...)] and of [transcribe(...)]. *)
Record whisper_call : Type := {
  wc_model_size : string;
  wc_device : string;
  wc_compute_type : string;
  wc_cpu_threads : Z;
  wc_audio : path;
  wc_language : string;
  wc_batch_size : option Z;     (* [Some b]: the batched pipeline with [batch_size=b] *)
  wc_beam_size : Z;
}.

(** The response of the remote transcription API. *)
Record openai_response : Type := {
  resp_language : string;
  resp_duration : Q;
  resp_text : string;
  resp_segments : list raw_segment;
}.

(** ** Third-party engines and the world *)

(** The state of a stored OAuth token as the client library sees it. *)
Inductive token_state : Type :=
| TokenValid
| TokenRefreshable     (* expired, with a refresh token *)
| TokenUnusable.

(** The replies of [request.next_chunk()], one after the other.  A
    session is finite: the service ends it with a response or with an
    exception. *)
Inductive upload_session : Type :=
| UploadDone (video_id : string)
| UploadChunk (status : option Q) (next : upload_session)
| UploadRaise (e : exn).

(** The request body handed to [youtube.videos().insert]. *)
Record upload_request : Type := {
  up_video : path;
  up_title : string;
  up_description : string;
  up_tags : list string;
  up_category_id : string;
  up_privacy_status : string;
  up_notify_subscribers : bool;
}.

Record externals : Type := {
  ext_host : host;
  (** [datetime.now().strftime("%Y-%m-%d")] *)
  ext_today : string;
  (** [os.environ.get("OPENAI_API_KEY")] *)
  ext_openai_api_key_env : option string;
  (** which optional packages can be imported *)
  ext_faster_whisper_installed : bool;
  ext_openai_installed : bool;
  ext_google_client_installed : bool;    (* googleapiclient *)
  ext_google_auth_installed : bool;      (* google_auth_oauthlib, google.auth *)
  (** loading the model and transcribing with it *)
  ext_whisper : whisper_call → outcome (list raw_segment * Q);
  (** [client.audio.transcriptions.create(...)] *)
  ext_openai : string → path → string → outcome openai_response;
  (** [shutil.which("ffmpeg") is not None] *)
  ext_ffmpeg_on_path : bool;
  (** one run of ffmpeg: its return code and, when it wrote one, the
      file it left at the output path *)
  ext_ffmpeg : list string → gmap path string → Z * option string;
  (** whether what that run writes to its standard error can be decoded
      as text in the encoding of the locale *)
  ext_ffmpeg_stderr_decodes : list string → gmap path string → bool;
  (** [float(result.stdout.strip())] on ffprobe's output; [None] when
      that conversion raises [ValueError] *)
  ext_ffprobe : list string → gmap path string → option Q;
  (** [pickle.load] of the stored token, judged by the client library *)
  ext_token_state : string → token_state;
  (** [credentials.refresh(Request())] and [flow.run_local_server(...)]:
      the pickled credentials, or the exception they raise *)
  ext_refresh_token : string → outcome string;
  ext_browser_flow : outcome string;
  (** the resumable upload *)
  ext_youtube_insert : upload_request → upload_session;
}.

(** Calls to third-party engines, in the order in which they are made. *)
Inductive call : Type :=
| CallWhisper (c : whisper_call)
| CallOpenAI (audio : path) (language : string)
| CallFfmpeg (cmd : list string)
| CallFfprobe (cmd : list string)
| CallTokenRefresh
| CallBrowserFlow
| CallYouTubeInsert (r : upload_request).

Record world : Type := {
  files : gmap path string;
  calls : list call;
}.

(** The stage of the pipeline to which a call belongs. *)
Inductive stage : Type := Transcribing | Encoding | Publishing.

Definition call_stage (c : call) : stage :=
  match c with
  | CallWhisper _ | CallOpenAI _ _ => Transcribing
  | CallFfmpeg _ | CallFfprobe _ => Encoding
  | CallTokenRefresh | CallBrowserFlow | CallYouTubeInsert _ => Publishing
  end.


(** On the way from [w] to [w'] no file was touched but those in [ps]. *)
Definition unchanged_except (ps : list path) (w w' : world) : Prop :=
  ∀ p, p ∉ ps → files w' !! p = files w !! p.

(** Computations that read and change the world and may raise. *)
Definition M (A : Type) : Type := world → outcome A * world.

#[global] Instance M_ret : MRet M := λ A a w, (Returned a, w).
#[global] Instance M_bind : MBind M := λ A B f m w,
  match m w with
  | (Returned a, w') => f a w'
  | (Raised e, w') => (Raised e, w')
  end.

Definition raise {A : Type} (e : exn) : M A := λ w, (Raised e, w).

Definition lift {A : Type} (o : outcome A) : M A := λ w, (o, w).

Definition get_files : M (gmap path string) := λ w, (Returned (files w), w).

(** The directories of the file system are those that the files imply:
    a directory stands at [d] when an entry of the file map lies below
    [d]; the current directory and the root always stand.  A directory
    that holds no file is written as the entry [d ++ [""]], whose name no
    path of the program has. *)
Definition below (d q : path) : bool := bool_decide (d `prefix_of` q ∧ d ≠ q).

Definition is_dir (fs : gmap path string) (d : path) : bool :=
  bool_decide (d = [] ∨ d = ["/"]) || existsb (below d) (map_to_list fs).*1.

(** A file or a directory stands at [p]. *)
Definition stands_at (fs : gmap path string) (p : path) : bool :=
  bool_decide (is_Some (fs !! p)) || is_dir fs p.

(** [p.exists()] *)
Definition path_exists (p : path) : M bool :=
  λ w, (Returned (stands_at (files w) p), w).

(** A regular file stands at [p]. *)
Definition is_file (p : path) : M bool :=
  λ w, (Returned (bool_decide (is_Some (files w !! p))), w).

(** [open(p, "w")] followed by the writes that make up [text],
    or [p.write_text(text)]. *)
Definition write_file (p : path) (text : string) : M unit :=
  λ w, (Returned (), {| files := <[p := text]> (files w); calls := calls w |}).

(** [open(p, "a")] followed by one write. *)
Definition append_file (p : path) (text : string) : M unit :=
  λ w, (Returned (),
        {| files := <[p := default "" (files w !! p) +:+ text]> (files w);
           calls := calls w |}).

(** [d.mkdir(parents=True, exist_ok=True)]: directories are implicit. *)
Definition mkdir_p (d : path) : M unit := mret ().

(** The paths above [d], from the nearest: [d.parents]. *)
Fixpoint parents (d : path) : list path :=
  match d with
  | [] => []
  | x :: d' =>
      match d' with
      | [] => []
      | _ => ((x ::.) <$> parents d') ++ [[x]]
      end
  end.

(** [d.mkdir(parents=True, exist_ok=True)] with its refusals: a regular
    file above [d] raises [NotADirectoryError], a regular file at [d]
    raises [FileExistsError]; a directory that stands already is left
    alone. *)
Definition mkdir_parents (d : path) : M unit :=
  fs ← get_files;
  if existsb (λ a, bool_decide (is_Some (fs !! a))) (parents d)
  then raise (NotADirectoryError (path_str d))
  else if bool_decide (is_Some (fs !! d))
  then raise (FileExistsError (path_str d))
  else mret ().

Definition log_call (c : call) : M unit :=
  λ w, (Returned (), {| files := files w; calls := calls w ++ [c] |}).

(** ** The adapters and the orchestrator *)

Section Pipeline.

(** The directory of the installation ([Path(__file__).parent.parent] in
    [full_pipeline.py], which is the same directory as
    [Path(__file__).parent.parent.parent] in [upload_youtube.py]). *)
Variable PROJECT_ROOT : path.

(** [json.dumps(result, ensure_ascii=False, indent=2)] *)
Variable json_dumps : gmap string value → string.

(** *** [transcription.py] *)

(** The configuration that lines 144-154 of [transcription.py] settle on. *)
Record engine_config : Type := {
  ec_device : string;
  ec_model_size : string;
  ec_compute_type : string;
  ec_batch_size : Z;
  ec_beam_size : Z;
  ec_cpu_threads : Z;
}.

Definition resolve_engine_config (h : host)
    (model_size device compute_type : option string) (batch_size : option Z)
    : engine_config :=
  let '(detected_device, detected_compute) := detect_device h in
  let device := str_or device detected_device in
  let optimal := get_optimal_settings h device None in
  {| ec_device := device;
     ec_model_size := str_or model_size (s_model_size optimal);
     ec_compute_type := str_or compute_type (s_compute_type optimal);
     ec_batch_size :=
       match batch_size with
       | Some b => b
       | None => s_batch_size optimal
       end;
     ec_beam_size := s_beam_size optimal;
     ec_cpu_threads := s_cpu_threads optimal |}.

(** Writing the three artefacts; [base_name] is the stem of the audio file. *)
Definition write_transcripts (output_dir : path) (base_name : string)
    (result : gmap string value) (segs : list seg_data) (full_text : string) : M unit :=
  write_file (joinpath output_dir (base_name +:+ "_transcript.json")) (json_dumps result);;
  write_file (joinpath output_dir (base_name +:+ "_transcript.txt")) (timestamped_text segs);;
  write_file (joinpath output_dir (base_name +:+ "_plain.txt")) full_text.

(** [output_dir] is [None] when the caller passes [None] or the empty
    string, which the code treats alike. *)
Definition transcribe_with_faster_whisper (ext : externals)
    (audio_path : path) (model_size : option string) (language : string)
    (output_dir : option path) (device compute_type : option string)
    (batch_size : option Z) : M (gmap string value) :=
  if negb (ext_faster_whisper_installed ext)
  then raise (ImportError "Zainstaluj faster-whisper:")
  else
    audio_found ← path_exists audio_path;
    if negb audio_found
    then raise (FileNotFoundError ("Nie znaleziono pliku: " +:+ path_str audio_path))
    else
      let output_dir := default (parent audio_path) output_dir in
      mkdir_p output_dir;;
      let cfg := resolve_engine_config (ext_host ext) model_size device compute_type batch_size in
      let request :=
        {| wc_model_size := ec_model_size cfg;
           wc_device := ec_device cfg;
           wc_compute_type := ec_compute_type cfg;
           wc_cpu_threads := ec_cpu_threads cfg;
           wc_audio := audio_path;
           wc_language := language;
           wc_batch_size := if 1 <? ec_batch_size cfg then Some (ec_batch_size cfg) else None;
           wc_beam_size := ec_beam_size cfg |} in
      log_call (CallWhisper request);;
      '(segments, duration) ← lift (ext_whisper ext request);
      transcript_segments ← lift (for_each make_seg_data segments);
      duration_formatted ← lift (format_timestamp duration);
      let full_text := join " " (strip ∘ rs_text <$> segments) in
      let result : gmap string value :=
        list_to_map [
          ("audio_file", VStr (path_str audio_path));
          ("language", VStr language);
          ("duration", VFloat duration);
          ("duration_formatted", VStr duration_formatted);
          ("model", VStr (ec_model_size cfg));
          ("device", VStr (ec_device cfg));
          ("compute_type", VStr (ec_compute_type cfg));
          ("segments", VSegments transcript_segments);
          ("full_text", VStr full_text)] in
      write_transcripts output_dir (stem audio_path) result transcript_segments full_text;;
      mret result.

Definition transcribe_with_openai (ext : externals)
    (audio_path : path) (api_key : option string) (language : string)
    (output_dir : option path) : M (gmap string value) :=
  if negb (ext_openai_installed ext)
  then raise (ImportError "Zainstaluj openai: pip install openai")
  else
    let api_key :=
      match api_key with
      | Some k => if decide (k = "") then ext_openai_api_key_env ext else Some k
      | None => ext_openai_api_key_env ext
      end in
    match api_key with
    | None => raise (ValueError "Podaj API key przez argument lub ustaw OPENAI_API_KEY")
    | Some key =>
        if decide (key = "")
        then raise (ValueError "Podaj API key przez argument lub ustaw OPENAI_API_KEY")
        else
          let output_dir := default (parent audio_path) output_dir in
          mkdir_p output_dir;;
          audio_found ← path_exists audio_path;
          if negb audio_found
          then raise (FileNotFoundError (path_str audio_path))    (* [open(audio_path, "rb")] *)
          else
            log_call (CallOpenAI audio_path language);;
            response ← lift (ext_openai ext key audio_path language);
            transcript_segments ← lift (for_each make_seg_data (resp_segments response));
            duration_formatted ← lift (format_timestamp (resp_duration response));
            let result : gmap string value :=
              list_to_map [
                ("audio_file", VStr (path_str audio_path));
                ("language", VStr (resp_language response));
                ("duration", VFloat (resp_duration response));
                ("duration_formatted", VStr duration_formatted);
                ("segments", VSegments transcript_segments);
                ("full_text", VStr (resp_text response))] in
            write_transcripts output_dir (stem audio_path) result
              transcript_segments (resp_text response);;
            mret result
    end.

(** The keyword arguments that a caller of [transcribe] may pass on.  The
    outer [None] says that the keyword is not passed at all. *)
Record kwargs : Type := {
  kw_model_size : option (option string);
  kw_language : option string;
  kw_output_dir : option (option path);
  kw_device : option (option string);
  kw_compute_type : option (option string);
  kw_batch_size : option (option Z);
  kw_api_key : option (option string);
}.

Definition unexpected_keyword (k : string) : exn :=
  TypeError ("got an unexpected keyword argument '" +:+ k +:+ "'").

Definition transcribe (ext : externals) (audio_path : path) (method : string)
    (kw : kwargs) : M (gmap string value) :=
  if decide (method = "local") then
    if bool_decide (is_Some (kw_api_key kw)) then raise (unexpected_keyword "api_key")
    else
      transcribe_with_faster_whisper ext audio_path
        (mjoin (kw_model_size kw)) (default "pl" (kw_language kw))
        (mjoin (kw_output_dir kw)) (mjoin (kw_device kw))
        (mjoin (kw_compute_type kw)) (mjoin (kw_batch_size kw))
  else if decide (method = "openai") then
    if bool_decide (is_Some (kw_model_size kw)) then raise (unexpected_keyword "model_size")
    else if bool_decide (is_Some (kw_device kw)) then raise (unexpected_keyword "device")
    else if bool_decide (is_Some (kw_compute_type kw)) then raise (unexpected_keyword "compute_type")
    else if bool_decide (is_Some (kw_batch_size kw)) then raise (unexpected_keyword "batch_size")
    else
      transcribe_with_openai ext audio_path
        (mjoin (kw_api_key kw)) (default "pl" (kw_language kw))
        (mjoin (kw_output_dir kw))
  else raise (ValueError ("Nieznana metoda: " +:+ method +:+ ". Użyj 'local' lub 'openai'")).

(** *** [audio_to_video.py] *)

Definition check_ffmpeg (ext : externals) : bool := ext_ffmpeg_on_path ext.

(** One run of a subprocess that may leave a file at [output]:
    [subprocess.run(cmd, capture_output=True)], which keeps the output of
    the process as bytes. *)
Definition run_process (ext : externals) (cmd : list string) (output : path) : M Z :=
  λ w,
    let '(returncode, written) := ext_ffmpeg ext cmd (files w) in
    (Returned returncode,
     {| files := match written with
                 | Some v => <[output := v]> (files w)
                 | None => files w
                 end;
        calls := calls w |}).

(** [subprocess.Popen(cmd, stderr=PIPE, universal_newlines=True)], the
    loop over the lines of [process.stderr] and [process.wait()].  The
    loop decodes what the process writes; bytes that cannot be decoded
    raise [UnicodeDecodeError] there, before the return code is looked
    at. *)
Definition run_ffmpeg (ext : externals) (cmd : list string) (output : path) : M Z :=
  fs ← get_files;
  returncode ← run_process ext cmd output;
  if ext_ffmpeg_stderr_decodes ext cmd fs
  then mret returncode
  else raise (UnicodeDecodeError "'utf-8' codec can't decode byte").

Definition get_audio_duration (ext : externals) (audio_path : path) : M Q :=
  let cmd := ["ffprobe"; "-v"; "error"; "-show_entries"; "format=duration";
              "-of"; "default=noprint_wrappers=1:nokey=1"; path_str audio_path] in
  log_call (CallFfprobe cmd);;
  fs ← get_files;
  match ext_ffprobe ext cmd fs with
  | Some duration => mret duration
  | None => raise (ValueError "could not convert string to float")
  end.

(** The command line handed to [subprocess.Popen]. *)
Definition ffmpeg_command (audio_path background_image output_path : path)
    (width height : string) (fps : Z) (audio_bitrate video_bitrate : string)
    : list string :=
  ["ffmpeg"; "-y"; "-loop"; "1";
   "-i"; path_str background_image;
   "-i"; path_str audio_path;
   "-c:v"; "libx264";
   "-tune"; "stillimage";
   "-c:a"; "aac";
   "-b:a"; audio_bitrate;
   "-b:v"; video_bitrate;
   "-r"; py_str fps;
   "-vf"; "scale=" +:+ width +:+ ":" +:+ height
          +:+ ":force_original_aspect_ratio=decrease,pad="
          +:+ width +:+ ":" +:+ height +:+ ":(ow-iw)/2:(oh-ih)/2";
   "-pix_fmt"; "yuv420p";
   "-shortest";
   "-movflags"; "+faststart";
   path_str output_path].

Definition create_video_from_audio (ext : externals)
    (audio_path background_image : path) (output_path : option path)
    (resolution : string) (fps : Z) (audio_bitrate video_bitrate : string) : M path :=
  if negb (check_ffmpeg ext)
  then raise (RuntimeError "FFmpeg nie jest zainstalowany!")
  else
    audio_found ← path_exists audio_path;
    if negb audio_found
    then raise (FileNotFoundError ("Nie znaleziono pliku audio: " +:+ path_str audio_path))
    else
      image_found ← path_exists background_image;
      if negb image_found
      then raise (FileNotFoundError ("Nie znaleziono obrazu tła: " +:+ path_str background_image))
      else
        output_path ←
          match output_path with
          | Some p => mret p
          | None =>
              match with_suffix_mp4 audio_path with
              | Some p => mret p
              | None => raise (ValueError "empty name")
              end
          end;
        mkdir_parents (parent output_path);;
        match split "x" resolution with
        | [width; height] =>
            let cmd := ffmpeg_command audio_path background_image output_path
                         width height fps audio_bitrate video_bitrate in
            log_call (CallFfmpeg cmd);;
            returncode ← run_ffmpeg ext cmd output_path;
            if decide (returncode ≠ 0)
            then raise (RuntimeError ("FFmpeg zakończył się błędem: " +:+ py_str returncode))
            else
              duration ← get_audio_duration ext output_path;
              (* [output_path.stat()], on the file that ffmpeg is taken
                 to have left when it ends with code 0 *)
              written ← is_file output_path;
              if negb written
              then raise (FileNotFoundError (path_str output_path))
              else mret output_path
        | _ => raise (ValueError "unpack: expected 2 values")
        end.

(** *** [upload_youtube.py] *)

Definition CREDENTIALS_DIR : path := joinpath PROJECT_ROOT "credentials".
Definition CLIENT_SECRETS_FILE : path := joinpath CREDENTIALS_DIR "client_secrets.json".
Definition TOKEN_FILE : path := joinpath CREDENTIALS_DIR "youtube_token.pickle".

Definition setup_credentials_dir : M unit :=
  mkdir_p CREDENTIALS_DIR;;
  let gitignore := joinpath CREDENTIALS_DIR ".gitignore" in
  present ← path_exists gitignore;
  if negb present
  then write_file gitignore ("*" +:+ String "010" "!.gitignore" +:+ String "010" "")
  else mret ().

Definition get_authenticated_service (ext : externals) : M unit :=
  if negb (ext_google_auth_installed ext && ext_google_client_installed ext)
  then raise (ImportError "Zainstaluj wymagane pakiety:")
  else
    setup_credentials_dir;;
    secrets_found ← path_exists CLIENT_SECRETS_FILE;
    if negb secrets_found
    then raise (FileNotFoundError ("Nie znaleziono " +:+ path_str CLIENT_SECRETS_FILE))
    else
      fs ← get_files;
      let browser_flow : M unit :=
        log_call CallBrowserFlow;;
        credentials ← lift (ext_browser_flow ext);
        write_file TOKEN_FILE credentials in
      match fs !! TOKEN_FILE with
      | None => browser_flow
      | Some token =>
          match ext_token_state ext token with
          | TokenValid => mret ()
          | TokenRefreshable =>
              log_call CallTokenRefresh;;
              credentials ← lift (ext_refresh_token ext token);
              write_file TOKEN_FILE credentials
          | TokenUnusable => browser_flow
          end
      end.

(** [while response is None: status, response = request.next_chunk()] *)
Fixpoint next_chunks (s : upload_session) : outcome string :=
  match s with
  | UploadDone video_id => Returned video_id
  | UploadChunk _ next => next_chunks next
  | UploadRaise e => Raised e
  end.

(** The dictionary returned by [upload_video]. *)
Record upload_result : Type := {
  ur_video_id : string;
  ur_url : string;
  ur_title : string;
  ur_privacy_status : string;
}.

Definition upload_video (ext : externals) (video_path : path)
    (title description : string) (tags : option (list string))
    (category_id privacy_status : string) (notify_subscribers : bool)
    : M upload_result :=
  if negb (ext_google_client_installed ext)
  then raise (ImportError "Zainstaluj google-api-python-client")
  else
    video_found ← path_exists video_path;
    if negb video_found
    then raise (FileNotFoundError ("Nie znaleziono wideo: " +:+ path_str video_path))
    else
      get_authenticated_service ext;;
      let request :=
        {| up_video := video_path;
           up_title := title;
           up_description := description;
           up_tags := default [] tags;
           up_category_id := category_id;
           up_privacy_status := privacy_status;
           up_notify_subscribers := notify_subscribers |} in
      log_call (CallYouTubeInsert request);;
      video_id ← lift (next_chunks (ext_youtube_insert ext request));
      mret {| ur_video_id := video_id;
              ur_url := "https://www.youtube.com/watch?v=" +:+ video_id;
              ur_title := title;
              ur_privacy_status := privacy_status |}.

Definition generate_meeting_description (date agenda highlights transcript_link : string)
    : string :=
  let parts :=
    ["Nagranie spotkania Sekcji Koła Naukowego z dnia " +:+ date +:+ "."; ""]
    ++ (if decide (agenda = "") then [] else ["📋 AGENDA:"; agenda; ""])
    ++ (if decide (highlights = "") then [] else ["⭐ NAJWAŻNIEJSZE PUNKTY:"; highlights; ""])
    ++ (if decide (transcript_link = "") then []
        else ["📝 Pełny transkrypt: " +:+ transcript_link; ""])
    ++ ["---"; "Automatycznie wygenerowane przez SKNWPL Meetings System"] in
  join (String "010" "") parts.

(** *** [full_pipeline.py] *)

Definition RESOURCES_DIR : path := joinpath PROJECT_ROOT "resources".
Definition BACKGROUND_IMAGE : path :=
  joinpath (joinpath RESOURCES_DIR "templates") "pmarlo_background.png".
Definition YOUTUBE_LINKS_FILE : path := joinpath PROJECT_ROOT "youtube_links.txt".

(** [read_text(encoding="utf-8").strip().split("\n")] *)
Definition ledger_lines (text : string) : list string :=
  split (String "010" "") (strip (universal_newlines text)).

(** The [try] block: [Some n] when it reaches [return last_num + 1] with
    [last_num = n]; [None] when the test fails or [int] raises
    [ValueError], so that control falls through to the last line. *)
Definition parse_last_number (last_line : string) : option Z :=
  if contains " - " last_line
  then py_int_limited (hd "" (split " - " last_line))
  else None.

(** The argument is the state of the ledger file: [None] when the file
    does not exist, and its text otherwise. *)
Definition get_next_meeting_number (ledger : option string) : Z :=
  match ledger with
  | None => 1
  | Some text =>
      let lines := ledger_lines text in
      if bool_decide (lines = [] ∨ lines = [""]) then 1
      else
        let last_line := strip (List.last lines "") in
        match parse_last_number last_line with
        | Some last_num => last_num + 1
        | None => Z.of_nat (length lines) + 1
        end
  end.

(** What stands at the path of the ledger when the function looks: nothing,
    a directory, a file whose bytes are not UTF-8, or a file that holds a
    text. *)
Inductive ledger_file : Type :=
| LedgerAbsent
| LedgerDirectory
| LedgerUndecodable
| LedgerText (text : string).

(** [get_next_meeting_number()] on every state of the ledger file.
    [exists()] is true of a directory, and [read_text], which is called
    outside the [try] block, raises on a directory and on bytes that it
    cannot decode. *)
Definition get_next_meeting_number_on (f : ledger_file) : outcome Z :=
  match f with
  | LedgerAbsent => Returned (get_next_meeting_number None)
  | LedgerDirectory => Raised (IsADirectoryError (path_str YOUTUBE_LINKS_FILE))
  | LedgerUndecodable => Raised (UnicodeDecodeError "'utf-8' codec can't decode byte")
  | LedgerText text => Returned (get_next_meeting_number (Some text))
  end.

(** The pieces of a text between its line ends, a line end being a line
    feed, a carriage return followed by a line feed, or a carriage return
    alone.  A text that ends with a line end has an empty last piece. *)
Fixpoint pieces_from (cur s : string) : list string :=
  match s with
  | EmptyString => [cur]
  | String c s' =>
      if Ascii.eqb c "010" then cur :: pieces_from "" s'
      else if Ascii.eqb c "013" then
        match s' with
        | String "010" s'' => cur :: pieces_from "" s''
        | _ => cur :: pieces_from "" s'
        end
      else pieces_from (cur +:+ String c "") s'
  end.

Definition text_lines (s : string) : list string := pieces_from "" s.

(** The lines of a file as one counts them: the empty piece behind a
    last line end is no line. *)
Definition file_lines (s : string) : list string :=
  let ps := text_lines s in
  if decide (List.last ps "" = "") then removelast ps else ps.

(** The last line of the ledger as [get_next_meeting_number] reads it:
    [lines[-1].strip()]. *)
Definition last_ledger_line (text : string) : string :=
  strip (List.last (ledger_lines text) "").

(** A line of the form [<number> - <url>] with number [n]: the text in
    front of the first [" - "] of the line is a numeral that [int]
    accepts, and [n] is its value. *)
Definition entry_form (line : string) (n : Z) : Prop :=
  ∃ num url,
    line = num +:+ " - " +:+ url
    ∧ contains " - " (num +:+ " -") = false
    ∧ py_int_limited num = Some n.

Definition ledger_line (meeting_number : Z) (youtube_url : string) : string :=
  py_str meeting_number +:+ " - " +:+ youtube_url +:+ String "010" "".

Definition append_youtube_link (meeting_number : Z) (youtube_url : string) : M unit :=
  append_file YOUTUBE_LINKS_FILE (ledger_line meeting_number youtube_url).

(** The dictionary returned by [run_full_pipeline]. *)
Record pipeline_result : Type := {
  pr_meeting_number : Z;
  pr_youtube_url : string;
  pr_video_path : path;
  pr_transcript_path : path;
  pr_output_dir : path;
}.

Definition output_dir_of (meeting_number : Z) (date : string) : path :=
  joinpath (joinpath PROJECT_ROOT "results")
           ("meeting_" +:+ py_str meeting_number +:+ "_" +:+ date).

Definition video_path_of (output_dir audio_path : path) : path :=
  joinpath output_dir (stem audio_path +:+ ".mp4").

(** The three files that the transcription stage writes. *)
Definition transcript_paths (output_dir audio_path : path) : list path :=
  [joinpath output_dir (stem audio_path +:+ "_transcript.json");
   joinpath output_dir (stem audio_path +:+ "_transcript.txt");
   joinpath output_dir (stem audio_path +:+ "_plain.txt")].

(** STEP 1/4 *)
Definition step_transcription (ext : externals) (audio_path output_dir : path)
    (model language : string) (device : option string) : M (gmap string value) :=
  let device := match device with
                | Some d => if decide (d = "") then None else Some d
                | None => None
                end in
  let cuda := bool_decide (device = Some "cuda") in
  transcribe_with_faster_whisper ext audio_path (Some model) language (Some output_dir)
    device
    (if cuda then Some "float16" else None)
    (if cuda then Some 16 else None).

(** STEP 2/4 *)
Definition step_video (ext : externals) (audio_path output_dir : path) : M path :=
  create_video_from_audio ext audio_path BACKGROUND_IMAGE
    (Some (video_path_of output_dir audio_path)) "1920x1080" 30 "192k" "1M".

(** STEP 3/4 *)
Definition step_upload (ext : externals) (audio_path output_dir : path)
    (meeting_number : Z) (date privacy : string) : M upload_result :=
  let title := "Spotkanie SKNWPL #" +:+ py_str meeting_number +:+ " - " +:+ date in
  let description := generate_meeting_description date "" "" "" in
  upload_video ext (video_path_of output_dir audio_path) title description
    (Some ["SKNWPL"; "koło naukowe"; "spotkanie"; "Politechnika Poznańska"])
    "22" privacy false.

(** STEP 4/4 *)
Definition step_save (output_dir : path) (meeting_number : Z) (youtube_url : string)
    : M unit :=
  append_youtube_link meeting_number youtube_url;;
  write_file (joinpath output_dir "youtube_link.txt") youtube_url.

Definition run_full_pipeline (ext : externals) (audio_path : string)
    (meeting_number : option Z) (date : option string) (model language : string)
    (device : option string) (privacy : string) : M pipeline_result :=
  let audio_path := Path audio_path in
  let date := str_or date (ext_today ext) in
  fs ← get_files;
  let meeting_number :=
    int_or meeting_number (get_next_meeting_number (fs !! YOUTUBE_LINKS_FILE)) in
  let output_dir := output_dir_of meeting_number date in
  mkdir_p output_dir;;
  result ← step_transcription ext audio_path output_dir model language device;
  video ← step_video ext audio_path output_dir;
  upload_result ← step_upload ext audio_path output_dir meeting_number date privacy;
  let youtube_url := ur_url upload_result in
  step_save output_dir meeting_number youtube_url;;
  mret {| pr_meeting_number := meeting_number;
          pr_youtube_url := youtube_url;
          pr_video_path := video_path_of output_dir audio_path;
          pr_transcript_path := joinpath output_dir (stem audio_path +:+ "_transcript.txt");
          pr_output_dir := output_dir |}.

(** One invocation from the command line. *)
Record invocation : Type := {
  inv_ext : externals;
  inv_audio : string;
  inv_meeting_number : option Z;
  inv_date : option string;
  inv_model : string;
  inv_language : string;
  inv_device : option string;
  inv_privacy : string;
}.

Definition run (i : invocation) : M pipeline_result :=
  run_full_pipeline (inv_ext i) (inv_audio i) (inv_meeting_number i) (inv_date i)
    (inv_model i) (inv_language i) (inv_device i) (inv_privacy i).

(** Invocations one after the other, each in the world that the previous
    one left; an exception ends an invocation, not the sequence. *)
Fixpoint run_all (l : list invocation) (w : world)
    : list (outcome pipeline_result) * world :=
  match l with
  | [] => ([], w)
  | i :: l' =>
      let '(o, w') := run i w in
      let '(os, w'') := run_all l' w' in
      (o :: os, w'')
  end.

End Pipeline.

(** The text of a ledger that holds the given links, numbered from [n]. *)
Fixpoint ledger_from (n : Z) (urls : list string) : string :=
  match urls with
  | [] => ""
  | url :: rest => ledger_line n url +:+ ledger_from (n + 1) rest
  end.

(** The lines that [get_next_meeting_number] reads in such a ledger: the
    last line has lost the white space at its end. *)
Fixpoint entry_lines (n : Z) (urls : list string) : list string :=
  match urls with
  | [] => []
  | [url] => [py_str n +:+ " - " +:+ rstrip url]
  | url :: rest => (py_str n +:+ " - " +:+ url) :: entry_lines (n + 1) rest
  end.

(** A link that stays on one line and starts with a visible character. *)
Definition good_url (url : string) : Prop :=
  single_line url ∧ ∃ c r, url = String c r ∧ isspace c = false.

(** The results of the invocations that returned. *)
Fixpoint returned {A : Type} (os : list (outcome A)) : list A :=
  match os with
  | [] => []
  | Returned a :: rest => a :: returned rest
  | Raised _ :: rest => returned rest
  end.

(** ** Reading the time-stamped transcript back *)

(** The pairs that the time-stamped file is meant to convey. *)
Definition seg_pairs (segs : list seg_data) : list (string * string) :=
  (λ seg, (seg_start_formatted seg, seg_text seg)) <$> segs.

(** Modelled from the spec: the repository has no reader for
    [<base>_transcript.txt].  The reader follows the description of the
    file: for every segment a line [[[HH:MM:SS]]], then the line with its
    text, then an empty line. *)
Fixpoint strip_closing (s : string) : option string :=
  match s with
  | EmptyString => None
  | String c s' =>
      if String.eqb s "]]" then Some "" else String c <$> strip_closing s'
  end.

(** The time stamp of a line [[[stamp]]]. *)
Definition parse_timestamp_line (l : string) : option string :=
  match l with
  | String "[" (String "[" r) => strip_closing r
  | _ => None
  end.

Fixpoint parse_entries (lines : list string) : option (list (string * string)) :=
  match lines with
  | stamp :: text :: blank :: rest =>
      if decide (blank = "") then
        match parse_timestamp_line stamp, parse_entries rest with
        | Some t, Some entries => Some ((t, text) :: entries)
        | _, _ => None
        end
      else None
  | [last] => if decide (last = "") then Some [] else None
  | _ => None
  end.

Definition parse_timestamped_text (content : string) : option (list (string * string)) :=
  parse_entries (split (String "010" "") (universal_newlines content)).

(** ** A concrete installation, used in examples *)

Definition demo_root : path := ["/"; "srv"; "sknwpl"].

Definition demo_json (result : gmap string value) : string := "{}".

Definition demo_audio : path := ["/"; "data"; "meeting.mkv"].

Definition demo_segments : list raw_segment :=
  [ {| rs_start := 0; rs_end := 5 # 2; rs_text := " Dzien dobry. " |};
    {| rs_start := 5 # 2; rs_end := 61; rs_text := " Zaczynamy." |} ].

(** Every engine is installed and succeeds; the upload yields the given
    video id after one progress report. *)
Definition demo_ext (video_id : string) : externals :=
  {| ext_host := {| torch_cuda := Some false; psutil_available_gb := Some (16 # 1) |};
     ext_today := "2024-05-17";
     ext_openai_api_key_env := Some "sk-demo";
     ext_faster_whisper_installed := true;
     ext_openai_installed := true;
     ext_google_client_installed := true;
     ext_google_auth_installed := true;
     ext_whisper := λ _, Returned (demo_segments, 61 # 1);
     ext_openai := λ _ _ _,
       Returned {| resp_language := "polish"; resp_duration := 61 # 1;
                   resp_text := "Dzien dobry. Zaczynamy.";
                   resp_segments := demo_segments |};
     ext_ffmpeg_on_path := true;
     ext_ffmpeg := λ _ _, (0, Some "mp4");
     ext_ffmpeg_stderr_decodes := λ _ _, true;
     ext_ffprobe := λ _ _, Some (61 # 1);
     ext_token_state := λ _, TokenValid;
     ext_refresh_token := λ _, Returned "token";
     ext_browser_flow := Returned "token";
     ext_youtube_insert := λ _, UploadChunk (Some (1 # 2)) (UploadDone video_id) |}.

Definition demo_world : world :=
  {| files := list_to_map
       [ (demo_audio, "audio");
         (BACKGROUND_IMAGE demo_root, "png");
         (CLIENT_SECRETS_FILE demo_root, "{}");
         (TOKEN_FILE demo_root, "token") ];
     calls := [] |}.

Definition no_kwargs : kwargs :=
  {| kw_model_size := None; kw_language := None; kw_output_dir := None;
     kw_device := None; kw_compute_type := None; kw_batch_size := None;
     kw_api_key := None |}.

(** What the two adapters return in this installation. *)
Definition demo_seg_data : list seg_data :=
  [ {| seg_start := 0; seg_end := 5 # 2; seg_text := "Dzien dobry.";
       seg_start_formatted := "00:00:00"; seg_end_formatted := "00:00:02" |};
    {| seg_start := 5 # 2; seg_end := 61; seg_text := "Zaczynamy.";
       seg_start_formatted := "00:00:02"; seg_end_formatted := "00:01:01" |} ].

Definition demo_local : gmap string value :=
  list_to_map
    [("audio_file", VStr "/data/meeting.mkv"); ("language", VStr "pl");
     ("duration", VFloat (61 # 1)); ("duration_formatted", VStr "00:01:01");
     ("model", VStr "small"); ("device", VStr "cpu"); ("compute_type", VStr "int8");
     ("segments", VSegments demo_seg_data);
     ("full_text", VStr "Dzien dobry. Zaczynamy.")].

Definition demo_remote : gmap string value :=
  list_to_map
    [("audio_file", VStr "/data/meeting.mkv"); ("language", VStr "polish");
     ("duration", VFloat (61 # 1)); ("duration_formatted", VStr "00:01:01");
     ("segments", VSegments demo_seg_data);
     ("full_text", VStr "Dzien dobry. Zaczynamy.")].

(** An invocation without overrides in this installation. *)
Definition demo_invocation (video_id : string) : invocation :=
  {| inv_ext := demo_ext video_id;
     inv_audio := "/data/meeting.mkv";
     inv_meeting_number := None;
     inv_date := None;
     inv_model := "large-v3";
     inv_language := "pl";
     inv_device := None;
     inv_privacy := "unlisted" |}.

(** What the first and the second run report in this installation. *)
Definition demo_result (n : Z) (video_id : string) : pipeline_result :=
  let out := ["/"; "srv"; "sknwpl"; "results"; "meeting_" +:+ py_str n +:+ "_2024-05-17"] in
  {| pr_meeting_number := n;
     pr_youtube_url := "https://www.youtube.com/watch?v=" +:+ video_id;
     pr_video_path := out ++ ["meeting.mp4"];
     pr_transcript_path := out ++ ["meeting_transcript.txt"];
     pr_output_dir := out |}.

(** Two transcripts that are written to the same file. *)
Definition ambiguous_one : list raw_segment :=
  [ {| rs_start := 0; rs_end := 2;
       rs_text := "a" +:+ String "010" (String "010" "[[00:00:01]]") +:+ String "010" "b" |} ].

Definition ambiguous_two : list raw_segment :=
  [ {| rs_start := 0; rs_end := 1; rs_text := "a" |};
    {| rs_start := 1; rs_end := 2; rs_text := "b" |} ].

(** What the adapter builds from them. *)
Definition ambiguous_one_data : list seg_data :=
  [ {| seg_start := 0; seg_end := 2;
       seg_text := "a" +:+ String "010" (String "010" "[[00:00:01]]") +:+ String "010" "b";
       seg_start_formatted := "00:00:00"; seg_end_formatted := "00:00:02" |} ].

Definition ambiguous_two_data : list seg_data :=
  [ {| seg_start := 0; seg_end := 1; seg_text := "a";
       seg_start_formatted := "00:00:00"; seg_end_formatted := "00:00:01" |};
    {| seg_start := 1; seg_end := 2; seg_text := "b";
       seg_start_formatted := "00:00:01"; seg_end_formatted := "00:00:02" |} ].

(** ** More of [audio_to_video.py]: [extract_audio_from_video] *)

(** [p.suffix]: the last suffix of the name, with its period. *)
Definition suffix_of_name (n : string) : string :=
  match rfind_dot n 0 with
  | Some i =>
      if (0 <? i)%nat && (i <? String.length n - 1)%nat
      then String.substring i (String.length n - i) n
      else ""
  | None => ""
  end.

Definition suffix (p : path) : string := suffix_of_name (name p).

(** [p.with_suffix(suffix)] for any suffix: a suffix with a separator in
    it, one that does not start with a period, and a lone period are
    refused, and so is a path with an empty name. *)
Definition with_suffix (p : path) (new_suffix : string) : outcome path :=
  if contains "/" new_suffix
  then Raised (ValueError ("Invalid suffix " +:+ new_suffix))
  else if (negb (String.eqb new_suffix "") && negb (String.prefix "." new_suffix))
          || String.eqb new_suffix "."
  then Raised (ValueError ("Invalid suffix " +:+ new_suffix))
  else if decide (name p = "")
  then Raised (ValueError (path_str p +:+ " has an empty name"))
  else
    let old_suffix := suffix p in
    let new_name :=
      if decide (old_suffix = "")
      then name p +:+ new_suffix
      else String.substring 0 (String.length (name p) - String.length old_suffix) (name p)
           +:+ new_suffix in
    Returned (removelast p ++ [new_name]).

(** The command line that [get_audio_duration] runs. *)
Definition ffprobe_command (audio_path : path) : list string :=
  ["ffprobe"; "-v"; "error"; "-show_entries"; "format=duration";
   "-of"; "default=noprint_wrappers=1:nokey=1"; path_str audio_path].

(** The command line of [extract_audio_from_video]. *)
Definition extract_command (video_path output_path : path) (format : string) : list string :=
  ["ffmpeg"; "-y";
   "-i"; path_str video_path;
   "-vn";
   "-acodec"; if decide (format = "mp3") then "libmp3lame" else "copy";
   "-q:a"; "2";
   path_str output_path].

(** [subprocess.run(cmd, capture_output=True, check=True)] raises
    [CalledProcessError] on a return code other than zero; the model keeps
    it under [EngineError]. *)
Definition extract_audio_from_video (ext : externals) (video_path : path)
    (output_path : option path) (format : string) : M path :=
  if negb (check_ffmpeg ext)
  then raise (RuntimeError "FFmpeg nie jest zainstalowany!")
  else
    output_path ←
      match output_path with
      | None => lift (with_suffix video_path ("." +:+ format))
      | Some p => mret p
      end;
    let cmd := extract_command video_path output_path format in
    log_call (CallFfmpeg cmd);;
    returncode ← run_process ext cmd output_path;
    if decide (returncode ≠ 0)
    then raise (EngineError ("CalledProcessError: non-zero exit status " +:+ py_str returncode))
    else mret output_path.

(** ** Variations of the concrete installation *)

(** The installation [ext] with another ffmpeg and ffprobe. *)
Definition with_tools (ext : externals) (on_path : bool)
    (ffmpeg : list string → gmap path string → Z * option string)
    (ffprobe : list string → gmap path string → option Q) : externals :=
  {| ext_host := ext_host ext;
     ext_today := ext_today ext;
     ext_openai_api_key_env := ext_openai_api_key_env ext;
     ext_faster_whisper_installed := ext_faster_whisper_installed ext;
     ext_openai_installed := ext_openai_installed ext;
     ext_google_client_installed := ext_google_client_installed ext;
     ext_google_auth_installed := ext_google_auth_installed ext;
     ext_whisper := ext_whisper ext;
     ext_openai := ext_openai ext;
     ext_ffmpeg_on_path := on_path;
     ext_ffmpeg := ffmpeg;
     ext_ffmpeg_stderr_decodes := ext_ffmpeg_stderr_decodes ext;
     ext_ffprobe := ffprobe;
     ext_token_state := ext_token_state ext;
     ext_refresh_token := ext_refresh_token ext;
     ext_browser_flow := ext_browser_flow ext;
     ext_youtube_insert := ext_youtube_insert ext |}.


(** ** Calendar dates ([datetime], as [meeting.py] uses it) *)

Module PyDate.

(** A date of the proleptic Gregorian calendar.  Of a [datetime] only the
    date is kept: [meeting.py] moves by whole days and reads [day]. *)
Record calendar_date : Type := {
  d_year : Z;
  d_month : Z;
  d_day : Z;
}.

Definition MINYEAR : Z := 1.
Definition MAXYEAR : Z := 9999.
(** [date.max.toordinal()] *)
Definition MAXORDINAL : Z := 3652059.

Definition DAYS_IN_MONTH : list Z := [-1; 31; 28; 31; 30; 31; 30; 31; 31; 30; 31; 30; 31].
Definition DAYS_BEFORE_MONTH : list Z :=
  [-1; 0; 31; 59; 90; 120; 151; 181; 212; 243; 273; 304; 334].

(** [l[i]] on a list of integers, for an index in range. *)
Definition item (l : list Z) (i : Z) : Z := nth (Z.to_nat i) l 0.

Definition is_leap (year : Z) : bool :=
  (year mod 4 =? 0) && (negb (year mod 100 =? 0) || (year mod 400 =? 0)).

Definition days_before_year (year : Z) : Z :=
  let y := year - 1 in
  y * 365 + y / 4 - y / 100 + y / 400.

Definition days_in_month (year month : Z) : Z :=
  if (month =? 2) && is_leap year then 29 else item DAYS_IN_MONTH month.

Definition days_before_month (year month : Z) : Z :=
  item DAYS_BEFORE_MONTH month + (if (2 <? month) && is_leap year then 1 else 0).

Definition ymd2ord (year month day : Z) : Z :=
  days_before_year year + days_before_month year month + day.

Definition DI400Y : Z := 146097.
Definition DI100Y : Z := 36524.
Definition DI4Y : Z := 1461.

(** The end of [_ord2ymd]: month and day from the offset [n] into the
    year. *)
Definition month_day (n : Z) (leapyear : bool) : Z * Z :=
  let month := Z.shiftr (n + 50) 5 in
  let preceding :=
    item DAYS_BEFORE_MONTH month + (if (2 <? month) && leapyear then 1 else 0) in
  if n <? preceding
  then
    let month := month - 1 in
    let preceding :=
      preceding - (item DAYS_IN_MONTH month + (if (month =? 2) && leapyear then 1 else 0)) in
    (month, n - preceding + 1)
  else (month, n - preceding + 1).

Definition ord2ymd (n : Z) : calendar_date :=
  let n := n - 1 in
  let n400 := n / DI400Y in
  let n := n mod DI400Y in
  let year := n400 * 400 + 1 in
  let n100 := n / DI100Y in
  let n := n mod DI100Y in
  let n4 := n / DI4Y in
  let n := n mod DI4Y in
  let n1 := n / 365 in
  let n := n mod 365 in
  let year := year + n100 * 100 + n4 * 4 + n1 in
  if (n1 =? 4) || (n100 =? 4)
  then {| d_year := year - 1; d_month := 12; d_day := 31 |}
  else
    let leapyear := (n1 =? 3) && (negb (n4 =? 24) || (n100 =? 3)) in
    let '(month, day) := month_day n leapyear in
    {| d_year := year; d_month := month; d_day := day |}.

(** The test of [_check_date_fields]. *)
Definition valid_date (year month day : Z) : bool :=
  (MINYEAR <=? year) && (year <=? MAXYEAR)
  && (1 <=? month) && (month <=? 12)
  && (1 <=? day) && (day <=? days_in_month year month).

(** [date(year, month, day)] *)
Definition make_date (year month day : Z) : outcome calendar_date :=
  if valid_date year month day
  then Returned {| d_year := year; d_month := month; d_day := day |}
  else Raised (ValueError "date field out of range").

Definition toordinal (d : calendar_date) : Z := ymd2ord (d_year d) (d_month d) (d_day d).

Definition fromordinal (n : Z) : calendar_date := ord2ymd n.

(** [d.weekday()]: Monday is 0. *)
Definition weekday (d : calendar_date) : Z := (toordinal d + 6) mod 7.

(** [d + timedelta(days=days)] *)
Definition add_days (d : calendar_date) (days : Z) : outcome calendar_date :=
  let o := toordinal d + days in
  if (0 <? o) && (o <=? MAXORDINAL)
  then Returned (fromordinal o)
  else Raised (OverflowError "date value out of range").

(** *** [datetime.strptime(s, "%Y-%m-%d")]

    The format compiles to the regular expression
    [(\d\d\d\d)-(1[0-2]|0[1-9]|[1-9])-(3[0-1]|[1-2]\d|0[1-9]|[1-9]| [1-9])],
    matched at the start of the text. *)

Definition is_digit (c : ascii) : bool :=
  let n := N_of_ascii c in ((48 <=? n) && (n <=? 57))%N.

(** [c] lies between [lo] and [hi]. *)
Definition between (lo hi c : ascii) : bool :=
  ((N_of_ascii lo <=? N_of_ascii c) && (N_of_ascii c <=? N_of_ascii hi))%N.

(** Two characters, or one, that satisfy the given tests: the text
    matched and the text behind it. *)
Definition two_chars (p1 p2 : ascii → bool) (s : string) : option (string * string) :=
  match s with
  | String a (String b rest) =>
      if p1 a && p2 b then Some (String a (String b ""), rest) else None
  | _ => None
  end.

Definition one_char (p : ascii → bool) (s : string) : option (string * string) :=
  match s with
  | String a rest => if p a then Some (String a "", rest) else None
  | _ => None
  end.

(** The ways in which a group matches at the start of [s], in the order
    in which its alternatives are tried. *)
Definition month_alternatives (s : string) : list (string * string) :=
  omap id [two_chars (Ascii.eqb "1") (between "0" "2") s;
           two_chars (Ascii.eqb "0") (between "1" "9") s;
           one_char (between "1" "9") s].

Definition day_alternatives (s : string) : list (string * string) :=
  omap id [two_chars (Ascii.eqb "3") (between "0" "1") s;
           two_chars (between "1" "2") is_digit s;
           two_chars (Ascii.eqb "0") (between "1" "9") s;
           one_char (between "1" "9") s;
           two_chars (Ascii.eqb " ") (between "1" "9") s].

(** [\d\d\d\d] *)
Definition year_digits (s : string) : option (string * string) :=
  match s with
  | String a (String b (String c (String d rest))) =>
      if is_digit a && is_digit b && is_digit c && is_digit d
      then Some (String a (String b (String c (String d ""))), rest)
      else None
  | _ => None
  end.

Definition hyphen (s : string) : option string :=
  match s with
  | String "-" rest => Some rest
  | _ => None
  end.

(** The match of the expression behind the year and its hyphen, and of
    the whole expression: the groups and the text that is left.  The
    first month alternative behind which the remaining pattern matches is
    taken, and behind it the first day alternative that matches. *)
Definition month_and_day (s : string) : option (string * string * string) :=
  head (omap (λ '(m, s3),
                s4 ← hyphen s3;
                '(d, s5) ← head (day_alternatives s4);
                Some (m, d, s5))
             (month_alternatives s)).

Definition match_ymd (s : string) : option (string * string * string * string) :=
  '(y, s1) ← year_digits s;
  s2 ← hyphen s1;
  '(m, d, s5) ← month_and_day s2;
  Some (y, m, d, s5).

Definition int_field (text : string) : outcome Z :=
  match py_int text with
  | Some n => Returned n
  | None => Raised (ValueError "invalid literal for int()")
  end.

Definition strptime_ymd (s : string) : outcome calendar_date :=
  match match_ymd s with
  | None => Raised (ValueError ("time data does not match format: " +:+ s))
  | Some (y, m, d, rest) =>
      if negb (String.eqb rest "")
      then Raised (ValueError ("unconverted data remains: " +:+ rest))
      else
        year ← int_field y;
        month ← int_field m;
        day ← int_field d;
        make_date year month day
  end.

End PyDate.

Import PyDate.

(** What [_ord2ymd] asserts of the month and the day it has found for
    the offset [n]: they are in range and lead back to [n]. *)
Definition month_day_ok (n : Z) (leapyear : bool) : bool :=
  let '(month, day) := month_day n leapyear in
  (1 <=? month) && (month <=? 12) && (1 <=? day)
  && (day <=? item DAYS_IN_MONTH month + (if (month =? 2) && leapyear then 1 else 0))
  && (item DAYS_BEFORE_MONTH month + (if (2 <? month) && leapyear then 1 else 0) + day
      =? n + 1).

(** ** [src/llm/prompt_manager.py] *)

(** The fixed text of the highlights prompt, up to the transcript. *)
Definition highlights_prompt_head : string :=
"Jesteś asystentem do streszczania spotkań koła naukowego.

Otrzymasz transkrypt spotkania w języku polskim. Twoim zadaniem jest:

1. Przeczytać całość uważnie
2. Wybrać 3-5 NAJWAŻNIEJSZYCH punktów/decyzji/ustaleń
3. Dla każdego punktu napisać:
   - Krótki tytuł (max 10 słów)
   - 1-2 zdania wyjaśnienia

Format wyjściowy (użyj tego dokładnie):

### Highlights

- **[Tytuł punktu 1]**: [1-2 zdania opisu co zostało ustalone/omówione]
- **[Tytuł punktu 2]**: [1-2 zdania opisu]
- **[Tytuł punktu 3]**: [1-2 zdania opisu]

### Tytuł spotkania (propozycja)
[Zaproponuj krótki, opisowy tytuł dla tego spotkania - max 10 słów]

---
TRANSKRYPT SPOTKANIA:

".

Definition generate_highlights_prompt (transcript : string) : string :=
  highlights_prompt_head +:+ transcript.

(** The fixed texts of the summary prompt: up to the date, between the
    date and the notes, and between the notes and the transcript. *)
Definition summary_prompt_head : string :=
"Jesteś asystentem do tworzenia dokumentacji spotkań koła naukowego SKNWPL.

Otrzymasz transkrypt ze spotkania i opcjonalnie notatki.
Wygeneruj pełny dokument w formacie Markdown.

FORMAT WYJŚCIOWY (użyj DOKŁADNIE):

# ".

Definition summary_prompt_middle : string :=
" Spotkanie SKNWPL

### Agenda Spotkania

- [punkt 1]
- [punkt 2]
- [punkt 3]

### Audio

[Link zostanie dodany później]

### Highlights

- **[Tytuł 1]**: [Krótki opis - 1-2 zdania]
- **[Tytuł 2]**: [Krótki opis]
- **[Tytuł 3]**: [Krótki opis]

### Transkrypt

[Sformatowany transkrypt z timestampami w formacie [[HH:MM:SS]]]

---
NOTATKI/AGENDA:

".

Definition summary_prompt_tail : string :=
"

TRANSKRYPT:

".

(** [notes if notes else "BRAK"] and [date or datetime.now().strftime(...)]
    are the same choice as [x or d] on an optional string. *)
Definition generate_full_summary_prompt (ext : externals) (transcript : string)
    (notes date : option string) : string :=
  let date := str_or date (ext_today ext) in
  let notes_section := str_or notes "BRAK" in
  summary_prompt_head +:+ date +:+ summary_prompt_middle +:+ notes_section
  +:+ summary_prompt_tail +:+ transcript.

(** [p.read_text(encoding="utf-8")]: the text is read with universal
    newlines; a file that is not there raises [FileNotFoundError], and a
    directory [IsADirectoryError]. *)
Definition read_text (p : path) : M string :=
  fs ← get_files;
  match fs !! p with
  | Some text => mret (universal_newlines text)
  | None =>
      if is_dir fs p
      then raise (IsADirectoryError (path_str p))
      else raise (FileNotFoundError (path_str p))
  end.

Definition save_prompt_to_file (prompt : string) (output_path : path) : M path :=
  mkdir_p (parent output_path);;
  write_file output_path prompt;;
  mret output_path.

(** The texts of a date as it is usually written, used to state what
    [strptime_ymd] accepts: four digits, and a month and a day that the
    expression matches to their end. *)
Definition four_digits (s : string) : bool :=
  match s with
  | String a (String b (String c (String d ""))) =>
      is_digit a && is_digit b && is_digit c && is_digit d
  | _ => false
  end.

Definition month_day_matched (tm td : string) : bool :=
  match month_and_day (tm +:+ "-" +:+ td) with
  | Some (m, d, rest) => String.eqb m tm && String.eqb d td && String.eqb rest ""
  | None => false
  end.

(** A number written with two digits, or as it is. *)
Definition two_digit_forms (n : Z) : list string := [format_0wd 2 n; py_str n].

(** What the desktop of the user offers to [meeting.py]: [ws_now] is the
    date of [datetime.now()]; [ws_pyperclip] is [None] when
    [import pyperclip] fails and otherwise tells whether
    [pyperclip.copy] went through. *)
Record workstation : Type := {
  ws_now : calendar_date;
  ws_pyperclip : option bool;
}.

(** The clipboard is not part of the world; what remains of
    [copy_to_clipboard] is its answer.  It raises nothing: both an
    [ImportError] and any other exception are caught. *)
Definition copy_to_clipboard (ws : workstation) (text : string) : bool :=
  match ws_pyperclip ws with
  | Some copied => copied
  | None => false
  end.

(** A loop that runs an action on every item and stops at the first
    exception. *)
Fixpoint for_each_M {A : Type} (f : A → M unit) (l : list A) : M unit :=
  match l with
  | [] => mret ()
  | x :: l' => f x;; for_each_M f l'
  end.

Section Meeting.

Variable PROJECT_ROOT : path.
Variable json_dumps : gmap string value → string.

(** [prompt_manager.py]: [Path(__file__).parent.parent.parent] is the
    directory of the installation. *)
Definition PROMPTS_DIR : path := joinpath (joinpath PROJECT_ROOT "resources") "templates".

Definition load_prompt_template (name : string) : M string :=
  let prompt_file := joinpath PROMPTS_DIR (name +:+ ".txt") in
  present ← path_exists prompt_file;
  if negb present
  then raise (FileNotFoundError ("Nie znaleziono szablonu: " +:+ path_str prompt_file))
  else read_text prompt_file.

(** *** [generate_youtube_token.py] *)

(** [main]: the exit code.  The prompt [input(...)] is taken to return;
    [except Exception] catches every exception of the model. *)
Definition generate_youtube_token_main (ext : externals) : M Z :=
  let client_secrets := joinpath (CREDENTIALS_DIR PROJECT_ROOT) "client_secrets.json" in
  present ← path_exists client_secrets;
  if negb present
  then mret 1
  else
    λ w,
      match get_authenticated_service PROJECT_ROOT ext w with
      | (Returned _, w') => (Returned 0, w')
      | (Raised _, w') => (Returned 1, w')
      end.

(** *** [meeting.py] *)

Definition TEMPLATES_DIR : path := joinpath (RESOURCES_DIR PROJECT_ROOT) "templates".
Definition OUTPUT_DIR : path := joinpath PROJECT_ROOT "last-week-in-sknwpl".
Definition DEFAULT_BACKGROUND : path := joinpath TEMPLATES_DIR "pmarlo_background.png".

(** [get_week_folder] once [dt] is known: the folder is named after the
    days of the month of the Monday and of the Sunday of the week of
    [dt]. *)
Definition week_folder_of (dt : calendar_date) : outcome path :=
  week_start ← add_days dt (- weekday dt);
  week_end ← add_days week_start 6;
  let folder_name :=
    "week_" +:+ format_0wd 2 (d_day week_start) +:+ "_" +:+ format_0wd 2 (d_day week_end) in
  mret (joinpath OUTPUT_DIR folder_name).

Definition get_week_folder (ws : workstation) (date : option string) : outcome path :=
  dt ← match date with
       | Some d => if decide (d = "") then Returned (ws_now ws) else strptime_ymd d
       | None => Returned (ws_now ws)
       end;
  week_folder_of dt.

(** [args.output or get_week_folder(args.date)]: the text of the option
    as it stands, or the path of the week's folder. *)
Definition output_or_week_folder (ws : workstation) (output date : option string)
    : outcome (string + path) :=
  match output with
  | Some o =>
      if decide (o = "")
      then folder ← get_week_folder ws date; mret (inr folder)
      else mret (inl o)
  | None => folder ← get_week_folder ws date; mret (inr folder)
  end.

(** The arguments of [meeting.py transcribe]. *)
Record transcribe_args : Type := {
  ta_audio : string;
  ta_method : string;
  ta_model : option string;
  ta_language : string;
  ta_output : option string;
  ta_date : option string;
}.

(** [output_dir / name] needs a path on its left: on the text of
    [--output] it raises [TypeError]. *)
Definition cmd_transcribe (ext : externals) (ws : workstation) (args : transcribe_args)
    : M (gmap string value) :=
  let audio_path := Path (ta_audio args) in
  output_dir ← lift (output_or_week_folder ws (ta_output args) (ta_date args));
  let output_dir_path :=
    match output_dir with
    | inl o => Path o
    | inr p => p
    end in
  result ← transcribe json_dumps ext audio_path (ta_method args)
             {| kw_model_size := Some (ta_model args);
                kw_language := Some (ta_language args);
                kw_output_dir := Some (Some output_dir_path);
                kw_device := None;
                kw_compute_type := None;
                kw_batch_size := None;
                kw_api_key := None |};
  match output_dir with
  | inl _ => raise (TypeError "unsupported operand type(s) for /: 'str' and 'str'")
  | inr output_dir =>
      let transcript_txt := joinpath output_dir (stem audio_path +:+ "_transcript.txt") in
      present ← path_exists transcript_txt;
      (if negb present
       then mret ()
       else
         transcript ← read_text transcript_txt;
         let prompt := generate_highlights_prompt transcript in
         let prompt_file := joinpath output_dir "prompt_highlights.txt" in
         save_prompt_to_file prompt prompt_file;;
         mret ());;
      mret result
  end.

(** The arguments of [meeting.py video]. *)
Record video_args : Type := {
  va_audio : string;
  va_background : option string;
  va_output : option string;
  va_resolution : string;
  va_date : option string;
}.

Definition cmd_video (ext : externals) (ws : workstation) (args : video_args) : M path :=
  let audio_path := Path (va_audio args) in
  let background :=
    match va_background args with
    | Some b => if decide (b = "") then DEFAULT_BACKGROUND else Path b
    | None => DEFAULT_BACKGROUND
    end in
  output_dir ← lift (output_or_week_folder ws (va_output args) (va_date args));
  let output_dir :=
    match output_dir with
    | inl o => Path o
    | inr p => p
    end in
  let output_path := joinpath output_dir (stem audio_path +:+ ".mp4") in
  create_video_from_audio ext audio_path background (Some output_path)
    (va_resolution args) 30 "192k" "1M".

(** The arguments of [meeting.py prompts]. *)
Record prompts_args : Type := {
  pa_transcript : string;
  pa_notes : option string;
  pa_date : option string;
  pa_type : string;
  pa_clipboard : bool;
}.

(** The notes of a meeting: [None] when no file is named, and also when
    the file named does not exist. *)
Definition read_notes (notes : option string) : M (option string) :=
  match notes with
  | Some n =>
      if decide (n = "") then mret None
      else
        let notes_path := Path n in
        present ← path_exists notes_path;
        if negb present
        then mret None
        else text ← read_text notes_path; mret (Some text)
  | None => mret None
  end.

Definition prompts_to_generate (ext : externals) (type transcript : string)
    (notes : option string) (date : string) : list (string * string) :=
  (if decide (type = "all" ∨ type = "highlights")
   then [("highlights", generate_highlights_prompt transcript)] else [])
  ++ (if decide (type = "all" ∨ type = "summary")
      then [("summary", generate_full_summary_prompt ext transcript notes (Some date))]
      else []).

Definition cmd_prompts (ext : externals) (ws : workstation) (args : prompts_args) : M unit :=
  let transcript_path := Path (pa_transcript args) in
  let output_dir := parent transcript_path in
  transcript ← read_text transcript_path;
  notes ← read_notes (pa_notes args);
  let date := str_or (pa_date args) (ext_today ext) in
  let prompts := prompts_to_generate ext (pa_type args) transcript notes date in
  for_each_M (λ '(name, prompt),
                let prompt_file := joinpath output_dir ("prompt_" +:+ name +:+ ".txt") in
                save_prompt_to_file prompt prompt_file;; mret ())
             prompts;;
  let copied :=
    match prompts with
    | (_, first) :: _ => if pa_clipboard args then copy_to_clipboard ws first else false
    | [] => false
    end in
  mret ().

(** The arguments of [meeting.py upload]. *)
Record upload_args : Type := {
  ua_video : string;
  ua_title : option string;
  ua_description : option string;
  ua_tags : option (list string);
  ua_privacy : string;
  ua_date : option string;
}.

(** [x or d] on an optional list: [None] and the empty list are falsy. *)
Definition list_or {A : Type} (x : option (list A)) (d : list A) : list A :=
  match x with
  | Some (y :: l) => y :: l
  | _ => d
  end.

Definition cmd_upload (ext : externals) (args : upload_args) : M upload_result :=
  let video_path := Path (ua_video args) in
  let highlights_path := joinpath (parent video_path) "highlights.md" in
  present ← path_exists highlights_path;
  highlights ← (if negb present then mret "" else read_text highlights_path);
  let date := str_or (ua_date args) (ext_today ext) in
  let description := generate_meeting_description date "" highlights "" in
  result ← upload_video PROJECT_ROOT ext video_path
             (str_or (ua_title args) ("Spotkanie SKNWPL " +:+ date))
             (str_or (ua_description args) description)
             (Some (list_or (ua_tags args) ["SKNWPL"; "koło naukowe"; "spotkanie"]))
             "22" (ua_privacy args) false;
  let link_file := joinpath (parent video_path) "youtube_link.txt" in
  write_file link_file (ur_url result);;
  mret result.

End Meeting.

(** A workstation for the examples: Friday, 17 May 2024. *)
Definition demo_workstation : workstation :=
  {| ws_now := {| d_year := 2024; d_month := 5; d_day := 17 |};
     ws_pyperclip := None |}.

(** Command lines for the examples. *)
Definition demo_transcribe_args (method : string) (output : option string)
    : transcribe_args :=
  {| ta_audio := "/data/meeting.mkv";
     ta_method := method;
     ta_model := None;
     ta_language := "pl";
     ta_output := output;
     ta_date := Some "2025-11-28" |}.

Definition demo_video_args : video_args :=
  {| va_audio := "/data/meeting.mkv";
     va_background := None;
     va_output := Some "/out";
     va_resolution := "1280x720";
     va_date := Some "yesterday" |}.

Definition demo_upload_args : upload_args :=
  {| ua_video := "/data/meeting.mkv";
     ua_title := None;
     ua_description := None;
     ua_tags := None;
     ua_privacy := "unlisted";
     ua_date := None |}.

(** A directory with a transcript and the notes of the meeting. *)
Definition demo_prompts_world : world :=
  {| files := list_to_map
       [ (["/"; "data"; "meeting_transcript.txt"], "[00:00:00] Dzien dobry.");
         (["/"; "data"; "notes.txt"], "agenda") ];
     calls := [] |}.

Definition demo_prompts_args (type : string) : prompts_args :=
  {| pa_transcript := "/data/meeting_transcript.txt";
     pa_notes := Some "/data/notes.txt";
     pa_date := Some "2025-11-28";
     pa_type := type;
     pa_clipboard := false |}.
Example strip_ex : strip (String "009" " a b " +:+ String "010" "") = "a b".
Proof. reflexivity. Qed.
Example split_ex1 : split " - " "a - b - c" = ["a"; "b"; "c"].
Proof. reflexivity. Qed.
Example split_ex2 : split " - " "a - - b" = ["a"; "- b"].
Proof. reflexivity. Qed.
Example split_ex3 : split " - " " - " = [""; ""].
Proof. reflexivity. Qed.
Example split_ex4 : split (String "010" "") "" = [""].
Proof. reflexivity. Qed.
Example py_int_ex1 : py_int "1_000" = Some 1000.
Proof. reflexivity. Qed.
Example py_int_ex2 : py_int " 007 " = Some 7.
Proof. reflexivity. Qed.
Example py_int_ex3 : py_int "1__0" = None ∧ py_int "_1" = None ∧ py_int "1_" = None
  ∧ py_int "- 3" = None ∧ py_int "" = None ∧ py_int (String "7" (String "028" "")) = None.
Proof. repeat split; reflexivity. Qed.
Example py_int_ex4 : py_int "-12" = Some (-12) ∧ py_int "+7" = Some 7.
Proof. repeat split; reflexivity. Qed.
Example py_str_ex : py_str 0 = "0" ∧ py_str 42 = "42" ∧ py_str (-7) = "-7".
Proof. repeat split; reflexivity. Qed.
Example format_ex : format_0wd 2 (-1) = "-1" ∧ format_0wd 3 (-1) = "-01"
  ∧ format_0wd 2 5 = "05" ∧ format_0wd 2 123 = "123".
Proof. repeat split; reflexivity. Qed.
Example ft_ex1 : format_timestamp 0 = Returned "00:00:00".
Proof. reflexivity. Qed.
Example ft_ex2 : format_timestamp (9999999 # 10000000) = Returned "00:00:01".
Proof. reflexivity. Qed.
Example ft_ex3 : format_timestamp (9999994 # 10000000) = Returned "00:00:00".
Proof. reflexivity. Qed.
Example ft_ex4 : format_timestamp (360000 # 1) = Returned "100:00:00".
Proof. reflexivity. Qed.
Example ft_ex5 : format_timestamp (-3 # 2) = Returned "-1:59:59".
Proof. reflexivity. Qed.
Example ft_ex6 : format_timestamp (-4 # 10) = Returned "00:00:00".
Proof. reflexivity. Qed.
Example ft_ex7 : format_timestamp (86399999999999 # 1) = Returned "23999999999:59:59".
Proof. reflexivity. Qed.
Example ft_ex8 : format_timestamp (86400000000000 # 1) = Raised (OverflowError "days out of range").
Proof. reflexivity. Qed.
Example stem_ex : stem ["/"; "a"; "meeting.tar.gz"] = "meeting.tar" ∧ stem ["x"; ".bashrc"] = ".bashrc"
  ∧ stem ["foo."] = "foo." ∧ stem ["rec.mkv"] = "rec".
Proof. repeat split; reflexivity. Qed.
Example join_ex : joinpath ["/"; "r"] "meeting_1_2024/01/./02" = ["/"; "r"; "meeting_1_2024"; "01"; "02"].
Proof. reflexivity. Qed.
Example next_ex1 : get_next_meeting_number None = 1 ∧ get_next_meeting_number (Some "") = 1
  ∧ get_next_meeting_number (Some (String "010" (String "010" " "))) = 1.
Proof. repeat split; reflexivity. Qed.
Example next_ex2 :
  get_next_meeting_number (Some ("7 - https://example.com/v7" +:+ String "010" "")) = 8.
Proof. reflexivity. Qed.
Example next_ex3 :
  get_next_meeting_number (Some (ledger_from 1 ["a"; "b"] +:+ "xx" +:+ String "010" "")) = 4.
Proof. reflexivity. Qed.
Example next_ex4 :
  get_next_meeting_number (Some ("garbage" +:+ String "010" (String "010" ""))) = 2
  ∧ get_next_meeting_number (Some "007 - x") = 8
  ∧ get_next_meeting_number (Some "7  - x") = 8
  ∧ get_next_meeting_number (Some "7 -") = 2
  ∧ get_next_meeting_number (Some "-3 - x") = -2.
Proof. repeat split; reflexivity. Qed.

(** The model agrees with CPython 3.11 on these inputs. *)
Example py_next_3 : get_next_meeting_number (Some ("1 - a" +:+ String "013" "" +:+ String "010" "" +:+ "2 - b" +:+ String "013" "" +:+ String "010" "")) = (3).
Proof. reflexivity. Qed.
Example py_next_5 : get_next_meeting_number (Some ("3 - a - b")) = (4).
Proof. reflexivity. Qed.
Example py_next_6 : get_next_meeting_number (Some (" 5 - x ")) = (6).
Proof. reflexivity. Qed.
Example py_next_9 : get_next_meeting_number (Some ("1_0 - x")) = (11).
Proof. reflexivity. Qed.
Example py_next_10 : get_next_meeting_number (Some ("7" +:+ String "028" "" +:+ " - x")) = (2).
Proof. reflexivity. Qed.
Example py_next_11 : get_next_meeting_number (Some (String "028" "" +:+ "7 - x")) = (8).
Proof. reflexivity. Qed.
Example py_next_12 : get_next_meeting_number (Some ("a" +:+ String "010" "" +:+ String "010" "" +:+ String "010" "" +:+ "b")) = (5).
Proof. reflexivity. Qed.
Example py_next_13 : get_next_meeting_number (Some ("7 - url" +:+ String "010" "" +:+ String "010" "" +:+ String "010" "")) = (8).
Proof. reflexivity. Qed.
Example py_next_14 : get_next_meeting_number (Some ("7 -" +:+ String "010" "")) = (2).
Proof. reflexivity. Qed.
Example py_next_17 : get_next_meeting_number (Some ("-3 - a")) = (-2).
Proof. reflexivity. Qed.
Example py_next_19 : get_next_meeting_number (Some ("1 - a" +:+ String "013" "" +:+ "2 - b" +:+ String "013" "")) = (3).
Proof. reflexivity. Qed.
Example py_next_21 : get_next_meeting_number (Some ("9 - a" +:+ String "010" "" +:+ "  " +:+ String "010" "" +:+ "8" +:+ String "010" "")) = (4).
Proof. reflexivity. Qed.
Example py_next_22 : get_next_meeting_number (Some ("12 - x" +:+ String "010" "" +:+ "13" +:+ String "160" "" +:+ " - y" +:+ String "010" "")) = (14).
Proof. reflexivity. Qed.
Example py_path_0 : Path "a//b/./c" = ["a"; "b"; "c"] ∧ stem (Path "a//b/./c") = "c" ∧ name (Path "a//b/./c") = "c" ∧ parent (Path "a//b/./c") = ["a"; "b"] ∧ path_str (Path "a//b/./c") = "a/b/c".
Proof. repeat split; reflexivity. Qed.
Example py_path_1 : Path "/x/y.tar.gz" = ["/"; "x"; "y.tar.gz"] ∧ stem (Path "/x/y.tar.gz") = "y.tar" ∧ name (Path "/x/y.tar.gz") = "y.tar.gz" ∧ parent (Path "/x/y.tar.gz") = ["/"; "x"] ∧ path_str (Path "/x/y.tar.gz") = "/x/y.tar.gz".
Proof. repeat split; reflexivity. Qed.
Example py_path_2 : Path "x/.hidden" = ["x"; ".hidden"] ∧ stem (Path "x/.hidden") = ".hidden" ∧ name (Path "x/.hidden") = ".hidden" ∧ parent (Path "x/.hidden") = ["x"] ∧ path_str (Path "x/.hidden") = "x/.hidden".
Proof. repeat split; reflexivity. Qed.
Example py_path_3 : Path "foo." = ["foo."] ∧ stem (Path "foo.") = "foo." ∧ name (Path "foo.") = "foo." ∧ parent (Path "foo.") = [] ∧ path_str (Path "foo.") = "foo.".
Proof. repeat split; reflexivity. Qed.
Example py_path_5 : Path "/" = ["/"] ∧ stem (Path "/") = "" ∧ name (Path "/") = "" ∧ parent (Path "/") = ["/"] ∧ path_str (Path "/") = "/".
Proof. repeat split; reflexivity. Qed.
Example py_path_10 : Path "a/..b" = ["a"; "..b"] ∧ stem (Path "a/..b") = "." ∧ name (Path "a/..b") = "..b" ∧ parent (Path "a/..b") = ["a"] ∧ path_str (Path "a/..b") = "a/..b".
Proof. repeat split; reflexivity. Qed.
Example py_join_1 : joinpath (Path "a/b") "/abs/x" = ["/"; "abs"; "x"].
Proof. reflexivity. Qed.
Example py_join_3 : joinpath (Path "/r") "" = ["/"; "r"].
Proof. reflexivity. Qed.
Example py_suffix_3 : with_suffix_mp4 (Path ".hidden") = Some [".hidden.mp4"].
Proof. reflexivity. Qed.
Example py_suffix_4 : with_suffix_mp4 (Path "/") = None.
Proof. reflexivity. Qed.

(** * Properties *)

(** ** Strings *)

Section StringFacts.

Implicit Types (s t r sep cur : string) (c : ascii).

Lemma str_app_cons c s t : String c s +:+ t = String c (s +:+ t).
Proof. done. Qed.

Lemma str_app_nil_l s : "" +:+ s = s.
Proof. done. Qed.

Lemma str_app_nil_r s : s +:+ "" = s.
Proof. induction s as [|c s IH]; [done | by rewrite str_app_cons, IH]. Qed.

Lemma str_app_assoc s t r : (s +:+ t) +:+ r = s +:+ (t +:+ r).
Proof. induction s as [|c s IH]; [done | by rewrite !str_app_cons, IH]. Qed.

Lemma str_length_app s t : String.length (s +:+ t) = (String.length s + String.length t)%nat.
Proof. induction s as [|c s IH]; [done | rewrite str_app_cons; simpl; by rewrite IH]. Qed.

Lemma prefix_nil_l s : String.prefix "" s = true.
Proof. by destruct s. Qed.

Lemma prefix_cons c1 c2 s t :
  String.prefix (String c1 s) (String c2 t) = bool_decide (c1 = c2) && String.prefix s t.
Proof. simpl. destruct (ascii_dec c1 c2); case_bool_decide; done. Qed.

Lemma prefix_app_self s r : String.prefix s (s +:+ r) = true.
Proof.
  induction s as [|c s IH]; [apply prefix_nil_l |].
  rewrite str_app_cons, prefix_cons, IH. by rewrite bool_decide_eq_true_2.
Qed.

Lemma prefix_app_long sep : ∀ t r,
  (String.length sep ≤ String.length t)%nat →
  String.prefix sep (t +:+ r) = String.prefix sep t.
Proof.
  induction sep as [|a sep IH]; intros t r Hlen.
  - by rewrite !prefix_nil_l.
  - destruct t as [|b t]; simpl in Hlen; [lia |].
    change (String b t +:+ r) with (String b (t +:+ r)).
    rewrite !prefix_cons, IH; [done | lia].
Qed.

Lemma prefix_short sep : ∀ t,
  (String.length t < String.length sep)%nat → String.prefix sep t = false.
Proof.
  induction sep as [|a sep IH]; intros t Hlen; simpl in Hlen; [lia |].
  destruct t as [|b t]; [done |].
  rewrite prefix_cons, IH; [apply andb_false_r | simpl in Hlen; lia].
Qed.

Lemma prefix_split sep : ∀ t,
  String.prefix sep t = true → ∃ r, t = sep +:+ r.
Proof.
  induction sep as [|a sep IH]; intros t H.
  - by exists t.
  - destruct t as [|b t]; [done |].
    rewrite prefix_cons in H. apply andb_true_iff in H as [Hc H].
    apply bool_decide_eq_true in Hc as ->.
    destruct (IH _ H) as [r ->]. by exists r.
Qed.

Lemma contains_cons sub c s :
  contains sub (String c s) = String.prefix sub (String c s) || contains sub s.
Proof. done. Qed.

Lemma contains_nil sub : contains sub "" = String.prefix sub "" || false.
Proof. done. Qed.

Lemma contains_short sep : ∀ t,
  (String.length t < String.length sep)%nat → contains sep t = false.
Proof.
  intros t. induction t as [|b t IH]; intros Hlen.
  - rewrite contains_nil, prefix_short by done. done.
  - rewrite contains_cons, prefix_short by done.
    simpl in Hlen. rewrite IH by lia. done.
Qed.

Lemma str_init_length s : String.length (str_init s) = Nat.pred (String.length s).
Proof.
  induction s as [|c s IH]; [done |].
  destruct s as [|c' s]; [done |].
  change (str_init (String c (String c' s))) with (String c (str_init (String c' s))).
  change (String.length (String c (str_init (String c' s))))
    with (S (String.length (str_init (String c' s)))).
  rewrite IH. done.
Qed.

Lemma str_init_last s : s ≠ "" → ∃ c, s = str_init s +:+ String c "".
Proof.
  induction s as [|c s IH]; [done | intros _].
  destruct s as [|c' s]; [by exists c |].
  destruct IH as [d Hd]; [done |]. exists d.
  change (str_init (String c (String c' s))) with (String c (str_init (String c' s))).
  rewrite str_app_cons. by rewrite <- Hd.
Qed.

Lemma split_from_skip sep m : ∀ cur rest,
  split_from sep (String.length m) cur (m +:+ rest) = split_from sep 0 cur rest.
Proof. induction m as [|c m IH]; intros; [done | rewrite str_app_cons; apply IH]. Qed.

Lemma split_from_at_sep sep cur rest :
  sep ≠ "" →
  split_from sep 0 cur (sep +:+ rest) = cur :: split_from sep 0 "" rest.
Proof.
  intros Hsep. destruct sep as [|c sep]; [done |].
  change (String c sep +:+ rest) with (String c (sep +:+ rest)).
  cbn [split_from].
  change (String c (sep +:+ rest)) with (String c sep +:+ rest).
  rewrite prefix_app_self. simpl String.length. simpl Nat.pred.
  by rewrite split_from_skip.
Qed.

Lemma prefix_before_sep sep a num rest :
  sep ≠ "" →
  String.prefix sep (String a (num +:+ sep +:+ rest))
  = String.prefix sep (String a (num +:+ str_init sep)).
Proof.
  intros Hsep. destruct (str_init_last sep Hsep) as [d Hd].
  pose proof (str_init_length sep) as Hlen.
  set (i := str_init sep) in *.
  assert (num +:+ sep +:+ rest = (num +:+ i) +:+ (String d "" +:+ rest)) as ->.
  { rewrite Hd. by rewrite !str_app_assoc. }
  rewrite <- str_app_cons. apply prefix_app_long.
  simpl. rewrite str_length_app, Hlen. destruct sep; [done | simpl; lia].
Qed.

(** The first cut of [split] falls at the first occurrence of the
    separator. *)
Lemma split_from_first sep num : ∀ cur rest,
  sep ≠ "" →
  contains sep (num +:+ str_init sep) = false →
  split_from sep 0 cur (num +:+ sep +:+ rest)
  = (cur +:+ num) :: split_from sep 0 "" rest.
Proof.
  induction num as [|a num IH]; intros cur rest Hsep Hfree.
  - rewrite str_app_nil_l, str_app_nil_r. by apply split_from_at_sep.
  - change (String a num +:+ str_init sep) with (String a (num +:+ str_init sep)) in Hfree.
    rewrite contains_cons in Hfree. apply orb_false_iff in Hfree as [Hp Hc].
    change (String a num +:+ sep +:+ rest) with (String a (num +:+ sep +:+ rest)).
    cbn [split_from].
    rewrite prefix_before_sep, Hp by done.
    rewrite IH by done. by rewrite str_app_assoc.
Qed.

Lemma contains_app_sep sep num rest : contains sep (num +:+ sep +:+ rest) = true.
Proof.
  induction num as [|a num IH].
  - rewrite str_app_nil_l. destruct (sep +:+ rest) eqn:E.
    + destruct sep; [done | done].
    + rewrite contains_cons, <- E, prefix_app_self. done.
  - change (String a num +:+ sep +:+ rest) with (String a (num +:+ sep +:+ rest)).
    rewrite contains_cons, IH. apply orb_true_r.
Qed.

Lemma contains_decompose sep : ∀ l,
  sep ≠ "" → contains sep l = true →
  ∃ num rest, l = num +:+ sep +:+ rest ∧ contains sep (num +:+ str_init sep) = false.
Proof.
  intros l Hsep. induction l as [|a l IH]; intros H.
  - simpl in H. destruct sep; [done | done].
  - rewrite contains_cons in H.
    destruct (String.prefix sep (String a l)) eqn:Hp.
    + destruct (prefix_split _ _ Hp) as [r Hr].
      exists "", r. split; [done |].
      rewrite str_app_nil_l. apply contains_short. rewrite str_init_length.
      destruct sep; [done | simpl; lia].
    + simpl in H. destruct (IH H) as (num & rest & -> & Hfree).
      exists (String a num), rest. split; [done |].
      change (String a num +:+ str_init sep) with (String a (num +:+ str_init sep)).
      rewrite contains_cons, Hfree, orb_false_r.
      by rewrite <- (prefix_before_sep sep a num rest), Hp.
Qed.

End StringFacts.

(** ** Numerals *)

Section NumeralFacts.

Implicit Types (d : Decimal.uint) (s : string) (n acc : Z).

Lemma free_of_cons p c s : free_of p (String c s) = negb (p c) && free_of p s.
Proof. done. Qed.

Lemma free_of_app p s t : free_of p (s +:+ t) = free_of p s && free_of p t.
Proof.
  induction s as [|c s IH]; [done |].
  by rewrite str_app_cons, !free_of_cons, IH, andb_assoc.
Qed.

Lemma free_of_uint p d :
  avoids_digits p → free_of p (NilEmpty.string_of_uint d) = true.
Proof.
  intros (H0 & H1 & H2 & H3 & H4 & H5 & H6 & H7 & H8 & H9).
  induction d; cbn [NilEmpty.string_of_uint]; rewrite ?free_of_cons, ?IHd;
    rewrite ?H0, ?H1, ?H2, ?H3, ?H4, ?H5, ?H6, ?H7, ?H8, ?H9; done.
Qed.

Lemma free_of_py_str p n :
  avoids_digits p → p "-"%char = false → free_of p (py_str n) = true.
Proof.
  intros Hd Hm. pose proof Hd as (H0 & _).
  unfold py_str, NilZero.string_of_int, NilZero.string_of_uint.
  destruct (Z.to_int n) as [d|d]; rewrite ?free_of_cons, ?Hm; simpl negb;
    (destruct d eqn:E; [by rewrite free_of_cons, H0 | rewrite <- E; by apply free_of_uint ..]).
Qed.

Lemma py_str_nonempty n : ∃ c s, py_str n = String c s ∧ isspace c = false.
Proof.
  unfold py_str, NilZero.string_of_int, NilZero.string_of_uint.
  destruct (Z.to_int n) as [d|d]; [| by eauto].
  destruct d; cbn [NilEmpty.string_of_uint]; eauto.
Qed.

Lemma digits_from_acc d : ∀ (a : positive),
  digits_from (Z.pos a) true (NilEmpty.string_of_uint d)
  = Some (Z.pos (Pos.of_uint_acc d a)).
Proof.
  induction d; intros a; cbn [NilEmpty.string_of_uint Pos.of_uint_acc]; [done | ..];
    cbn [digits_from]; cbv [digit_value]; cbn;
    rewrite <- IHd; f_equal; lia.
Qed.

Lemma digits_from_uint d :
  digits_from 0 true (NilEmpty.string_of_uint d) = Some (Z.of_N (Pos.of_uint d)).
Proof.
  induction d; cbn [NilEmpty.string_of_uint Pos.of_uint]; [done | ..];
    cbn [digits_from]; cbv [digit_value]; cbn;
    [exact IHd | apply digits_from_acc ..].
Qed.

Lemma digits_from_uint_start d :
  d ≠ Decimal.Nil →
  digits_from 0 false (NilEmpty.string_of_uint d) = Some (Z.of_N (Pos.of_uint d)).
Proof.
  intros Hd. rewrite <- digits_from_uint.
  destruct d; [done | ..]; reflexivity.
Qed.

Lemma int_rstrip_free s : free_of int_isspace s = true → int_rstrip s = s.
Proof.
  induction s as [|c s IH]; [done |].
  rewrite free_of_cons. intros [Hc Hs]%andb_true_iff.
  cbn [int_rstrip]. rewrite (IH Hs).
  destruct s; [| done]. by destruct (int_isspace c).
Qed.

Lemma int_lstrip_free s : free_of int_isspace s = true → int_lstrip s = s.
Proof.
  destruct s as [|c s]; [done |].
  rewrite free_of_cons. intros [Hc Hs]%andb_true_iff.
  cbn [int_lstrip]. by destruct (int_isspace c).
Qed.

Lemma int_isspace_avoids_digits : avoids_digits int_isspace.
Proof. repeat split; reflexivity. Qed.

Lemma isspace_avoids_digits : avoids_digits isspace.
Proof. repeat split; reflexivity. Qed.

Lemma is_line_break_avoids_digits : avoids_digits is_line_break.
Proof. repeat split; reflexivity. Qed.

Lemma py_int_uint d :
  d ≠ Decimal.Nil →
  py_int (NilEmpty.string_of_uint d) = Some (Z.of_N (Pos.of_uint d)).
Proof.
  intros Hd. unfold py_int.
  rewrite int_lstrip_free, int_rstrip_free
    by (apply free_of_uint, int_isspace_avoids_digits).
  rewrite <- (digits_from_uint_start d Hd).
  destruct d; [done | ..]; reflexivity.
Qed.

(** [int(str(n)) == n] *)
Lemma py_int_py_str n : py_int (py_str n) = Some n.
Proof.
  unfold py_str. destruct n as [|p|p]; [reflexivity | ..];
    cbn [Z.to_int NilZero.string_of_int]; unfold NilZero.string_of_uint;
    pose proof (DecimalPos.Unsigned.to_uint_nonnil p) as Hnil;
    pose proof (DecimalPos.Unsigned.of_to p) as Hval.
  - destruct (Pos.to_uint p) eqn:E; [done | ..]; rewrite <- E in *;
      rewrite py_int_uint, Hval by done; done.
  - assert (NilEmpty.string_of_uint (Pos.to_uint p)
            = match Pos.to_uint p with
              | Decimal.Nil => "0"
              | _ => NilEmpty.string_of_uint (Pos.to_uint p)
              end) as <- by (by destruct (Pos.to_uint p)).
    unfold py_int.
    assert (free_of int_isspace (String "-" (NilEmpty.string_of_uint (Pos.to_uint p))) = true)
      as Hfree by (rewrite free_of_cons, free_of_uint; [done | apply int_isspace_avoids_digits]).
    rewrite int_lstrip_free, int_rstrip_free by done.
    cbn beta iota. rewrite digits_from_uint_start, Hval by done. done.
Qed.

End NumeralFacts.

(** ** The ledger ([full_pipeline.py]) *)

Section LedgerFacts.

Implicit Types (s t sep cur text line url : string) (n : Z).

Lemma split_from_nonempty sep s : ∀ skip cur, split_from sep skip cur s ≠ [].
Proof.
  induction s as [|c s IH]; intros skip cur; [done |].
  cbn [split_from]. destruct skip; [| apply IH].
  destruct (String.prefix sep (String c s)); [done | apply IH].
Qed.

(** A text that [split] returns in one piece is that piece. *)
Lemma split_from_single sep s : ∀ cur x,
  split_from sep 0 cur s = [x] → x = cur +:+ s.
Proof.
  induction s as [|c s IH]; intros cur x H.
  - cbn in H. rewrite str_app_nil_r. congruence.
  - cbn [split_from] in H. destruct (String.prefix sep (String c s)).
    + injection H as _ H. by apply split_from_nonempty in H.
    + apply IH in H. by rewrite str_app_assoc in H.
Qed.

Lemma ledger_lines_blank text :
  strip (universal_newlines text) = "" ↔ ledger_lines text = [""].
Proof.
  unfold ledger_lines. split; [by intros -> |].
  intros H. apply split_from_single in H. by rewrite str_app_nil_l in H.
Qed.

Lemma ledger_lines_nonempty text : ledger_lines text ≠ [].
Proof. apply split_from_nonempty. Qed.

Lemma get_next_meeting_number_nonblank text :
  strip (universal_newlines text) ≠ "" →
  get_next_meeting_number (Some text)
  = match parse_last_number (last_ledger_line text) with
    | Some last_num => last_num + 1
    | None => Z.of_nat (length (ledger_lines text)) + 1
    end.
Proof.
  intros Hne. unfold get_next_meeting_number.
  rewrite bool_decide_eq_false_2; [done |].
  intros [H | H]; [by apply ledger_lines_nonempty in H |].
  by apply ledger_lines_blank in H.
Qed.

Lemma parse_last_number_entry line n :
  entry_form line n → parse_last_number line = Some n.
Proof.
  intros (num & url & -> & Hfirst & Hint). unfold parse_last_number.
  rewrite contains_app_sep. unfold split.
  rewrite (split_from_first " - " num "" url) by done.
  by rewrite str_app_nil_l.
Qed.

Lemma parse_last_number_form line n :
  parse_last_number line = Some n → entry_form line n.
Proof.
  unfold parse_last_number. destruct (contains " - " line) eqn:Hc; [| done].
  destruct (contains_decompose " - " line) as (num & url & -> & Hfirst); [done.. |].
  unfold split. rewrite (split_from_first " - " num "" url) by done.
  rewrite str_app_nil_l. intros Hint. by exists num, url.
Qed.

(** A numeral without blanks is followed by the first [" - "] of
    [num - url]. *)
Lemma first_separator_after num :
  free_of (Ascii.eqb " ") num = true → contains " - " (num +:+ " -") = false.
Proof.
  induction num as [|c num IH]; [done |].
  rewrite free_of_cons. intros [Hc Hs]%andb_true_iff.
  rewrite str_app_cons, contains_cons, IH, orb_false_r by done.
  rewrite prefix_cons. apply negb_true_iff in Hc.
  rewrite bool_decide_eq_false_2; [done |].
  intros <-. by rewrite Ascii.eqb_refl in Hc.
Qed.

Lemma py_int_limited_within s :
  (digit_count s ≤ int_max_str_digits)%nat → py_int_limited s = py_int s.
Proof.
  intros H. unfold py_int_limited.
  destruct (int_max_str_digits <? digit_count s)%nat eqn:E; [| done].
  apply Nat.ltb_lt in E. lia.
Qed.

Lemma py_int_limited_over s :
  (int_max_str_digits < digit_count s)%nat → py_int_limited s = None.
Proof. intros H. unfold py_int_limited. apply Nat.ltb_lt in H. by rewrite H. Qed.

Lemma py_int_limited_Some s n :
  py_int_limited s = Some n ↔ (digit_count s ≤ int_max_str_digits)%nat ∧ py_int s = Some n.
Proof.
  unfold py_int_limited.
  destruct (int_max_str_digits <? digit_count s)%nat eqn:E.
  - apply Nat.ltb_lt in E. split; [done | lia].
  - apply Nat.ltb_ge in E. tauto.
Qed.

Lemma py_int_limited_py_str n :
  (digit_count (py_str n) ≤ int_max_str_digits)%nat → py_int_limited (py_str n) = Some n.
Proof. intros H. rewrite py_int_limited_within by done. apply py_int_py_str. Qed.

Lemma parse_last_number_py_str n url :
  parse_last_number (py_str n +:+ " - " +:+ url) = py_int_limited (py_str n).
Proof.
  unfold parse_last_number. rewrite contains_app_sep. unfold split.
  rewrite (split_from_first " - " (py_str n) "" url); [by rewrite str_app_nil_l | done |].
  apply first_separator_after, free_of_py_str; [repeat split |]; reflexivity.
Qed.

Lemma entry_form_py_str n url :
  (digit_count (py_str n) ≤ int_max_str_digits)%nat →
  entry_form (py_str n +:+ " - " +:+ url) n.
Proof.
  intros Hn. exists (py_str n), url. split_and!; [done | | by apply py_int_limited_py_str].
  apply first_separator_after, free_of_py_str; [repeat split |]; reflexivity.
Qed.

End LedgerFacts.

(** ** The advisor *)

Section AdvisorFacts.

Lemma get_optimal_settings_cpu_branch (h : host) (device : string) (ram : option Q) :
  device ≠ "cuda" →
  get_optimal_settings h device ram
  = {| s_model_size := "small"; s_compute_type := "int8";
       s_batch_size := if Qle_bool 4 (resolve_available_ram h ram) then 8 else 1;
       s_beam_size := 5; s_cpu_threads := 0 |}.
Proof.
  intros Hd. unfold get_optimal_settings.
  rewrite decide_False by done.
  by destruct (Qle_bool 4 (resolve_available_ram h ram)).
Qed.

(** C5. A ["cuda"] device yields the GPU profile: model ["medium"],
    precision ["float16"], batch size 8.  A ["cpu"] device yields model
    ["small"] with precision ["int8"]; its batch size is 1 when less than
    4 GB of RAM are available and 8 when at least 4 GB are.  The
    available RAM is the figure the advisor works with: what psutil
    measures, or, when psutil cannot be imported, the caller's figure
    (4 GB when there is none).  A detected GPU makes ["cuda"] the
    device. *)
Theorem get_optimal_settings_profiles (h : host) (available_ram_gb : option Q) :
  get_optimal_settings h "cuda" available_ram_gb
  = {| s_model_size := "medium"; s_compute_type := "float16";
       s_batch_size := 8; s_beam_size := 5; s_cpu_threads := 4 |}
  ∧ (let ram := resolve_available_ram h available_ram_gb in
     let cpu := get_optimal_settings h "cpu" available_ram_gb in
     s_model_size cpu = "small" ∧ s_compute_type cpu = "int8"
     ∧ ((ram < 4)%Q → s_batch_size cpu = 1)
     ∧ ((4 <= ram)%Q → s_batch_size cpu = 8))
  ∧ (∀ measured, psutil_available_gb h = Some measured →
       resolve_available_ram h available_ram_gb = measured)
  ∧ (∀ r, psutil_available_gb h = None → available_ram_gb = Some r → ¬ (r == 0)%Q →
       resolve_available_ram h available_ram_gb = r)
  ∧ (psutil_available_gb h = None → available_ram_gb = None →
       resolve_available_ram h available_ram_gb = 4%Q)
  ∧ (torch_cuda h = Some true → detect_device h = ("cuda", "float16")).
Proof.
  split_and!.
  - reflexivity.
  - cbn zeta. rewrite get_optimal_settings_cpu_branch by done. cbn.
    split_and!; [done | done | |].
    + intros Hlt. destruct (Qle_bool 4 _) eqn:E; [| done].
      apply Qle_bool_iff in E. by apply Qlt_not_le in Hlt.
    + intros Hle. apply Qle_bool_iff in Hle. by rewrite Hle.
  - intros m Hm. unfold resolve_available_ram. by rewrite Hm.
  - intros r Hp -> Hr. unfold resolve_available_ram, float_or. rewrite Hp.
    destruct (Qeq_bool r 0) eqn:E; [| done].
    by apply Qeq_bool_iff in E.
  - intros Hp ->. unfold resolve_available_ram. by rewrite Hp.
  - intros Hc. unfold detect_device. by rewrite Hc.
Qed.

Lemma get_optimal_settings_profiles_witness :
  s_batch_size
    (get_optimal_settings {| torch_cuda := Some false; psutil_available_gb := Some (2 # 1) |}
       "cpu" None) = 1.
Proof.
  destruct (get_optimal_settings_profiles
              {| torch_cuda := Some false; psutil_available_gb := Some (2 # 1) |} None)
    as (_ & (_ & _ & Hlow & _) & _).
  apply Hlow. reflexivity.
Defined.

End AdvisorFacts.

(** ** Time stamps *)

Section TimestampFacts.

Implicit Types (n t : Z) (k w : nat) (s : string).

Lemma zeros_length k : String.length (zeros k) = k.
Proof. induction k as [|k IH]; [done | simpl; by rewrite IH]. Qed.

Lemma format_0wd_nonneg w n :
  0 ≤ n → format_0wd w n = zeros (w - String.length (py_str n)) +:+ py_str n.
Proof. intros Hn. unfold format_0wd. by rewrite (proj2 (Z.ltb_ge n 0)). Qed.

Lemma format_0wd_min_width w n : 0 ≤ n → (w ≤ String.length (format_0wd w n))%nat.
Proof.
  intros Hn. rewrite format_0wd_nonneg, str_length_app, zeros_length by done. lia.
Qed.

Lemma format_02d_two_digits n : 0 ≤ n < 100 → String.length (format_0wd 2 n) = 2%nat.
Proof.
  intros Hn.
  assert (forallb (λ i, String.length (format_0wd 2 (Z.of_nat i)) =? 2)%nat (seq 0 100) = true)
    as Hall by (vm_compute; reflexivity).
  rewrite forallb_forall in Hall.
  specialize (Hall (Z.to_nat n)). rewrite Z2Nat.id in Hall by lia.
  apply Nat.eqb_eq, Hall, in_seq. lia.
Qed.

Lemma digits_from_zeros k s : digits_from 0 true (zeros k +:+ s) = digits_from 0 true s.
Proof. induction k as [|k IH]; [done | exact IH]. Qed.

Lemma digits_from_py_str n : 0 ≤ n → digits_from 0 true (py_str n) = Some n.
Proof.
  intros Hn. destruct n as [|p|p]; [reflexivity | | lia].
  unfold py_str. cbn [Z.to_int NilZero.string_of_int]. unfold NilZero.string_of_uint.
  pose proof (DecimalPos.Unsigned.to_uint_nonnil p) as Hnil.
  pose proof (DecimalPos.Unsigned.of_to p) as Hval.
  destruct (Pos.to_uint p) eqn:E; [done | ..]; rewrite <- E in *;
    by rewrite digits_from_uint, Hval.
Qed.

(** A zero-padded field reads back as the number it was made from. *)
Lemma py_int_format_0wd w n : 0 ≤ n → py_int (format_0wd w n) = Some n.
Proof.
  intros Hn. rewrite format_0wd_nonneg by done.
  destruct (w - String.length (py_str n))%nat as [|k]; [apply py_int_py_str |].
  unfold py_int.
  assert (free_of int_isspace (zeros (S k) +:+ py_str n) = true) as Hfree.
  { rewrite free_of_app, free_of_py_str by (done || apply int_isspace_avoids_digits).
    rewrite andb_true_r. clear. induction k as [|k IH]; [done | exact IH]. }
  rewrite int_lstrip_free, int_rstrip_free by done.
  change (zeros (S k) +:+ py_str n) with (String "0" (zeros k +:+ py_str n)).
  cbn beta iota. change (digits_from 0 false (String "0" (zeros k +:+ py_str n)))
    with (digits_from 0 true (zeros k +:+ py_str n)).
  by rewrite digits_from_zeros, digits_from_py_str.
Qed.

Lemma round_half_even_cases (q : Q) :
  let f := Qnum q / Z.pos (Qden q) in
  let r := Qnum q mod Z.pos (Qden q) in
  (round_half_even q = f ∧ 2 * r ≤ Z.pos (Qden q))
  ∨ (round_half_even q = f + 1 ∧ Z.pos (Qden q) ≤ 2 * r).
Proof.
  cbn zeta. unfold round_half_even.
  destruct (Z.ltb_spec (2 * (Qnum q mod Z.pos (Qden q))) (Z.pos (Qden q))); [left; lia |].
  destruct (Z.ltb_spec (Z.pos (Qden q)) (2 * (Qnum q mod Z.pos (Qden q)))); [right; lia |].
  destruct (Z.even _); [left | right]; lia.
Qed.

Lemma render_hms_components t :
  format_0wd 2 (t / 3600) +:+ ":" +:+ format_0wd 2 (t mod 3600 / 60)
  +:+ ":" +:+ format_0wd 2 ((t mod 3600) mod 60) = render_hms t.
Proof.
  unfold render_hms. do 5 f_equal.
  apply Z.mod_mod_divide. exists 60. lia.
Qed.

(** What [format_timestamp] renders on an argument in the range of
    [timedelta]: the whole seconds of the argument rounded to the
    microsecond. *)
Lemma format_timestamp_in_range (x : Q) :
  let us := round_half_even (x * (1000000 # 1)) in
  0 ≤ us < 86400000000000000000 →
  format_timestamp x = Returned (render_hms (us / 1000000)).
Proof.
  cbn zeta. intros [Hlo Hhi]. unfold format_timestamp, timedelta_of_seconds.
  set (us := round_half_even (x * (1000000 # 1))) in *.
  assert ((Z.abs (us / 86400000000) <=? 999999999) = true) as ->.
  { apply Z.leb_le. rewrite Z.abs_eq by (apply Z.div_pos; lia).
    apply Z.lt_succ_r. apply Z.div_lt_upper_bound; lia. }
  cbn [mbind outcome_bind mret outcome_ret]. unfold int_of_float, total_seconds. cbn [Qnum Qden].
  rewrite Z.quot_div_nonneg by lia.
  by rewrite render_hms_components.
Qed.

Lemma round_half_even_tie (q : Q) :
  2 * (Qnum q mod Z.pos (Qden q)) = Z.pos (Qden q) →
  Z.even (Qnum q / Z.pos (Qden q)) = false →
  round_half_even q = Qnum q / Z.pos (Qden q) + 1.
Proof.
  intros Htie Hodd. unfold round_half_even.
  rewrite (proj2 (Z.ltb_ge _ _)) by lia. rewrite (proj2 (Z.ltb_ge _ _)) by lia.
  by rewrite Hodd.
Qed.

(** The microseconds of a non-negative argument, against its floor. *)
Lemma round_microseconds_bounds (a : Z) (b : positive) :
  0 ≤ a →
  let us := round_half_even ((a # b) * (1000000 # 1)) in
  let F := a / Z.pos b in
  1000000 * F ≤ us ≤ 1000000 * F + 1000000
  ∧ (2 * 1000000 * (Z.pos b * (F + 1) - a) > Z.pos b → us < 1000000 * F + 1000000)
  ∧ (2 * 1000000 * (Z.pos b * (F + 1) - a) ≤ Z.pos b → us = 1000000 * F + 1000000).
Proof.
  intros Ha. cbn zeta.
  pose proof (round_half_even_cases ((a # b) * (1000000 # 1))) as Hcases.
  pose proof (round_half_even_tie ((a # b) * (1000000 # 1))) as Htie.
  cbn zeta in Hcases. cbn [Qnum Qden Qmult] in Hcases, Htie.
  rewrite Pos.mul_1_r in Hcases, Htie.
  set (us := round_half_even _) in *. clearbody us.
  pose proof (Z.div_mod (a * 1000000) (Z.pos b) ltac:(lia)) as HX.
  pose proof (Z.mod_pos_bound (a * 1000000) (Z.pos b) ltac:(lia)) as HXr.
  pose proof (Z.div_mod a (Z.pos b) ltac:(lia)) as HA.
  pose proof (Z.mod_pos_bound a (Z.pos b) ltac:(lia)) as HAr.
  pose proof (Z.even_spec (a * 1000000 / Z.pos b)) as Heven.
  set (f := a * 1000000 / Z.pos b) in *. set (r := (a * 1000000) mod Z.pos b) in *.
  set (F := a / Z.pos b) in *. set (r0 := a mod Z.pos b) in *.
  assert (Hd : 0 < Z.pos b) by lia. set (d := Z.pos b) in *.
  clearbody d f r F r0.
  assert (1000000 * F ≤ f) by nia.
  assert (f < 1000000 * F + 1000000) by nia.
  split; [lia |]. split; intros Hgap.
  - destruct Hcases as [[-> Hr] | [-> Hr]]; nia.
  - destruct Hcases as [[Hus Hr] | [-> Hr]]; [| nia].
    (* rounded down, and yet within half a microsecond of the next second:
       this is the tie, and the floor is odd *)
    assert (f = 1000000 * F + 999999) as Hf by nia.
    assert (2 * r = d) as Hr2 by nia.
    rewrite Htie in Hus; [lia | done |].
    destruct (Z.even f); [| done].
    destruct (proj1 Heven eq_refl) as [m Hm]. lia.
Qed.

(** C6 (amended). For every non-negative number of seconds [s] in the
    range of [timedelta], [format_timestamp] renders [T], the whole
    seconds of [s] rounded to the nearest microsecond (ties to even), as
    [HH:MM:SS].  [T] is [floor s] unless [s] lies within half a
    microsecond below the next whole second, where it is [floor s + 1].
    Minutes and seconds take exactly two digits and the hours at least
    two; the hours are not reduced modulo 24: the field reads back as
    [T / 3600], which exceeds 24 from 90000 seconds on. *)
Theorem format_timestamp_spec (s : Q) :
  (0 <= s)%Q →
  let us := round_half_even (s * (1000000 # 1)) in
  us < 86400000000000000000 →
  let T := us / 1000000 in
  format_timestamp s = Returned (render_hms T)
  ∧ (T = Qfloor s ∨ T = Qfloor s + 1)
  ∧ ((s < inject_Z (Qfloor s + 1) - (1 # 2000000))%Q → T = Qfloor s)
  ∧ ((inject_Z (Qfloor s + 1) - (1 # 2000000) <= s)%Q → T = Qfloor s + 1)
  ∧ String.length (format_0wd 2 (T mod 3600 / 60)) = 2%nat
  ∧ String.length (format_0wd 2 (T mod 60)) = 2%nat
  ∧ (2 ≤ String.length (format_0wd 2 (T / 3600)))%nat
  ∧ py_int (format_0wd 2 (T / 3600)) = Some (T / 3600)
  ∧ ((90000 <= s)%Q → 24 < T / 3600).
Proof.
  destruct s as [a b]. intros Hs. cbn zeta. intros Hhi.
  assert (0 ≤ a) as Ha by (unfold Qle in Hs; cbn in Hs; lia).
  destruct (round_microseconds_bounds a b Ha) as (Hus & Hgap & Hnear).
  set (us := round_half_even ((a # b) * (1000000 # 1))) in *.
  change (Qfloor (a # b)) with (a / Z.pos b).
  set (F := a / Z.pos b) in *.
  assert (0 ≤ F) as HF by (apply Z.div_pos; lia).
  pose proof (Z.div_mod us 1000000 ltac:(lia)) as HT.
  pose proof (Z.mod_pos_bound us 1000000 ltac:(lia)) as HTr.
  set (T := us / 1000000) in *.
  assert (T = F ∨ T = F + 1) as HTF by lia.
  assert (0 ≤ T) as HT0 by lia.
  split_and!.
  - apply format_timestamp_in_range. fold us. lia.
  - done.
  - intros Hlt. unfold Qlt, Qminus, Qplus, Qopp, inject_Z in Hlt. cbn in Hlt.
    rewrite ?Pos2Z.inj_mul in Hlt.
    assert (us < 1000000 * F + 1000000) by (apply Hgap; lia).
    lia.
  - intros Hle. unfold Qle, Qminus, Qplus, Qopp, inject_Z in Hle. cbn in Hle.
    rewrite ?Pos2Z.inj_mul in Hle.
    assert (us = 1000000 * F + 1000000) by (apply Hnear; lia).
    lia.
  - apply format_02d_two_digits.
    pose proof (Z.mod_pos_bound T 3600 ltac:(lia)).
    split; [apply Z.div_pos; lia | apply Z.div_lt_upper_bound; lia].
  - apply format_02d_two_digits. pose proof (Z.mod_pos_bound T 60 ltac:(lia)). lia.
  - apply format_0wd_min_width, Z.div_pos; lia.
  - apply py_int_format_0wd, Z.div_pos; lia.
  - intros H9. unfold Qle in H9. cbn in H9.
    assert (90000 ≤ F) by (apply Z.div_le_lower_bound; lia).
    apply Z.lt_le_trans with (90000 / 3600); [done |].
    apply Z.div_le_mono; lia.
Qed.

Lemma format_timestamp_spec_witness :
  format_timestamp (90061 # 1) = Returned "25:01:01".
Proof.
  destruct (format_timestamp_spec (90061 # 1)) as (H & _).
  - unfold Qle. cbn. lia.
  - vm_compute. reflexivity.
  - exact H.
Defined.

(** C6, as stated, fails: half a microsecond below a whole second the
    argument is rounded up, and a second more than [floor s] is
    rendered. *)
Lemma format_timestamp_floor_counterexample :
  (0 <= 9999999 # 10000000)%Q
  ∧ Qfloor (9999999 # 10000000) = 0
  ∧ render_hms 0 = "00:00:00"
  ∧ format_timestamp (9999999 # 10000000) = Returned "00:00:01"
  ∧ format_timestamp (9999999 # 10000000)
    ≠ Returned (render_hms (Qfloor (9999999 # 10000000))).
Proof. split_and!; [by unfold Qle | reflexivity | reflexivity | reflexivity | by vm_compute]. Qed.

End TimestampFacts.

(** ** The transcription adapter *)

Ltac unfold_M :=
  unfold mkdir_p in *;
  unfold mbind, M_bind, mret, M_ret, raise, lift, log_call, write_file,
    append_file, get_files, path_exists, is_file in *.


Lemma is_dir_spec (fs : gmap path string) (d : path) :
  is_dir fs d = true
  ↔ (d = [] ∨ d = ["/"]) ∨ ∃ q, is_Some (fs !! q) ∧ below d q = true.
Proof.
  unfold is_dir. rewrite orb_true_iff, bool_decide_eq_true, existsb_exists.
  split; (intros [H | H]; [by left | right]).
  - destruct H as (q & Hq & Hb). exists q. split; [| done].
    apply list_elem_of_In, list_elem_of_fmap in Hq as ([q' v] & -> & Hin).
    apply elem_of_map_to_list in Hin. by eexists.
  - destruct H as (q & [v Hq] & Hb). exists q. split; [| done].
    apply list_elem_of_In, list_elem_of_fmap. exists (q, v). split; [done |].
    by apply elem_of_map_to_list.
Qed.

(** What stands somewhere still stands when a file has been written. *)
Lemma stands_at_insert (fs : gmap path string) (p q : path) (v : string) :
  stands_at fs p = true → stands_at (<[q := v]> fs) p = true.
Proof.
  unfold stands_at. rewrite !orb_true_iff, !bool_decide_eq_true, !is_dir_spec.
  intros [H | [H | (r & Hr & Hb)]].
  - left. rewrite lookup_insert_is_Some'. by right.
  - right. by left.
  - right. right. exists r. split; [| done]. rewrite lookup_insert_is_Some'. by right.
Qed.

Lemma stands_at_absent (fs : gmap path string) (p : path) :
  stands_at fs p = false → fs !! p = None.
Proof.
  unfold stands_at. intros [H _]%orb_false_iff. apply bool_decide_eq_false in H.
  destruct (fs !! p); [exfalso; eauto | done].
Qed.

Section TranscriptionFacts.

Context (json_dumps : gmap string value → string).



Lemma transcribe_with_faster_whisper_returned ext audio_path model_size language
    output_dir device compute_type batch_size w r w' :
  transcribe_with_faster_whisper json_dumps ext audio_path model_size language
    output_dir device compute_type batch_size w = (Returned r, w') →
  ∃ v1 v2 v3 v4 v5 v6 v7 segs v9,
    r = list_to_map
          [("audio_file", VStr v1); ("language", VStr v2); ("duration", VFloat v3);
           ("duration_formatted", VStr v4); ("model", VStr v5); ("device", VStr v6);
           ("compute_type", VStr v7); ("segments", VSegments segs);
           ("full_text", VStr v9)].
Proof.
  unfold transcribe_with_faster_whisper, write_transcripts. unfold_M. intros H.
  repeat (case_match; simplify_eq); by eexists _, _, _, _, _, _, _, _, _.
Qed.

Lemma transcribe_with_openai_returned ext audio_path api_key language output_dir w r w' :
  transcribe_with_openai json_dumps ext audio_path api_key language output_dir w
  = (Returned r, w') →
  ∃ v1 v2 v3 v4 segs v6,
    r = list_to_map
          [("audio_file", VStr v1); ("language", VStr v2); ("duration", VFloat v3);
           ("duration_formatted", VStr v4); ("segments", VSegments segs);
           ("full_text", VStr v6)].
Proof.
  unfold transcribe_with_openai, write_transcripts. unfold_M. intros H.
  repeat (case_match; simplify_eq); by eexists _, _, _, _, _, _.
Qed.

(** C4 (amended). Whenever both succeed, [transcribe] with
    [method="local"] and with [method="openai"] return dictionaries that
    agree on the fields [audio_file], [language], [duration],
    [duration_formatted], [segments] and [full_text], each of the same
    kind in both.  These six are all the fields of the remote result; the
    local result has three more, the engine configuration [model],
    [device] and [compute_type]. *)
Theorem transcribe_result_shapes ext1 ext2 audio1 audio2 kw1 kw2 w1 w2 r1 r2 :
  (transcribe json_dumps ext1 audio1 "local" kw1 w1).1 = Returned r1 →
  (transcribe json_dumps ext2 audio2 "openai" kw2 w2).1 = Returned r2 →
  dom r2 = {[ "audio_file"; "language"; "duration"; "duration_formatted";
              "segments"; "full_text" ]}
  ∧ dom r1 = dom r2 ∪ {[ "model"; "device"; "compute_type" ]}
  ∧ (∀ k, k ∈ dom r2 → kind <$> r1 !! k = kind <$> r2 !! k)
  ∧ (∀ k, k ∈ ({[ "model"; "device"; "compute_type" ]} : gset string) →
       kind <$> r1 !! k = Some KString ∧ r2 !! k = None).
Proof.
  unfold transcribe. rewrite decide_True by done. rewrite decide_False by done.
  rewrite decide_True by done. unfold raise. intros H1 H2.
  assert (∃ a b c d e f w1', transcribe_with_faster_whisper json_dumps ext1 audio1
            a b c d e f w1 = (Returned r1, w1')) as (a & b & c & d & e & f & w1' & H1').
  { repeat (case_match; simplify_eq).
    destruct (transcribe_with_faster_whisper _ _ _ _ _ _ _ _ _ _) as [o w'] eqn:E.
    cbn in H1. subst o. by eexists _, _, _, _, _, _, _. }
  assert (∃ a b c w2', transcribe_with_openai json_dumps ext2 audio2 a b c w2
            = (Returned r2, w2')) as (a' & b' & c' & w2' & H2').
  { repeat (case_match; simplify_eq).
    destruct (transcribe_with_openai _ _ _ _ _ _ _) as [o w'] eqn:E.
    cbn in H2. subst o. by eexists _, _, _, _. }
  apply transcribe_with_faster_whisper_returned in H1'
    as (v1 & v2 & v3 & v4 & v5 & v6 & v7 & segs & v9 & ->).
  apply transcribe_with_openai_returned in H2'
    as (u1 & u2 & u3 & u4 & segs' & u6 & ->).
  clear. rewrite !dom_list_to_map_L. cbn [fmap list_fmap fst list_to_set foldr].
  split_and!.
  - rewrite !(right_id_L ∅ (∪)). rewrite !(assoc_L (∪)). done.
  - rewrite !(right_id_L ∅ (∪)). apply set_eq. intros k.
    rewrite !elem_of_union, !elem_of_singleton. tauto.
  - intros k. rewrite !elem_of_union, !elem_of_singleton, elem_of_empty.
    intros [-> | [-> | [-> | [-> | [-> | [-> | []]]]]]]; reflexivity.
  - intros k. rewrite !elem_of_union, !elem_of_singleton.
    intros [[-> | ->] | ->]; split; reflexivity.
Qed.

End TranscriptionFacts.



Example demo_local_result :
  (transcribe demo_json (demo_ext "abc") demo_audio "local" no_kwargs demo_world).1
  = Returned demo_local.
Proof. reflexivity. Qed.

Example demo_remote_result :
  (transcribe demo_json (demo_ext "abc") demo_audio "openai" no_kwargs demo_world).1
  = Returned demo_remote.
Proof. reflexivity. Qed.

Lemma transcribe_result_shapes_witness :
  dom demo_local = dom demo_remote ∪ {[ "model"; "device"; "compute_type" ]}.
Proof.
  refine (proj1 (proj2 (transcribe_result_shapes demo_json (demo_ext "abc") (demo_ext "abc")
            demo_audio demo_audio no_kwargs no_kwargs demo_world demo_world
            demo_local demo_remote _ _))).
  - reflexivity.
  - reflexivity.
Defined.

(** C4, as stated, fails: on an input on which both engines succeed the
    local result carries the engine configuration and the remote result
    does not, so the two do not have the same set of fields. *)
Lemma transcribe_shapes_counterexample :
  (transcribe demo_json (demo_ext "abc") demo_audio "local" no_kwargs demo_world).1
  = Returned demo_local
  ∧ (transcribe demo_json (demo_ext "abc") demo_audio "openai" no_kwargs demo_world).1
    = Returned demo_remote
  ∧ demo_local !! "model" = Some (VStr "small") ∧ demo_remote !! "model" = None
  ∧ demo_local !! "device" = Some (VStr "cpu") ∧ demo_remote !! "device" = None
  ∧ demo_local !! "compute_type" = Some (VStr "int8")
  ∧ demo_remote !! "compute_type" = None
  ∧ dom demo_local ≠ dom demo_remote.
Proof.
  do 8 (split; [reflexivity |]).
  intros Hdom.
  assert ("model" ∈ dom demo_local) as Hin
    by (apply elem_of_dom; eexists; reflexivity).
  rewrite Hdom in Hin. apply elem_of_dom in Hin as [v Hv].
  assert (demo_remote !! "model" = None) as Hnone by reflexivity.
  congruence.
Qed.

(** ** The video encoder adapter *)

Section VideoFacts.


End VideoFacts.



Example create_video_demo :
  create_video_from_audio (demo_ext "abc") demo_audio (BACKGROUND_IMAGE demo_root) None
    "1920x1080" 30 "192k" "1M" demo_world
  = (Returned ["/"; "data"; "meeting.mp4"],
     {| files := <[ ["/"; "data"; "meeting.mp4"] := "mp4" ]> (files demo_world);
        calls := [ CallFfmpeg (ffmpeg_command demo_audio (BACKGROUND_IMAGE demo_root)
                                 ["/"; "data"; "meeting.mp4"] "1920" "1080" 30 "192k" "1M");
                   CallFfprobe ["ffprobe"; "-v"; "error"; "-show_entries"; "format=duration";
                                "-of"; "default=noprint_wrappers=1:nokey=1";
                                "/data/meeting.mp4"] ] |}).
Proof. reflexivity. Qed.

(** ** Paths *)

Section PathFacts.

Implicit Types (s x cur : string) (d p : path).

Lemma prefix_slash_cons c s :
  String.prefix "/" (String c s) = bool_decide (c = "/"%char).
Proof.
  change "/" with (String "/" ""). rewrite prefix_cons, prefix_nil_l, andb_true_r.
  apply bool_decide_ext. naive_solver.
Qed.

Lemma split_slash_pieces s : ∀ cur,
  slash_free cur → Forall slash_free (split_from "/" 0 cur s).
Proof.
  induction s as [|c s IH]; intros cur Hcur; [by constructor |].
  cbn [split_from]. rewrite prefix_slash_cons. case_bool_decide as Hc.
  - constructor; [done |]. by apply IH.
  - apply IH. unfold slash_free in *. rewrite free_of_app, Hcur, free_of_cons.
    change (free_of (Ascii.eqb "/") "") with true.
    rewrite andb_true_r, andb_true_l. apply negb_true_iff, Ascii.eqb_neq. congruence.
Qed.

(** A text without the separator comes back from [split] in one piece. *)
Lemma split_from_free (c : ascii) s : ∀ cur,
  free_of (Ascii.eqb c) s = true → split_from (String c "") 0 cur s = [cur +:+ s].
Proof.
  induction s as [|a s IH]; intros cur Hs; [by rewrite str_app_nil_r |].
  rewrite free_of_cons in Hs. apply andb_true_iff in Hs as [Ha Hs].
  cbn [split_from]. rewrite prefix_cons, prefix_nil_l, andb_true_r.
  apply negb_true_iff, Ascii.eqb_neq in Ha.
  rewrite bool_decide_eq_false_2 by done.
  rewrite IH by done. by rewrite str_app_assoc.
Qed.

Lemma pure_parts_slash_free s : Forall slash_free (pure_parts s).
Proof.
  unfold pure_parts. apply Forall_forall. intros x [_ Hx]%list_elem_of_filter.
  revert x Hx. apply Forall_forall, split_slash_pieces. done.
Qed.

Lemma name_Path_slash_free s : slash_free (name (Path s)).
Proof.
  pose proof (pure_parts_slash_free s) as Hparts.
  assert (∀ l, Forall slash_free l → slash_free (List.last l "")) as Hlast.
  { intros l Hl. induction Hl as [|x l Hx Hl IH]; [done |]. by destruct l. }
  unfold name. case_decide as Hp; [done |].
  unfold Path, joinpath in *. destruct (String.prefix "/" s).
  - destruct (pure_parts s) as [|x l] eqn:E; [done |].
    change (List.last ("/" :: x :: l) "") with (List.last (x :: l) ""). by apply Hlast.
  - rewrite app_nil_l. by apply Hlast.
Qed.

Lemma free_of_substring (f : ascii → bool) s : ∀ n m,
  free_of f s = true → free_of f (String.substring n m s) = true.
Proof.
  induction s as [|c s IH]; intros n m Hs.
  - by destruct n, m.
  - rewrite free_of_cons in Hs. apply andb_true_iff in Hs as [Hc Hs].
    destruct n as [|n]; [destruct m as [|m] |]; cbn [String.substring]; [done | | by apply IH].
    rewrite free_of_cons, Hc. by apply IH.
Qed.

Lemma stem_Path_slash_free s : slash_free (stem (Path s)).
Proof.
  pose proof (name_Path_slash_free s) as Hn. unfold stem, stem_of_name.
  destruct (rfind_dot _ _); [| done].
  destruct (_ && _); [| done]. by apply free_of_substring.
Qed.

(** Joining a single name to a directory. *)
Lemma joinpath_name d x :
  slash_free x → (1 < String.length x)%nat → joinpath d x = d ++ [x].
Proof.
  intros Hx Hlen. unfold joinpath.
  destruct x as [|c x]; [simpl in Hlen; lia |].
  rewrite prefix_slash_cons.
  unfold slash_free in Hx. pose proof Hx as Hx'. rewrite free_of_cons in Hx'.
  apply andb_true_iff in Hx' as [Hc _]. apply negb_true_iff, Ascii.eqb_neq in Hc.
  rewrite bool_decide_eq_false_2 by congruence.
  f_equal. unfold pure_parts, split. rewrite split_from_free by done.
  rewrite str_app_nil_l. rewrite filter_cons_True; [done |].
  split; [done |]. intros Heq. rewrite Heq in Hlen. simpl in Hlen. lia.
Qed.

Lemma joinpath_stem d s (suffix : string) :
  slash_free suffix → (1 < String.length suffix)%nat →
  joinpath d (stem (Path s) +:+ suffix) = d ++ [stem (Path s) +:+ suffix].
Proof.
  intros Hsuf Hlen. apply joinpath_name.
  - unfold slash_free. rewrite free_of_app. apply andb_true_iff.
    split; [apply stem_Path_slash_free | done].
  - rewrite str_length_app. lia.
Qed.

End PathFacts.

(** ** The stages of the pipeline *)

Ltac solve_new_calls :=
  first
    [ by (exists []; split; [by rewrite app_nil_r | constructor])
    | by (eexists; split; [rewrite <- ?app_assoc; reflexivity | repeat constructor]) ].

Ltac solve_unchanged :=
  let p := fresh "p" in
  let Hp := fresh "Hp" in
  intros p Hp; cbn [files];
  repeat (rewrite lookup_insert_ne; [| intros <-; apply Hp; set_solver]);
  done.

Section PipelineFacts.

Context (PROJECT_ROOT : path) (json_dumps : gmap string value → string).

Lemma unchanged_except_trans ps qs w1 w2 w3 :
  unchanged_except ps w1 w2 → unchanged_except qs w2 w3 →
  unchanged_except (ps ++ qs) w1 w3.
Proof.
  intros H12 H23 p Hp. rewrite H23, H12; [done | set_solver | set_solver].
Qed.

Lemma transcribe_with_faster_whisper_frame ext audio_path model_size language out
    device compute_type batch_size w r w' :
  transcribe_with_faster_whisper json_dumps ext audio_path model_size language
    (Some out) device compute_type batch_size w = (r, w') →
  unchanged_except (transcript_paths out audio_path) w w'
  ∧ (∃ l, calls w' = calls w ++ l ∧ Forall (λ c, call_stage c = Transcribing) l)
  ∧ (∀ v, r = Returned v →
       Forall (λ p, is_Some (files w' !! p)) (transcript_paths out audio_path)).
Proof.
  unfold transcribe_with_faster_whisper, write_transcripts, transcript_paths.
  unfold_M. intros H.
  repeat (case_match; simplify_eq); cbn [default] in *;
    (split_and!; [solve_unchanged | solve_new_calls | intros v Hv; simplify_eq]).
  all: cbn [files]; repeat constructor.
  all: rewrite ?lookup_insert_is_Some'; eauto 10.
Qed.

Lemma create_video_from_audio_frame ext audio_path background_image out resolution fps
    audio_bitrate video_bitrate w r w' :
  create_video_from_audio ext audio_path background_image (Some out) resolution fps
    audio_bitrate video_bitrate w = (r, w') →
  unchanged_except [out] w w'
  ∧ (∃ l, calls w' = calls w ++ l ∧ Forall (λ c, call_stage c = Encoding) l)
  ∧ (∀ v, r = Returned v → is_Some (files w' !! out)).
Proof.
  unfold create_video_from_audio, get_audio_duration, run_ffmpeg, run_process,
    mkdir_parents.
  unfold_M. intros H.
  repeat (case_match; simplify_eq); cbn [files calls] in *;
    (split_and!; [solve_unchanged | solve_new_calls | intros v Hv; simplify_eq]).
  all: match goal with
       | H : negb (bool_decide _) = false |- _ =>
           apply negb_false_iff, bool_decide_eq_true in H; exact H
       end.
Qed.

Lemma upload_video_frame ext video_path title description tags category_id
    privacy_status notify_subscribers w r w' :
  upload_video PROJECT_ROOT ext video_path title description tags category_id
    privacy_status notify_subscribers w = (r, w') →
  unchanged_except [joinpath (CREDENTIALS_DIR PROJECT_ROOT) ".gitignore";
                    TOKEN_FILE PROJECT_ROOT] w w'
  ∧ (∃ l, calls w' = calls w ++ l ∧ Forall (λ c, call_stage c = Publishing) l).
Proof.
  unfold upload_video, get_authenticated_service, setup_credentials_dir. unfold_M.
  intros H.
  repeat (case_match; simplify_eq); cbn [files calls] in *;
    (split_and!; [solve_unchanged | solve_new_calls]).
Qed.

(** *** Where the files of a run live *)

Lemma ledger_path : YOUTUBE_LINKS_FILE PROJECT_ROOT = PROJECT_ROOT ++ ["youtube_links.txt"].
Proof. reflexivity. Qed.

Lemma gitignore_path :
  joinpath (CREDENTIALS_DIR PROJECT_ROOT) ".gitignore"
  = PROJECT_ROOT ++ ["credentials"; ".gitignore"].
Proof.
  unfold CREDENTIALS_DIR.
  change (joinpath PROJECT_ROOT "credentials") with (PROJECT_ROOT ++ ["credentials"]).
  change (joinpath (PROJECT_ROOT ++ ["credentials"]) ".gitignore")
    with ((PROJECT_ROOT ++ ["credentials"]) ++ [".gitignore"]).
  by rewrite <- app_assoc.
Qed.

Lemma token_path :
  TOKEN_FILE PROJECT_ROOT = PROJECT_ROOT ++ ["credentials"; "youtube_token.pickle"].
Proof.
  unfold TOKEN_FILE, CREDENTIALS_DIR.
  change (joinpath PROJECT_ROOT "credentials") with (PROJECT_ROOT ++ ["credentials"]).
  change (joinpath (PROJECT_ROOT ++ ["credentials"]) "youtube_token.pickle")
    with ((PROJECT_ROOT ++ ["credentials"]) ++ ["youtube_token.pickle"]).
  by rewrite <- app_assoc.
Qed.

Lemma output_dir_of_under n date :
  ∃ ps, output_dir_of PROJECT_ROOT n date = PROJECT_ROOT ++ "results" :: ps.
Proof.
  unfold output_dir_of.
  change (joinpath PROJECT_ROOT "results") with (PROJECT_ROOT ++ ["results"]).
  exists (pure_parts ("meeting_" +:+ py_str n +:+ "_" +:+ date)).
  unfold joinpath. rewrite str_app_cons, prefix_slash_cons.
  rewrite bool_decide_eq_false_2 by done. by rewrite <- app_assoc.
Qed.

Lemma transcript_paths_eq out s :
  transcript_paths out (Path s)
  = [out ++ [stem (Path s) +:+ "_transcript.json"];
     out ++ [stem (Path s) +:+ "_transcript.txt"];
     out ++ [stem (Path s) +:+ "_plain.txt"]].
Proof.
  unfold transcript_paths. by rewrite !joinpath_stem by (done || (simpl; lia)).
Qed.

Lemma video_path_of_eq out s :
  video_path_of out (Path s) = out ++ [stem (Path s) +:+ ".mp4"].
Proof. unfold video_path_of. by rewrite joinpath_stem by (done || (simpl; lia)). Qed.

Lemma link_path_eq out : joinpath out "youtube_link.txt" = out ++ ["youtube_link.txt"].
Proof. apply joinpath_name; [done | simpl; lia]. Qed.

(** Nothing that a run writes under its output directory or under the
    credentials directory is the ledger. *)
Lemma ledger_not_output n date (x : string) :
  YOUTUBE_LINKS_FILE PROJECT_ROOT ≠ output_dir_of PROJECT_ROOT n date ++ [x].
Proof.
  destruct (output_dir_of_under n date) as [ps ->]. rewrite ledger_path.
  rewrite <- app_assoc. intros H%app_inv_head. discriminate H.
Qed.




(** *** The run, stage by stage *)

Lemma step_save_eq out n url w :
  step_save PROJECT_ROOT out n url w
  = (Returned (),
     {| files := <[joinpath out "youtube_link.txt" := url]>
                   (<[YOUTUBE_LINKS_FILE PROJECT_ROOT :=
                        default "" (files w !! YOUTUBE_LINKS_FILE PROJECT_ROOT)
                        +:+ ledger_line n url]> (files w));
        calls := calls w |}).
Proof. reflexivity. Qed.

Lemma run_full_pipeline_eq ext audio mn date model language device privacy w :
  run_full_pipeline PROJECT_ROOT json_dumps ext audio mn date model language device privacy w
  = let audio_path := Path audio in
    let date' := str_or date (ext_today ext) in
    let n := int_or mn (get_next_meeting_number (files w !! YOUTUBE_LINKS_FILE PROJECT_ROOT)) in
    let out := output_dir_of PROJECT_ROOT n date' in
    match step_transcription json_dumps ext audio_path out model language device w with
    | (Raised e, w1) => (Raised e, w1)
    | (Returned _, w1) =>
        match step_video PROJECT_ROOT ext audio_path out w1 with
        | (Raised e, w2) => (Raised e, w2)
        | (Returned _, w2) =>
            match step_upload PROJECT_ROOT ext audio_path out n date' privacy w2 with
            | (Raised e, w3) => (Raised e, w3)
            | (Returned up, w3) =>
                (Returned {| pr_meeting_number := n;
                             pr_youtube_url := ur_url up;
                             pr_video_path := video_path_of out audio_path;
                             pr_transcript_path :=
                               joinpath out (stem audio_path +:+ "_transcript.txt");
                             pr_output_dir := out |},
                 (step_save PROJECT_ROOT out n (ur_url up) w3).2)
            end
        end
    end.
Proof.
  unfold run_full_pipeline. unfold_M. cbn zeta.
  destruct (step_transcription _ _ _ _ _ _ _ w) as [[res | e] w1]; [| done].
  destruct (step_video _ _ _ _ w1) as [[video | e] w2]; [| done].
  destruct (step_upload _ _ _ _ _ _ _ w2) as [[up | e] w3]; [| done].
  by rewrite step_save_eq.
Qed.

Lemma ledger_not_transcript n date s :
  YOUTUBE_LINKS_FILE PROJECT_ROOT ∉ transcript_paths (output_dir_of PROJECT_ROOT n date) (Path s).
Proof.
  rewrite transcript_paths_eq, !not_elem_of_cons.
  split_and!; [apply ledger_not_output .. | apply not_elem_of_nil].
Qed.

Lemma ledger_not_video n date s :
  YOUTUBE_LINKS_FILE PROJECT_ROOT ∉ [video_path_of (output_dir_of PROJECT_ROOT n date) (Path s)].
Proof.
  rewrite video_path_of_eq, not_elem_of_cons.
  split; [apply ledger_not_output | apply not_elem_of_nil].
Qed.

Lemma ledger_not_credentials :
  YOUTUBE_LINKS_FILE PROJECT_ROOT
  ∉ [joinpath (CREDENTIALS_DIR PROJECT_ROOT) ".gitignore"; TOKEN_FILE PROJECT_ROOT].
Proof.
  rewrite gitignore_path, token_path, ledger_path, !not_elem_of_cons.
  split_and!; [| | apply not_elem_of_nil]; intros H%app_inv_head; discriminate H.
Qed.



End PipelineFacts.

(** ** The text of a ledger written by the pipeline *)

Section LedgerTextFacts.

Implicit Types (s t u url : string) (c : ascii) (n : Z) (urls : list string).

Lemma rstrip_app_blank s t : rstrip t = "" → rstrip (s +:+ t) = rstrip s.
Proof.
  intros Ht. induction s as [|c s IH]; [by rewrite str_app_nil_l |].
  rewrite str_app_cons. cbn [rstrip]. by rewrite IH.
Qed.

Lemma str_app_not_nil_r s t : t ≠ "" → s +:+ t ≠ "".
Proof. intros Ht. destruct s; [by rewrite str_app_nil_l | by rewrite str_app_cons]. Qed.

Lemma rstrip_app_visible s t : rstrip t ≠ "" → rstrip (s +:+ t) = s +:+ rstrip t.
Proof.
  intros Ht. induction s as [|c s IH]; [by rewrite !str_app_nil_l |].
  rewrite !str_app_cons. cbn [rstrip]. rewrite IH.
  pose proof (str_app_not_nil_r s _ Ht) as Hne.
  by destruct (s +:+ rstrip t).
Qed.

Lemma rstrip_cons_visible c s : isspace c = false → rstrip (String c s) = String c (rstrip s).
Proof. intros Hc. cbn [rstrip]. destruct (rstrip s); [by rewrite Hc | done]. Qed.

Lemma rstrip_idemp s : rstrip (rstrip s) = rstrip s.
Proof.
  induction s as [|c s IH]; [done |].
  cbn [rstrip]. destruct (rstrip s) as [|c' r] eqn:E.
  - destruct (isspace c) eqn:Hc; [done |]. cbn [rstrip]. by rewrite Hc.
  - cbn [rstrip]. cbn [rstrip] in IH. by rewrite IH.
Qed.

Lemma lstrip_visible c s : isspace c = false → lstrip (String c s) = String c s.
Proof. intros Hc. cbn [lstrip]. by rewrite Hc. Qed.

Lemma free_of_weaken (p q : ascii → bool) s :
  (∀ c, q c = true → p c = true) → free_of p s = true → free_of q s = true.
Proof.
  intros Hpq. induction s as [|c s IH]; [done |].
  rewrite !free_of_cons. intros [Hc Hs]%andb_true_iff.
  rewrite IH, andb_true_r by done.
  destruct (q c) eqn:Hq; [| done]. by rewrite (Hpq c Hq) in Hc.
Qed.

Lemma free_of_rstrip (p : ascii → bool) s : free_of p s = true → free_of p (rstrip s) = true.
Proof.
  induction s as [|c s IH]; [done |].
  rewrite free_of_cons. intros [Hc Hs]%andb_true_iff.
  cbn [rstrip]. specialize (IH Hs). destruct (rstrip s).
  - destruct (isspace c); [done |]. by rewrite free_of_cons, Hc.
  - by rewrite free_of_cons, Hc, IH.
Qed.

Lemma single_line_no_lf s : single_line s → free_of (Ascii.eqb "010") s = true.
Proof.
  apply free_of_weaken. intros c Hc. unfold is_line_break.
  by rewrite Ascii.eqb_sym, Hc.
Qed.

Lemma single_line_no_cr s : single_line s → free_of (Ascii.eqb "013") s = true.
Proof.
  apply free_of_weaken. intros c Hc. unfold is_line_break.
  rewrite (Ascii.eqb_sym c "013"), Hc. apply orb_true_r.
Qed.

Lemma universal_newlines_cons c s :
  c ≠ "013"%char → universal_newlines (String c s) = String c (universal_newlines s).
Proof.
  intros Hc. destruct c as [b0 b1 b2 b3 b4 b5 b6 b7].
  destruct b0, b1, b2, b3, b4, b5, b6, b7; try reflexivity; done.
Qed.

Lemma universal_newlines_free s :
  free_of (Ascii.eqb "013") s = true → universal_newlines s = s.
Proof.
  induction s as [|c s IH]; [done |].
  rewrite free_of_cons. intros [Hc Hs]%andb_true_iff.
  apply negb_true_iff, Ascii.eqb_neq in Hc.
  rewrite universal_newlines_cons by congruence. by rewrite IH.
Qed.

Lemma contains_char_free c s :
  free_of (Ascii.eqb c) s = true → contains (String c "") s = false.
Proof.
  induction s as [|a s IH]; [done |].
  rewrite free_of_cons. intros [Ha Hs]%andb_true_iff.
  rewrite contains_cons, IH, orb_false_r by done.
  rewrite prefix_cons. apply negb_true_iff, Ascii.eqb_neq in Ha.
  by rewrite bool_decide_eq_false_2.
Qed.

(** [split] undoes [join] on lines that hold no line break. *)
Lemma split_join (lines : list string) :
  lines ≠ [] →
  Forall (λ l, free_of (Ascii.eqb "010") l = true) lines →
  split (String "010" "") (join (String "010" "") lines) = lines.
Proof.
  intros Hne Hall. induction Hall as [|l rest Hl Hrest IH]; [done |].
  destruct rest as [|l2 rest].
  - cbn [join]. unfold split. rewrite split_from_free by done. by rewrite str_app_nil_l.
  - change (join (String "010" "") (l :: l2 :: rest))
      with (l +:+ String "010" "" +:+ join (String "010" "") (l2 :: rest)).
    unfold split. rewrite split_from_first; [| done |].
    + rewrite str_app_nil_l. f_equal. by apply IH.
    + change (str_init (String "010" "")) with "". rewrite str_app_nil_r.
      by apply contains_char_free.
Qed.

Lemma good_url_rstrip url :
  good_url url → ∃ c r, rstrip url = String c r ∧ isspace c = false.
Proof.
  intros (_ & c & r & -> & Hc). exists c, (rstrip r).
  by rewrite rstrip_cons_visible.
Qed.

Lemma entry_lines_head n url urls :
  ∃ x rest, entry_lines n (url :: urls) = (py_str n +:+ x) :: rest.
Proof. destruct urls; cbn [entry_lines]; eauto. Qed.

Lemma join_entry_lines_visible n url urls :
  ∃ c r, join (String "010" "") (entry_lines n (url :: urls)) = String c r
         ∧ isspace c = false.
Proof.
  destruct (entry_lines_head n url urls) as (x & rest & ->).
  destruct (py_str_nonempty n) as (c & r & Hn & Hc).
  destruct rest; cbn [join]; rewrite Hn, !str_app_cons; eauto.
Qed.

Lemma rstrip_ledger_from urls : ∀ n,
  urls ≠ [] → Forall good_url urls →
  rstrip (ledger_from n urls) = join (String "010" "") (entry_lines n urls).
Proof.
  induction urls as [|url urls IH]; intros n Hne Hgood; [done |].
  apply Forall_cons in Hgood as [Hurl Hgood].
  destruct (good_url_rstrip url Hurl) as (c & r & Hr & Hc).
  cbn [ledger_from]. unfold ledger_line. destruct urls as [|url2 urls].
  - cbn [ledger_from entry_lines join]. rewrite str_app_nil_r.
    assert (rstrip (url +:+ String "010" "") = rstrip url) as Hu
      by (by apply rstrip_app_blank).
    assert (rstrip (" - " +:+ url +:+ String "010" "") = " - " +:+ rstrip url) as Hsep.
    { rewrite rstrip_app_visible; rewrite Hu; [done | by rewrite Hr]. }
    rewrite rstrip_app_visible; rewrite Hsep; done.
  - specialize (IH (n + 1) ltac:(done) Hgood).
    destruct (join_entry_lines_visible (n + 1) url2 urls) as (c' & r' & Hj & Hc').
    rewrite rstrip_app_visible by (rewrite IH, Hj; done).
    rewrite IH.
    change (entry_lines n (url :: url2 :: urls))
      with ((py_str n +:+ " - " +:+ url) :: entry_lines (n + 1) (url2 :: urls)).
    destruct (entry_lines_head (n + 1) url2 urls) as (x & rest & Hx).
    rewrite Hx. cbn [join]. by rewrite !str_app_assoc.
Qed.

Lemma free_of_ledger_from (p : ascii → bool) urls : ∀ n,
  avoids_digits p → p "-"%char = false → p " "%char = false → p "010"%char = false →
  Forall (λ u, free_of p u = true) urls →
  free_of p (ledger_from n urls) = true.
Proof.
  induction urls as [|url urls IH]; intros n Hd Hm Hs Hl Hall; [done |].
  apply Forall_cons in Hall as [Hurl Hall].
  cbn [ledger_from]. unfold ledger_line.
  rewrite !free_of_app, free_of_py_str, Hurl, IH by done.
  change (free_of p " - ") with (negb (p " "%char) && (negb (p "-"%char)
                                  && (negb (p " "%char) && true))).
  change (free_of p (String "010" "")) with (negb (p "010"%char) && true).
  by rewrite Hm, Hs, Hl.
Qed.

Lemma entry_lines_free (p : ascii → bool) urls : ∀ n,
  avoids_digits p → p "-"%char = false → p " "%char = false →
  Forall (λ u, free_of p u = true) urls →
  Forall (λ l, free_of p l = true) (entry_lines n urls).
Proof.
  assert (∀ n u, avoids_digits p → p "-"%char = false → p " "%char = false →
                 free_of p u = true → free_of p (py_str n +:+ " - " +:+ u) = true) as Hline.
  { intros n u Hd Hm Hs Hu. rewrite !free_of_app, free_of_py_str, Hu by done.
    change (free_of p " - ") with (negb (p " "%char) && (negb (p "-"%char)
                                    && (negb (p " "%char) && true))).
    by rewrite Hm, Hs. }
  induction urls as [|url urls IH]; intros n Hd Hm Hs Hall; [constructor |].
  apply Forall_cons in Hall as [Hurl Hall]. destruct urls as [|url2 urls].
  - cbn [entry_lines]. constructor; [| constructor].
    apply Hline; [done.. |]. by apply free_of_rstrip.
  - change (entry_lines n (url :: url2 :: urls))
      with ((py_str n +:+ " - " +:+ url) :: entry_lines (n + 1) (url2 :: urls)).
    constructor; [by apply Hline | by apply IH].
Qed.

(** The lines that [get_next_meeting_number] reads in a ledger written
    by the pipeline. *)
Lemma ledger_lines_ledger_from n urls :
  urls ≠ [] → Forall good_url urls →
  strip (universal_newlines (ledger_from n urls))
  = join (String "010" "") (entry_lines n urls)
  ∧ ledger_lines (ledger_from n urls) = entry_lines n urls.
Proof.
  intros Hne Hgood.
  assert (Forall single_line urls) as Hsingle
    by (eapply Forall_impl; [exact Hgood | by intros u [? _]]).
  assert (strip (universal_newlines (ledger_from n urls))
          = join (String "010" "") (entry_lines n urls)) as Hstrip.
  { rewrite universal_newlines_free.
    2: { apply free_of_ledger_from; [repeat split | done..|]; try reflexivity.
         eapply Forall_impl; [exact Hsingle | apply single_line_no_cr]. }
    unfold strip. destruct urls as [|url urls]; [done |].
    destruct (py_str_nonempty n) as (c & r & Hn & Hc).
    assert (lstrip (ledger_from n (url :: urls)) = ledger_from n (url :: urls)) as ->.
    { cbn [ledger_from]. unfold ledger_line. rewrite Hn, !str_app_cons.
      by apply lstrip_visible. }
    by apply rstrip_ledger_from. }
  split; [done |]. unfold ledger_lines. rewrite Hstrip.
  apply split_join.
  - destruct urls as [|url urls]; [done |].
    by destruct (entry_lines_head n url urls) as (x & rest & ->).
  - apply entry_lines_free; [repeat split | done..|]; try reflexivity.
    eapply Forall_impl; [exact Hsingle | apply single_line_no_lf].
Qed.

Lemma last_entry_lines urls : ∀ n url,
  List.last (entry_lines n (urls ++ [url])) ""
  = py_str (n + Z.of_nat (length urls)) +:+ " - " +:+ rstrip url.
Proof.
  induction urls as [|u urls IH]; intros n url.
  - cbn. by rewrite Z.add_0_r.
  - change ((u :: urls) ++ [url]) with (u :: (urls ++ [url])).
    destruct (urls ++ [url]) as [|u2 rest] eqn:E; [by destruct urls |].
    change (entry_lines n (u :: u2 :: rest))
      with ((py_str n +:+ " - " +:+ u) :: entry_lines (n + 1) (u2 :: rest)).
    rewrite <- E.
    destruct (entry_lines (n + 1) (urls ++ [url])) as [|x xs] eqn:E2.
    { rewrite E in E2. destruct (entry_lines_head (n + 1) u2 rest) as (y & ys & Hy).
      rewrite Hy in E2. discriminate E2. }
    change (List.last ((py_str n +:+ " - " +:+ u) :: x :: xs) "")
      with (List.last (x :: xs) "").
    rewrite <- E2, IH. do 2 f_equal. cbn [length]. lia.
Qed.

Lemma length_entry_lines urls : ∀ n, length (entry_lines n urls) = length urls.
Proof.
  induction urls as [|u urls IH]; intros n; [done |].
  destruct urls as [|u2 urls]; [done |].
  change (entry_lines n (u :: u2 :: urls))
    with ((py_str n +:+ " - " +:+ u) :: entry_lines (n + 1) (u2 :: urls)).
  cbn [length]. by rewrite IH.
Qed.

(** After the pipeline has written [urls], numbered from 1, the next
    number is 1 plus the number of links: this is what the number of the
    last entry gives, and also what the number of lines gives when that
    number has more digits than [int] accepts. *)
Lemma get_next_meeting_number_ledger_from urls :
  urls ≠ [] → Forall good_url urls →
  get_next_meeting_number (Some (ledger_from 1 urls)) = 1 + Z.of_nat (length urls).
Proof.
  intros Hne Hgood.
  destruct (ledger_lines_ledger_from 1 urls Hne Hgood) as [Hstrip Hlines].
  pose proof (length_entry_lines urls 1) as Hcount.
  destruct (exists_last Hne) as (front & url & ->).
  apply Forall_app in Hgood as [_ [Hurl _]%Forall_cons].
  destruct (good_url_rstrip url Hurl) as (c & r & Hr & Hc).
  destruct (py_str_nonempty (1 + Z.of_nat (length front))) as (c' & r' & Hn & Hc').
  rewrite get_next_meeting_number_nonblank.
  2: { rewrite Hstrip. destruct (front ++ [url]) as [|u us] eqn:E; [by destruct front |].
       by destruct (join_entry_lines_visible 1 u us) as (? & ? & -> & _). }
  unfold last_ledger_line. rewrite Hlines, last_entry_lines.
  assert (strip (py_str (1 + Z.of_nat (length front)) +:+ " - " +:+ rstrip url)
          = py_str (1 + Z.of_nat (length front)) +:+ " - " +:+ rstrip url) as ->.
  { unfold strip. rewrite Hn, !str_app_cons, lstrip_visible by done.
    rewrite <- !str_app_cons, <- Hn.
    assert (rstrip (" - " +:+ rstrip url) = " - " +:+ rstrip url) as Hsep.
    { rewrite rstrip_app_visible; rewrite rstrip_idemp; [done | by rewrite Hr]. }
    rewrite rstrip_app_visible; rewrite Hsep; done. }
  rewrite parse_last_number_py_str, Hcount, length_app. cbn [length].
  destruct (decide (digit_count (py_str (1 + Z.of_nat (length front)))
                    ≤ int_max_str_digits)%nat) as [Hin | Hover].
  - rewrite py_int_limited_py_str by done. lia.
  - rewrite py_int_limited_over by lia. lia.
Qed.

Lemma ledger_from_snoc urls : ∀ n url,
  ledger_from n (urls ++ [url])
  = ledger_from n urls +:+ ledger_line (n + Z.of_nat (length urls)) url.
Proof.
  induction urls as [|u urls IH]; intros n url.
  - cbn [ledger_from app length]. by rewrite str_app_nil_r, str_app_nil_l, Z.add_0_r.
  - change ((u :: urls) ++ [url]) with (u :: (urls ++ [url])).
    cbn [ledger_from]. rewrite IH, str_app_assoc. do 3 f_equal. cbn [length]. lia.
Qed.

End LedgerTextFacts.

(** ** The next meeting number on every state of the ledger file *)

Section LedgerFileFacts.

Context (PROJECT_ROOT : path).

Implicit Types (s t cur text line : string) (c d : ascii) (n : Z).

Lemma universal_newlines_crlf s :
  universal_newlines (String "013" (String "010" s)) = String "010" (universal_newlines s).
Proof. reflexivity. Qed.

Lemma universal_newlines_cr c s :
  c ≠ "010"%char →
  universal_newlines (String "013" (String c s))
  = String "010" (universal_newlines (String c s)).
Proof.
  intros Hc. destruct c as [b0 b1 b2 b3 b4 b5 b6 b7].
  destruct b0, b1, b2, b3, b4, b5, b6, b7; try reflexivity; done.
Qed.

Lemma universal_newlines_nil s : universal_newlines s = "" ↔ s = "".
Proof.
  split; [| by intros ->]. destruct s as [|c s]; [done |].
  destruct (decide (c = "013"%char)) as [-> | Hc].
  - destruct s as [|d s]; [done |].
    destruct (decide (d = "010"%char)) as [-> | Hd]; [done |].
    by rewrite universal_newlines_cr.
  - by rewrite universal_newlines_cons.
Qed.

Lemma str_length_ind (P : string → Prop) :
  (∀ s, (∀ t, (String.length t < String.length s)%nat → P t) → P s) → ∀ s, P s.
Proof.
  intros H s. remember (String.length s) as k eqn:Hk. revert s Hk.
  induction k as [k IH] using lt_wf_ind. intros s ->.
  apply H. intros t Ht. by eapply IH.
Qed.

Lemma lstrip_space c s : isspace c = true → lstrip (String c s) = lstrip s.
Proof. intros Hc. cbn [lstrip]. by rewrite Hc. Qed.

Lemma lstrip_universal_newlines s :
  lstrip (universal_newlines s) = universal_newlines (lstrip s).
Proof.
  induction s as [s IH] using str_length_ind.
  destruct s as [|c s]; [done |].
  destruct (decide (c = "013"%char)) as [-> | Hc].
  - destruct s as [|d s]; [done |].
    destruct (decide (d = "010"%char)) as [-> | Hd].
    + rewrite universal_newlines_crlf, !lstrip_space by done.
      apply IH. simpl. lia.
    + rewrite universal_newlines_cr, !lstrip_space by done.
      apply IH. simpl. lia.
  - rewrite universal_newlines_cons by done.
    destruct (isspace c) eqn:Hs.
    + rewrite !lstrip_space by done. apply IH. simpl. lia.
    + rewrite !lstrip_visible by done. by rewrite universal_newlines_cons.
Qed.

Lemma rstrip_cons_blank c s :
  rstrip s = "" → rstrip (String c s) = if isspace c then "" else String c "".
Proof. intros H. cbn [rstrip]. by rewrite H. Qed.

Lemma rstrip_cons_nonblank c s :
  rstrip s ≠ "" → rstrip (String c s) = String c (rstrip s).
Proof. intros H. cbn [rstrip]. by destruct (rstrip s). Qed.

Lemma rstrip_universal_newlines s :
  rstrip (universal_newlines s) = universal_newlines (rstrip s).
Proof.
  induction s as [s IH] using str_length_ind.
  destruct s as [|c s]; [done |].
  assert (∀ t, t ≠ "" → universal_newlines t ≠ "") as Hvis
    by (intros t Ht Hu; apply Ht; by apply universal_newlines_nil).
  destruct (decide (c = "013"%char)) as [-> | Hc].
  - destruct s as [|d s]; [done |].
    destruct (decide (d = "010"%char)) as [-> | Hd].
    + rewrite universal_newlines_crlf.
      pose proof (IH s ltac:(simpl; lia)) as IHs.
      destruct (decide (rstrip s = "")) as [Hb | Hb].
      * rewrite (rstrip_cons_blank _ (universal_newlines s)) by (by rewrite IHs, Hb).
        rewrite (rstrip_cons_blank _ (String "010" s))
          by (by rewrite (rstrip_cons_blank _ s)).
        done.
      * rewrite (rstrip_cons_nonblank _ (universal_newlines s))
          by (rewrite IHs; by apply Hvis).
        rewrite (rstrip_cons_nonblank _ (String "010" s))
          by (by rewrite (rstrip_cons_nonblank _ s)).
        rewrite (rstrip_cons_nonblank _ s) by done.
        by rewrite universal_newlines_crlf, IHs.
    + rewrite universal_newlines_cr by done.
      pose proof (IH (String d s) ltac:(simpl; lia)) as IHs.
      destruct (decide (rstrip (String d s) = "")) as [Hb | Hb].
      * rewrite (rstrip_cons_blank _ (universal_newlines (String d s)))
          by (by rewrite IHs, Hb).
        by rewrite (rstrip_cons_blank _ (String d s)).
      * rewrite (rstrip_cons_nonblank _ (universal_newlines (String d s)))
          by (rewrite IHs; by apply Hvis).
        rewrite (rstrip_cons_nonblank _ (String d s)) by done.
        rewrite IHs.
        assert (∃ r, rstrip (String d s) = String d r) as [r Hr].
        { destruct (decide (rstrip s = "")) as [Hs | Hs].
          - rewrite (rstrip_cons_blank _ s) in * by done.
            destruct (isspace d); [done | by eexists].
          - rewrite (rstrip_cons_nonblank _ s) by done. by eexists. }
        rewrite Hr. by rewrite universal_newlines_cr.
  - rewrite universal_newlines_cons by done.
    pose proof (IH s ltac:(simpl; lia)) as IHs.
    destruct (decide (rstrip s = "")) as [Hb | Hb].
    + rewrite (rstrip_cons_blank _ (universal_newlines s)) by (by rewrite IHs, Hb).
      rewrite (rstrip_cons_blank _ s) by done.
      destruct (isspace c); [done | by rewrite universal_newlines_cons].
    + rewrite (rstrip_cons_nonblank _ (universal_newlines s))
        by (rewrite IHs; by apply Hvis).
      rewrite (rstrip_cons_nonblank _ s) by done.
      by rewrite universal_newlines_cons, IHs.
Qed.

(** Stripping a text and reading it with universal newlines can be done
    in either order. *)
Lemma strip_universal_newlines s :
  strip (universal_newlines s) = universal_newlines (strip s).
Proof. unfold strip. by rewrite lstrip_universal_newlines, rstrip_universal_newlines. Qed.

(** Cutting at [\n] what was read with universal newlines gives the
    pieces between the line ends of the text. *)
Lemma split_universal_newlines s : ∀ cur,
  split_from (String "010" "") 0 cur (universal_newlines s) = pieces_from cur s.
Proof.
  induction s as [s IH] using str_length_ind. intros cur.
  destruct s as [|c s]; [done |].
  destruct (decide (c = "013"%char)) as [-> | Hc].
  - destruct s as [|d s]; [done |].
    destruct (decide (d = "010"%char)) as [-> | Hd].
    + rewrite universal_newlines_crlf. cbn [split_from pieces_from].
      rewrite prefix_cons, prefix_nil_l, bool_decide_eq_true_2 by done.
      cbn [andb Ascii.eqb Bool.eqb String.length Nat.pred]. f_equal.
      apply IH. simpl. lia.
    + rewrite universal_newlines_cr by done. cbn [split_from].
      rewrite prefix_cons, prefix_nil_l, bool_decide_eq_true_2 by done.
      cbn [andb String.length Nat.pred].
      rewrite (IH (String d s)) by (simpl; lia).
      cbn [pieces_from Ascii.eqb Bool.eqb].
      destruct d as [b0 b1 b2 b3 b4 b5 b6 b7].
      destruct b0, b1, b2, b3, b4, b5, b6, b7; try reflexivity; done.
  - rewrite universal_newlines_cons by done. cbn [split_from pieces_from].
    rewrite prefix_cons, prefix_nil_l, andb_true_r.
    destruct (decide (c = "010"%char)) as [-> | Hlf].
    + rewrite bool_decide_eq_true_2 by done. cbn [Ascii.eqb Bool.eqb String.length Nat.pred].
      f_equal. apply IH. simpl. lia.
    + rewrite bool_decide_eq_false_2 by congruence.
      assert (Ascii.eqb c "010" = false) as -> by (by apply Ascii.eqb_neq).
      assert (Ascii.eqb c "013" = false) as -> by (by apply Ascii.eqb_neq).
      apply IH. simpl. lia.
Qed.

Lemma ledger_lines_text_lines text : ledger_lines text = text_lines (strip text).
Proof.
  unfold ledger_lines, text_lines, split.
  by rewrite strip_universal_newlines, split_universal_newlines.
Qed.

Lemma ledger_blank text : strip (universal_newlines text) = "" ↔ strip text = "".
Proof. rewrite strip_universal_newlines. apply universal_newlines_nil. Qed.

(** C1 (amended).  The next meeting number on every state of the ledger
    file.  Without a file it is 1.  A directory at the path of the
    ledger, and a file that is not UTF-8, make the function raise.  For
    a file that holds a text, let [body] be the text without the white
    space at its start and at its end, and let the lines of [body] be
    its pieces between line ends, a line end being [\n], [\r\n] or
    [\r].  When [body] is empty the number is 1.  When the last line of
    [body], stripped, has the form [<number> - <url>], the text in front
    of its first [" - "] being a numeral that [int] accepts, the result
    is that number plus one.  In every other case the result is the
    number of lines of [body] plus one, returned like any other number.
    [int] accepts no numeral of more than 4300 digits; it reads back
    every number that [str] writes within that limit. *)
Theorem get_next_meeting_number_on_spec (text : string) :
  let result := get_next_meeting_number_on PROJECT_ROOT in
  let body := strip text in
  let lines := text_lines body in
  let last_line := strip (List.last lines "") in
  result LedgerAbsent = Returned 1
  ∧ (∃ msg, result LedgerDirectory = Raised (IsADirectoryError msg))
  ∧ (∃ msg, result LedgerUndecodable = Raised (UnicodeDecodeError msg))
  ∧ (body = "" → result (LedgerText text) = Returned 1)
  ∧ (∀ n, entry_form last_line n → result (LedgerText text) = Returned (n + 1))
  ∧ (body ≠ "" → (¬ ∃ n, entry_form last_line n) →
     result (LedgerText text) = Returned (Z.of_nat (length lines) + 1))
  ∧ (∀ line n, entry_form line n →
       ∃ num url,
         line = num +:+ " - " +:+ url
         ∧ contains " - " (num +:+ " -") = false
         ∧ (digit_count num ≤ 4300)%nat
         ∧ py_int num = Some n)
  ∧ (∀ num url n, contains " - " (num +:+ " -") = false → (4300 < digit_count num)%nat →
       ¬ entry_form (num +:+ " - " +:+ url) n)
  ∧ (∀ n url, (digit_count (py_str n) ≤ 4300)%nat →
       entry_form (py_str n +:+ " - " +:+ url) n).
Proof.
  cbn zeta. unfold get_next_meeting_number_on.
  assert (last_ledger_line text = strip (List.last (text_lines (strip text)) "")) as Hlast
    by (unfold last_ledger_line; by rewrite ledger_lines_text_lines).
  assert (∀ n, entry_form (last_ledger_line text) n →
               get_next_meeting_number (Some text) = n + 1) as Hform.
  { intros n Hn.
    destruct (decide (strip (universal_newlines text) = "")) as [Hb | Hb].
    - exfalso. apply ledger_lines_blank in Hb.
      destruct Hn as (num & url & Hl & _ & Hint).
      unfold last_ledger_line in Hl. rewrite Hb in Hl. cbn in Hl.
      destruct num; [done | by rewrite str_app_cons in Hl].
    - rewrite get_next_meeting_number_nonblank by done.
      by rewrite (parse_last_number_entry _ n). }
  split_and!.
  - done.
  - by eexists.
  - by eexists.
  - intros Hb. apply ledger_blank in Hb. unfold get_next_meeting_number.
    apply ledger_lines_blank in Hb. by rewrite Hb.
  - intros n Hn. f_equal. apply Hform. by rewrite Hlast.
  - intros Hb Hmal. f_equal.
    rewrite get_next_meeting_number_nonblank by (by rewrite ledger_blank).
    rewrite Hlast, ledger_lines_text_lines.
    destruct (parse_last_number _) as [n|] eqn:Hp; [| done].
    exfalso. apply Hmal. exists n. by apply parse_last_number_form.
  - intros line n (num & url & -> & Hfirst & Hint).
    apply py_int_limited_Some in Hint as [Hlimit Hint].
    by exists num, url.
  - intros num url n Hfirst Hover Hn.
    apply parse_last_number_entry in Hn. unfold parse_last_number, split in Hn.
    rewrite contains_app_sep, (split_from_first " - " num "" url) in Hn by done.
    rewrite str_app_nil_l in Hn. cbn [hd] in Hn.
    by rewrite py_int_limited_over in Hn.
  - intros n url Hn. by apply entry_form_py_str.
Qed.

End LedgerFileFacts.

Lemma get_next_meeting_number_on_spec_witness :
  entry_form "7 - https://example.com/v7" 7
  ∧ get_next_meeting_number_on demo_root
      (LedgerText ("7 - https://example.com/v7" +:+ String "010" ""))
    = Returned 8.
Proof.
  destruct (get_next_meeting_number_on_spec demo_root
              ("7 - https://example.com/v7" +:+ String "010" ""))
    as (_ & _ & _ & _ & Hform & _ & _ & _ & Hstr).
  pose proof (Hstr 7 "https://example.com/v7" ltac:(apply Nat.leb_le; reflexivity)) as Hentry.
  split; [exact Hentry | exact (Hform 7 Hentry)].
Defined.

(** C1, as stated, fails.  The file [\n\nxx\n] has three lines, the
    last of them malformed, and the result is 2, not 4: the lines are
    counted after the blank lines at the start and the end have been
    stripped.  The file [7 - x\n \n] has a blank last line, and the
    result is 8: the entry before it is read.  A last line whose number
    has 4301 digits has the form of an entry, and the result is 2. *)
Lemma get_next_meeting_number_counterexample :
  file_lines (String "010" (String "010" ("xx" +:+ String "010" ""))) = [""; ""; "xx"]
  ∧ (¬ ∃ n, entry_form "xx" n)
  ∧ get_next_meeting_number_on demo_root
      (LedgerText (String "010" (String "010" ("xx" +:+ String "010" ""))))
    = Returned 2
  ∧ file_lines ("7 - x" +:+ String "010" (" " +:+ String "010" "")) = ["7 - x"; " "]
  ∧ (¬ ∃ n, entry_form " " n)
  ∧ get_next_meeting_number_on demo_root
      (LedgerText ("7 - x" +:+ String "010" (" " +:+ String "010" "")))
    = Returned 8
  ∧ py_int (String "1" (zeros 4300)) = Some (10 ^ 4300)
  ∧ get_next_meeting_number_on demo_root
      (LedgerText (String "1" (zeros 4300) +:+ " - x" +:+ String "010" ""))
    = Returned 2.
Proof.
  split_and!.
  - reflexivity.
  - intros [n Hn]. apply parse_last_number_entry in Hn. discriminate Hn.
  - reflexivity.
  - reflexivity.
  - intros [n Hn]. apply parse_last_number_entry in Hn. discriminate Hn.
  - reflexivity.
  - vm_compute. reflexivity.
  - vm_compute. reflexivity.
Qed.

(** ** Runs and the ledger *)

Section RunFacts.

Context (PROJECT_ROOT : path) (json_dumps : gmap string value → string).

Lemma upload_video_returned ext video_path title description tags category_id
    privacy_status notify_subscribers w up w' :
  upload_video PROJECT_ROOT ext video_path title description tags category_id
    privacy_status notify_subscribers w = (Returned up, w') →
  ∃ request video_id,
    next_chunks (ext_youtube_insert ext request) = Returned video_id
    ∧ ur_url up = "https://www.youtube.com/watch?v=" +:+ video_id.
Proof.
  unfold upload_video. unfold_M. intros H.
  repeat (case_match; simplify_eq); by eexists _, _.
Qed.

Lemma step_transcription_ledger ext audio n date model language device w r w' :
  step_transcription json_dumps ext (Path audio) (output_dir_of PROJECT_ROOT n date)
    model language device w = (r, w') →
  files w' !! YOUTUBE_LINKS_FILE PROJECT_ROOT = files w !! YOUTUBE_LINKS_FILE PROJECT_ROOT.
Proof.
  intros (U & _)%transcribe_with_faster_whisper_frame.
  apply U, ledger_not_transcript.
Qed.

Lemma step_video_ledger ext audio n date w r w' :
  step_video PROJECT_ROOT ext (Path audio) (output_dir_of PROJECT_ROOT n date) w = (r, w') →
  files w' !! YOUTUBE_LINKS_FILE PROJECT_ROOT = files w !! YOUTUBE_LINKS_FILE PROJECT_ROOT.
Proof.
  intros (U & _)%create_video_from_audio_frame.
  apply U, ledger_not_video.
Qed.

Lemma step_upload_ledger ext audio_path out n date privacy w r w' :
  step_upload PROJECT_ROOT ext audio_path out n date privacy w = (r, w') →
  files w' !! YOUTUBE_LINKS_FILE PROJECT_ROOT = files w !! YOUTUBE_LINKS_FILE PROJECT_ROOT.
Proof.
  intros (U & _)%upload_video_frame.
  apply U, ledger_not_credentials.
Qed.

(** What one run does to the ledger, and what it reports. *)
Lemma run_ledger_effect ext audio mn date model language device privacy w o w' :
  run_full_pipeline PROJECT_ROOT json_dumps ext audio mn date model language
    device privacy w = (o, w') →
  let n := int_or mn (get_next_meeting_number (files w !! YOUTUBE_LINKS_FILE PROJECT_ROOT)) in
  match o with
  | Raised _ =>
      files w' !! YOUTUBE_LINKS_FILE PROJECT_ROOT = files w !! YOUTUBE_LINKS_FILE PROJECT_ROOT
  | Returned r =>
      pr_meeting_number r = n
      ∧ pr_output_dir r = output_dir_of PROJECT_ROOT n (str_or date (ext_today ext))
      ∧ (∃ request video_id,
           next_chunks (ext_youtube_insert ext request) = Returned video_id
           ∧ pr_youtube_url r = "https://www.youtube.com/watch?v=" +:+ video_id)
      ∧ files w' !! YOUTUBE_LINKS_FILE PROJECT_ROOT
        = Some (default "" (files w !! YOUTUBE_LINKS_FILE PROJECT_ROOT)
                +:+ ledger_line n (pr_youtube_url r))
  end.
Proof.
  rewrite run_full_pipeline_eq. cbv zeta.
  set (n := int_or mn _). set (date' := str_or date _).
  destruct (step_transcription _ _ _ _ _ _ _ w) as [r1 w1] eqn:E1.
  apply step_transcription_ledger in E1.
  destruct r1 as [res | e]; [| intros; by simplify_eq].
  destruct (step_video _ _ _ _ w1) as [r2 w2] eqn:E2.
  apply step_video_ledger in E2.
  destruct r2 as [v | e]; [| intros; simplify_eq; congruence].
  destruct (step_upload _ _ _ _ _ _ _ w2) as [r3 w3] eqn:E3.
  pose proof (step_upload_ledger _ _ _ _ _ _ _ _ _ E3) as L3.
  destruct r3 as [up | e]; [| intros; simplify_eq; congruence].
  apply upload_video_returned in E3 as (request & video_id & Hid & Hurl).
  rewrite step_save_eq. cbn [snd]. intros; simplify_eq. cbn [pr_meeting_number
    pr_output_dir pr_youtube_url files].
  split_and!; [done | done | by eexists _, _ |].
  rewrite lookup_insert_ne by (rewrite link_path_eq; intros Heq; symmetry in Heq;
                               by apply ledger_not_output in Heq).
  rewrite lookup_insert_eq. by rewrite L3, E2, E1.
Qed.

Lemma youtube_url_good video_id :
  single_line video_id → good_url ("https://www.youtube.com/watch?v=" +:+ video_id).
Proof.
  intros Hid. split; [| by eexists _, _].
  unfold single_line in *. by rewrite free_of_app, Hid.
Qed.

(** The number that a run derives from a ledger written by the pipeline. *)
Lemma get_next_meeting_number_written (ledger : option string) urls :
  default "" ledger = ledger_from 1 urls → Forall good_url urls →
  get_next_meeting_number ledger = Z.of_nat (length urls) + 1.
Proof.
  intros Hl Hgood. destruct urls as [|url urls].
  - destruct ledger as [text|]; [| done].
    change (text = "") in Hl. by rewrite Hl.
  - destruct ledger as [text|].
    + change (text = ledger_from 1 (url :: urls)) in Hl. rewrite Hl.
      rewrite get_next_meeting_number_ledger_from by done. lia.
    + exfalso. change ("" = ledger_from 1 (url :: urls)) in Hl.
      cbn [ledger_from] in Hl. unfold ledger_line in Hl.
      destruct (py_str_nonempty 1) as (c & r & Hn & _).
      rewrite Hn, !str_app_cons in Hl. discriminate Hl.
Qed.

Lemma run_all_cons i l w :
  run_all PROJECT_ROOT json_dumps (i :: l) w
  = ((run PROJECT_ROOT json_dumps i w).1
       :: (run_all PROJECT_ROOT json_dumps l (run PROJECT_ROOT json_dumps i w).2).1,
     (run_all PROJECT_ROOT json_dumps l (run PROJECT_ROOT json_dumps i w).2).2).
Proof.
  change (run_all PROJECT_ROOT json_dumps (i :: l) w)
    with (let '(o, w') := run PROJECT_ROOT json_dumps i w in
          let '(os, w'') := run_all PROJECT_ROOT json_dumps l w' in (o :: os, w'')).
  destruct (run _ _ i w) as [o w1]. cbv beta iota. cbn [fst snd].
  by destruct (run_all _ _ l w1) as [os w2].
Qed.

(** The invariant of the ledger under a sequence of runs that derive
    their numbers from it. *)
Lemma run_all_ledger l : ∀ w urls0,
  default "" (files w !! YOUTUBE_LINKS_FILE PROJECT_ROOT) = ledger_from 1 urls0 →
  Forall good_url urls0 →
  Forall (λ i, inv_meeting_number i = None) l →
  Forall (λ i, ∀ request video_id,
            next_chunks (ext_youtube_insert (inv_ext i) request) = Returned video_id →
            single_line video_id) l →
  let results := returned (run_all PROJECT_ROOT json_dumps l w).1 in
  let w' := (run_all PROJECT_ROOT json_dumps l w).2 in
  default "" (files w' !! YOUTUBE_LINKS_FILE PROJECT_ROOT)
  = ledger_from 1 (urls0 ++ (pr_youtube_url <$> results))
  ∧ Forall good_url (pr_youtube_url <$> results)
  ∧ pr_meeting_number <$> results
    = (λ k, Z.of_nat k + 1) <$> seq (length urls0) (length results).
Proof.
  induction l as [|i l IH]; intros w urls0 Hledger Hgood Hnone Hids; cbv zeta.
  - cbn. by rewrite app_nil_r.
  - apply Forall_cons in Hnone as [Hi Hnone]. apply Forall_cons in Hids as [Hid Hids].
    rewrite run_all_cons. cbn [fst snd].
    destruct (run _ _ i w) as [o w1] eqn:E. cbn [fst snd].
    unfold run in E. rewrite Hi in E. apply run_ledger_effect in E. cbv zeta in E.
    cbn [int_or] in E.
    rewrite (get_next_meeting_number_written _ urls0 Hledger Hgood) in E.
    destruct o as [r | e].
    + destruct E as (Hn & _ & (request & video_id & Hchunks & Hurl) & Hw1).
      assert (good_url (pr_youtube_url r)) as Hr
        by (rewrite Hurl; eapply youtube_url_good, Hid, Hchunks).
      specialize (IH w1 (urls0 ++ [pr_youtube_url r])).
      destruct IH as (IH1 & IH2 & IH3); [| | done | done |].
      { rewrite Hw1, Hledger, ledger_from_snoc.
        change (default "" (Some ?x)) with x. do 2 f_equal. lia. }
      { apply Forall_app. split; [done | by constructor]. }
      cbn [returned fmap list_fmap length seq].
      rewrite <- app_assoc in IH1. cbn [app] in IH1.
      split_and!; [done | by constructor |].
      rewrite length_app in IH3. cbn [length] in IH3.
      rewrite Nat.add_1_r in IH3. rewrite IH3. f_equal. lia.
    + cbn [returned]. apply IH; [by rewrite E | done..].
Qed.

(** C2. Starting from a ledger file that is absent or empty, a sequence
    of runs that pass no sequence number, of which [N] return, leaves a
    ledger of exactly [N] lines, [<k> - <url>] for [k] from 1 to [N] in
    this order, where the [k]-th line holds the link of the [k]-th run
    that returned and [k] is the number that run reports.  The video
    ids that the upload service returns are taken to hold no line
    break. *)
Theorem ledger_after_runs (l : list invocation) (w : world) :
  files w !! YOUTUBE_LINKS_FILE PROJECT_ROOT = None
  ∨ files w !! YOUTUBE_LINKS_FILE PROJECT_ROOT = Some "" →
  Forall (λ i, inv_meeting_number i = None) l →
  Forall (λ i, ∀ request video_id,
            next_chunks (ext_youtube_insert (inv_ext i) request) = Returned video_id →
            single_line video_id) l →
  let results := returned (run_all PROJECT_ROOT json_dumps l w).1 in
  let w' := (run_all PROJECT_ROOT json_dumps l w).2 in
  let urls := pr_youtube_url <$> results in
  default "" (files w' !! YOUTUBE_LINKS_FILE PROJECT_ROOT) = ledger_from 1 urls
  ∧ pr_meeting_number <$> results = (λ k, Z.of_nat k + 1) <$> seq 0 (length results)
  ∧ (results ≠ [] →
     files w' !! YOUTUBE_LINKS_FILE PROJECT_ROOT = Some (ledger_from 1 urls)
     ∧ ledger_lines (ledger_from 1 urls) = entry_lines 1 urls
     ∧ length (ledger_lines (ledger_from 1 urls)) = length results).
Proof.
  intros Hstart Hnone Hids.
  pose proof (run_all_ledger l w [] ltac:(by destruct Hstart as [-> | ->])
                ltac:(constructor) Hnone Hids) as H.
  cbv zeta in H. cbv zeta. destruct (run_all _ _ l w) as [outcomes w'].
  cbn [fst snd] in *. rewrite app_nil_l in H. destruct H as (Htext & Hgood & Hnumbers).
  split_and!; [done | done |].
  intros Hne.
  assert (pr_youtube_url <$> returned outcomes ≠ []) as Hurls
    by (by destruct (returned outcomes)).
  destruct (ledger_lines_ledger_from 1 _ Hurls Hgood) as [_ Hlines].
  split_and!; [| done | by rewrite Hlines, length_entry_lines, length_fmap].
  destruct (files w' !! YOUTUBE_LINKS_FILE PROJECT_ROOT) as [text|].
  { change (text = ledger_from 1 (pr_youtube_url <$> returned outcomes)) in Htext.
    by rewrite Htext. }
  exfalso. change ("" = ledger_from 1 (pr_youtube_url <$> returned outcomes)) in Htext.
  destruct (pr_youtube_url <$> returned outcomes) as [|url urls]; [done |].
  cbn [ledger_from] in Htext. unfold ledger_line in Htext.
  destruct (py_str_nonempty 1) as (c & r & Hn & _).
  rewrite Hn, !str_app_cons in Htext. discriminate Htext.
Qed.

(** C10. In [run_full_pipeline] a [meeting_number] of 0 is treated as an
    absent one and an empty [date] as an absent one: the run is the same
    in every respect.  With both, a run that returns reports the number
    derived from the ledger and works in the directory named after the
    current date. *)
Theorem run_full_pipeline_falsy_overrides (ext : externals) (audio : string)
    (meeting_number : option Z) (date : option string) (model language : string)
    (device : option string) (privacy : string) (w : world) :
  run_full_pipeline PROJECT_ROOT json_dumps ext audio (Some 0) date model language
    device privacy w
  = run_full_pipeline PROJECT_ROOT json_dumps ext audio None date model language
      device privacy w
  ∧ run_full_pipeline PROJECT_ROOT json_dumps ext audio meeting_number (Some "") model
      language device privacy w
    = run_full_pipeline PROJECT_ROOT json_dumps ext audio meeting_number None model
        language device privacy w
  ∧ (∀ r,
       (run_full_pipeline PROJECT_ROOT json_dumps ext audio (Some 0) (Some "") model
          language device privacy w).1 = Returned r →
       pr_meeting_number r
       = get_next_meeting_number (files w !! YOUTUBE_LINKS_FILE PROJECT_ROOT)
       ∧ pr_output_dir r
         = output_dir_of PROJECT_ROOT
             (get_next_meeting_number (files w !! YOUTUBE_LINKS_FILE PROJECT_ROOT))
             (ext_today ext)).
Proof.
  split_and!; [reflexivity | reflexivity |].
  intros r H.
  destruct (run_full_pipeline _ _ _ _ (Some 0) _ _ _ _ _ _) as [o w'] eqn:E.
  cbn [fst] in H. subst o. apply run_ledger_effect in E as (Hn & Hout & _). done.
Qed.

End RunFacts.

Example run_all_demo :
  (run_all demo_root demo_json [demo_invocation "abc"; demo_invocation "def"] demo_world).1
  = [Returned (demo_result 1 "abc"); Returned (demo_result 2 "def")].
Proof. reflexivity. Qed.

Example run_all_demo_ledger :
  files (run_all demo_root demo_json [demo_invocation "abc"; demo_invocation "def"]
           demo_world).2 !! YOUTUBE_LINKS_FILE demo_root
  = Some ("1 - https://www.youtube.com/watch?v=abc" +:+ String "010" ""
          +:+ "2 - https://www.youtube.com/watch?v=def" +:+ String "010" "").
Proof. reflexivity. Qed.

Lemma ledger_after_runs_witness :
  files (run_all demo_root demo_json [demo_invocation "abc"; demo_invocation "def"]
           demo_world).2 !! YOUTUBE_LINKS_FILE demo_root
  = Some (ledger_from 1 ["https://www.youtube.com/watch?v=abc";
                         "https://www.youtube.com/watch?v=def"])
  ∧ length (ledger_lines (ledger_from 1 ["https://www.youtube.com/watch?v=abc";
                                          "https://www.youtube.com/watch?v=def"])) = 2%nat.
Proof.
  destruct (ledger_after_runs demo_root demo_json
              [demo_invocation "abc"; demo_invocation "def"] demo_world) as (_ & _ & H).
  - left. reflexivity.
  - repeat constructor.
  - repeat constructor; intros request video_id Hid; injection Hid as <-; reflexivity.
  - change (returned [Returned (demo_result 1 "abc"); Returned (demo_result 2 "def")] ≠ []
            → files (run_all demo_root demo_json
                       [demo_invocation "abc"; demo_invocation "def"] demo_world).2
                !! YOUTUBE_LINKS_FILE demo_root
              = Some (ledger_from 1 ["https://www.youtube.com/watch?v=abc";
                                     "https://www.youtube.com/watch?v=def"])
              ∧ ledger_lines (ledger_from 1 ["https://www.youtube.com/watch?v=abc";
                                             "https://www.youtube.com/watch?v=def"])
                = entry_lines 1 ["https://www.youtube.com/watch?v=abc";
                                 "https://www.youtube.com/watch?v=def"]
              ∧ length (ledger_lines (ledger_from 1 ["https://www.youtube.com/watch?v=abc";
                                                      "https://www.youtube.com/watch?v=def"]))
                = 2%nat) in H.
    destruct H as (Hfile & _ & Hlen); [discriminate |]. split; [exact Hfile | exact Hlen].
Defined.

Lemma run_full_pipeline_falsy_overrides_witness :
  pr_meeting_number (demo_result 1 "abc")
  = get_next_meeting_number (files demo_world !! YOUTUBE_LINKS_FILE demo_root)
  ∧ pr_output_dir (demo_result 1 "abc") = output_dir_of demo_root 1 "2024-05-17".
Proof.
  destruct (run_full_pipeline_falsy_overrides demo_root demo_json (demo_ext "abc")
              "/data/meeting.mkv" None None "large-v3" "pl" None "unlisted" demo_world)
    as (_ & _ & H).
  apply (H (demo_result 1 "abc")). reflexivity.
Defined.

(** A failed upload leaves the ledger alone and the artefacts in place. *)
Example failed_upload_demo :
  let ext := demo_ext "abc" in
  let failing :=
    {| ext_host := ext_host ext; ext_today := ext_today ext;
       ext_openai_api_key_env := None;
       ext_faster_whisper_installed := true; ext_openai_installed := false;
       ext_google_client_installed := true; ext_google_auth_installed := true;
       ext_whisper := ext_whisper ext; ext_openai := ext_openai ext;
       ext_ffmpeg_on_path := true; ext_ffmpeg := ext_ffmpeg ext;
       ext_ffmpeg_stderr_decodes := ext_ffmpeg_stderr_decodes ext;
       ext_ffprobe := ext_ffprobe ext;
       ext_token_state := ext_token_state ext;
       ext_refresh_token := ext_refresh_token ext;
       ext_browser_flow := ext_browser_flow ext;
       ext_youtube_insert := λ _, UploadChunk None (UploadRaise (EngineError "quota")) |} in
  let run :=
    run_full_pipeline demo_root demo_json failing "/data/meeting.mkv" None None
      "large-v3" "pl" None "unlisted" demo_world in
  run.1 = Raised (EngineError "quota")
  ∧ files run.2 !! YOUTUBE_LINKS_FILE demo_root = None
  ∧ files run.2 !! pr_video_path (demo_result 1 "abc") = Some "mp4"
  ∧ files run.2 !! pr_transcript_path (demo_result 1 "abc")
    = Some (timestamped_text demo_seg_data).
Proof. cbv zeta. split_and!; reflexivity. Qed.

(** ** The time-stamped transcript *)

Section TranscriptFacts.

Implicit Types (s t : string) (segs : list seg_data).

Lemma strip_closing_app t : strip_closing (t +:+ "]]") = Some t.
Proof.
  induction t as [|c t IH]; [done |].
  rewrite str_app_cons. cbn [strip_closing].
  assert (String.eqb (String c (t +:+ "]]")) "]]" = false) as ->.
  { apply String.eqb_neq. intros H. apply (f_equal String.length) in H.
    simpl in H. rewrite str_length_app in H. simpl in H. lia. }
  by rewrite IH.
Qed.

Lemma parse_timestamp_line_app t : parse_timestamp_line ("[[" +:+ t +:+ "]]") = Some t.
Proof. exact (strip_closing_app t). Qed.

Lemma free_of_zeros (p : ascii → bool) k : p "0"%char = false → free_of p (zeros k) = true.
Proof. intros H0. induction k as [|k IH]; [done |]. cbn [zeros]. by rewrite free_of_cons, H0. Qed.

Lemma free_of_format_0wd (p : ascii → bool) w n :
  avoids_digits p → p "-"%char = false → free_of p (format_0wd w n) = true.
Proof.
  intros Hd Hm. pose proof Hd as (H0 & _). unfold format_0wd.
  destruct (n <? 0); rewrite ?free_of_cons, ?free_of_app, ?Hm, ?free_of_zeros,
    ?free_of_py_str by done; done.
Qed.

Lemma format_timestamp_single_line x t : format_timestamp x = Returned t → single_line t.
Proof.
  unfold format_timestamp, timedelta_of_seconds.
  destruct (_ <=? _); [| done]. cbn [mbind outcome_bind mret outcome_ret].
  intros [= <-]. unfold single_line.
  rewrite !free_of_app, !free_of_format_0wd by (done || apply is_line_break_avoids_digits).
  done.
Qed.

Lemma for_each_Forall2 {A B} (f : A → outcome B) (l : list A) : ∀ l',
  for_each f l = Returned l' → Forall2 (λ x y, f x = Returned y) l l'.
Proof.
  induction l as [|x l IH]; intros l'; cbn [for_each].
  - intros [= <-]. constructor.
  - destruct (f x) as [y|] eqn:Hx; [| done].
    destruct (for_each f l) as [ys|]; [| done].
    intros [= <-]. constructor; [done | by apply IH].
Qed.

Lemma make_seg_data_stamp raw seg :
  make_seg_data raw = Returned seg → single_line (seg_start_formatted seg).
Proof.
  unfold make_seg_data.
  destruct (format_timestamp (rs_start raw)) as [t1|] eqn:H1; [| done].
  destruct (format_timestamp (rs_end raw)) as [t2|] eqn:H2; [| done].
  cbn [mbind outcome_bind mret outcome_ret]. intros [= <-]. cbn.
  by eapply format_timestamp_single_line.
Qed.

Lemma split_line (l rest : string) :
  free_of (Ascii.eqb "010") l = true →
  split (String "010" "") (l +:+ String "010" rest) = l :: split (String "010" "") rest.
Proof.
  intros Hl. unfold split.
  change (String "010" rest) with (String "010" "" +:+ rest).
  rewrite split_from_first; [by rewrite str_app_nil_l | done |].
  change (str_init (String "010" "")) with "". rewrite str_app_nil_r.
  by apply contains_char_free.
Qed.

(** The reader on a file written from segments whose fields hold no line
    break. *)
Lemma parse_timestamped_text_written segs :
  Forall (λ seg, single_line (seg_start_formatted seg) ∧ single_line (seg_text seg)) segs →
  parse_timestamped_text (timestamped_text segs) = Some (seg_pairs segs).
Proof.
  intros Hall. unfold parse_timestamped_text.
  assert (free_of (Ascii.eqb "013") (timestamped_text segs) = true) as Hcr.
  { induction Hall as [|seg segs [Hs Ht] Hall IH]; [done |].
    cbn [timestamped_text]. rewrite !free_of_app, IH.
    by rewrite (single_line_no_cr _ Hs), (single_line_no_cr _ Ht). }
  rewrite universal_newlines_free by done. clear Hcr.
  induction Hall as [|seg segs [Hs Ht] Hall IH]; [done |].
  cbn [timestamped_text].
  rewrite !str_app_assoc.
  assert ("[[" +:+ seg_start_formatted seg +:+ "]]" +:+ String "010" ""
          +:+ seg_text seg +:+ String "010" (String "010" "") +:+ timestamped_text segs
          = ("[[" +:+ seg_start_formatted seg +:+ "]]")
            +:+ String "010" (seg_text seg
            +:+ String "010" ("" +:+ String "010" (timestamped_text segs)))) as ->.
  { rewrite !str_app_assoc. done. }
  rewrite !split_line.
  - cbn [parse_entries]. rewrite decide_True by done.
    rewrite parse_timestamp_line_app, IH. done.
  - done.
  - by apply single_line_no_lf.
  - rewrite !free_of_app, (single_line_no_lf _ Hs). done.
Qed.

(** C7 (amended). For every list of segments that the adapter builds
    from an engine's output and whose texts hold no line break, reading
    the time-stamped file that the adapter writes gives back the same
    ordered list of pairs [(start_formatted, text)]. *)
Theorem timestamped_text_round_trip (raw : list raw_segment) segs :
  for_each make_seg_data raw = Returned segs →
  Forall (λ seg, single_line (seg_text seg)) segs →
  parse_timestamped_text (timestamped_text segs) = Some (seg_pairs segs).
Proof.
  intros Hmade Htexts. apply parse_timestamped_text_written.
  apply for_each_Forall2 in Hmade.
  induction Hmade as [|r seg raw segs Hseg Hrest IH]; [constructor |].
  apply Forall_cons in Htexts as [Ht Htexts].
  constructor; [| by apply IH].
  split; [by eapply make_seg_data_stamp | done].
Qed.

Lemma timestamped_text_round_trip_witness :
  parse_timestamped_text (timestamped_text demo_seg_data)
  = Some [("00:00:00", "Dzien dobry."); ("00:00:02", "Zaczynamy.")].
Proof.
  apply (timestamped_text_round_trip demo_segments demo_seg_data).
  - reflexivity.
  - repeat constructor.
Defined.

(** C7, as stated, fails, and not for want of a better reader: a text
    that holds a blank line and a time-stamp line is written exactly like
    two segments, so no function of the file gives back the pairs of
    every list of segments. *)
Lemma timestamped_text_round_trip_counterexample :
  ¬ ∃ reparse : string → list (string * string),
      ∀ raw segs, for_each make_seg_data raw = Returned segs →
                  reparse (timestamped_text segs) = seg_pairs segs.
Proof.
  intros [reparse Hre].
  assert (for_each make_seg_data ambiguous_one = Returned ambiguous_one_data) as H1
    by reflexivity.
  assert (for_each make_seg_data ambiguous_two = Returned ambiguous_two_data) as H2
    by reflexivity.
  assert (timestamped_text ambiguous_one_data = timestamped_text ambiguous_two_data)
    as Hsame by reflexivity.
  apply Hre in H1. apply Hre in H2. rewrite Hsame, H2 in H1. discriminate H1.
Qed.

End TranscriptFacts.
